(** * libsensors, lib/sysfs.c: the dynamic feature table and the chip scan

    A shallow embedding of [get_type_scaling], [sensors_read_dynamic_chip]
    and [sensors_read_one_sysfs_chip], and the properties of them that the
    specification states.

    Conventions.
    - C [int] values are [Z]; where the source can overflow or step outside
      an array the model returns [None] (undefined behaviour) instead of a
      value.
    - C strings are [string]; a pointer that may be NULL is an [option].
    - Allocation ([strdup], [strndup], [calloc]) is taken to succeed; the
      source terminates the process through [sensors_fatal_error] otherwise.
    - [int] has 32 bits and [long] 64.
    - The constants of sensors.h, data.h, error.h and libsysfs.h and the
      classifier [sensors_feature_get_type] of access.c are not part of
      sysfs.c: they are the fields of the class [SensorsHeader]. *)

From stdpp Require Import base option list strings.
From Stdlib Require Import ZArith Lia Ascii String List Permutation Sorted.

Open Scope string_scope.
Open Scope list_scope.
Open Scope Z_scope.

(** ** What sysfs.c includes *)

Class SensorsHeader := {
  (* sensors.h, enum sensors_feature_type *)
  SENSORS_FEATURE_IN : Z;
  SENSORS_FEATURE_FAN : Z;
  SENSORS_FEATURE_TEMP : Z;
  SENSORS_FEATURE_VID : Z;
  SENSORS_FEATURE_VRM : Z;
  SENSORS_FEATURE_UNKNOWN : Z;
  SENSORS_FEATURE_MAX_SUB_FEATURES : Z;
  (* sensors.h *)
  SENSORS_NO_MAPPING : Z;
  SENSORS_MODE_NO_RW : Z;
  SENSORS_MODE_R : Z;
  SENSORS_MODE_W : Z;
  SENSORS_MODE_RW : Z;
  SENSORS_CHIP_NAME_BUS_ISA : Z;
  SENSORS_CHIP_NAME_BUS_PCI : Z;
  (* error.h *)
  SENSORS_ERR_PARSE : Z;
  (* chips.h *)
  N_PLACEHOLDER_ELEMENTS : Z;
  (* libsysfs.h *)
  SYSFS_METHOD_SHOW : Z;
  SYSFS_METHOD_STORE : Z;
  SYSFS_PATH_MAX : Z;
  (* access.c: sensors_feature_get_type, given the feature's data, of which
     it reads the name only *)
  sensors_feature_get_type : string -> Z
}.

(** The sensor types are 0x100 apart, in the order of the sparse table (in,
    fan, temp, then the misc features, of which vid is "the first"): what
    the masks [type & 0xFF00] and [type & 0xFF10], the shift [type >> 8] and
    the size of [features] in sysfs.c rely on. *)
Record header_ok `{SensorsHeader} : Prop := {
  hdr_in : SENSORS_FEATURE_IN = 0x000;
  hdr_fan : SENSORS_FEATURE_FAN = 0x100;
  hdr_temp : SENSORS_FEATURE_TEMP = 0x200;
  hdr_vid : SENSORS_FEATURE_VID = 0x300;
  hdr_vrm : Z.land SENSORS_FEATURE_VRM 0xFF00 = 0x300
            /\ SENSORS_FEATURE_VRM <> SENSORS_FEATURE_VID;
  hdr_max_sub : 0 < SENSORS_FEATURE_MAX_SUB_FEATURES
}.

(** ** The C library, as far as sysfs.c uses it *)

Module C.

Definition INT_MIN : Z := - 2 ^ 31.
Definition INT_MAX : Z := 2 ^ 31 - 1.
(* LP64 *)
Definition LONG_MIN : Z := - 2 ^ 63.
Definition LONG_MAX : Z := 2 ^ 63 - 1.

(** The value of an [int] expression, [None] on signed overflow. *)
Definition int (z : Z) : option Z :=
  if (INT_MIN <=? z) && (z <=? INT_MAX) then Some z else None.

(** Storing a [long] into an [int]: the low 32 bits, signed. *)
Definition int_of_long (z : Z) : Z := (z + 2 ^ 31) mod 2 ^ 32 - 2 ^ 31.

Definition strlen (s : string) : Z := Z.of_nat (String.length s).

Fixpoint drop_chars (n : nat) (s : string) : string :=
  match n, s with
  | O, _ => s
  | S n', String _ s' => drop_chars n' s'
  | S _, EmptyString => EmptyString
  end.

Fixpoint take_chars (n : nat) (s : string) : string :=
  match n, s with
  | S n', String c s' => String c (take_chars n' s')
  | _, _ => EmptyString
  end.

(** [s + k] for a string [s]: defined up to the terminating NUL. *)
Definition ptr_add (s : string) (k : Z) : option string :=
  if (0 <=? k) && (k <=? strlen s) then Some (drop_chars (Z.to_nat k) s)
  else None.

(** [strndup(s, n)], [n] of type [size_t]: a negative [int] converts to a
    count larger than any string. *)
Definition strndup (s : string) (n : Z) : string :=
  if n <? 0 then s else take_chars (Z.to_nat n) s.

(** [!strcmp(a, b)] *)
Definition streq (a b : string) : bool := String.eqb a b.

(** [!strncmp(a, b, n)] where [b] is a literal of [n] characters. *)
Definition has_prefix (lit s : string) : bool := String.prefix lit s.

Definition tolower (c : ascii) : ascii :=
  let n := N_of_ascii c in
  if ((65 <=? n) && (n <=? 90))%N then ascii_of_N (n + 32) else c.

Fixpoint map_chars (f : ascii -> ascii) (s : string) : string :=
  match s with
  | EmptyString => EmptyString
  | String c s' => String (f c) (map_chars f s')
  end.

(** [!strcasecmp(a, b)] *)
Definition strcaseeq (a b : string) : bool :=
  String.eqb (map_chars tolower a) (map_chars tolower b).

Definition isspace (c : ascii) : bool :=
  let n := N_of_ascii c in ((n =? 32) || ((9 <=? n) && (n <=? 13)))%N.

Fixpoint skip_space (s : string) : string :=
  match s with
  | String c s' => if isspace c then skip_space s' else s
  | EmptyString => s
  end.

Definition digit_value (base : Z) (c : ascii) : option Z :=
  let n := Z.of_N (N_of_ascii c) in
  let v := if (48 <=? n) && (n <=? 57) then n - 48
           else if (97 <=? n) && (n <=? 102) then n - 87
           else if (65 <=? n) && (n <=? 70) then n - 55
           else 16 in
  if v <? base then Some v else None.

(** The digits at the head of [s] in the given base: their value and the rest
    of the string. *)
Fixpoint scan_digits (base acc : Z) (s : string) : Z * string :=
  match s with
  | String c s' =>
      match digit_value base c with
      | Some v => scan_digits base (acc * base + v) s'
      | None => (acc, s)
      end
  | EmptyString => (acc, s)
  end.

Definition starts_with_digit (base : Z) (s : string) : bool :=
  match s with
  | String c _ => bool_decide (is_Some (digit_value base c))
  | EmptyString => false
  end.

(** An optional sign: whether it is a minus, and the rest. *)
Definition scan_sign (s : string) : bool * string :=
  match s with
  | String "-" s' => (true, s')
  | String "+" s' => (false, s')
  | _ => (false, s)
  end.

(** The "0x" or "0X" that may stand before a number in base 16: what
    follows it. *)
Definition hex_prefix (base : Z) (s : string) : option string :=
  match s with
  | String "0" (String x s') =>
      if (base =? 16) && (String.eqb (String x "") "x"
                          || String.eqb (String x "") "X")
      then Some s' else None
  | _ => None
  end.

(** A signed number in the given base after optional white space, as the
    [strtol] family and the [scanf] conversions of glibc read it; [None]
    when there is no digit. In base 16 a "0x" is read with the number, and
    stands for 0 when no digit follows it. *)
Definition scan_number (base : Z) (s : string) : option (Z * string) :=
  let '(neg, s1) := scan_sign (skip_space s) in
  match hex_prefix base s1 with
  | Some s2 =>
      let '(v, rest) := scan_digits base 0 s2 in
      Some (if neg then - v else v, rest)
  | None =>
      if starts_with_digit base s1 then
        let '(v, rest) := scan_digits base 0 s1 in
        Some (if neg then - v else v, rest)
      else None
  end.

Definition clamp_long (z : Z) : Z := Z.max LONG_MIN (Z.min LONG_MAX z).

(** [strtol(s, NULL, 10)] *)
Definition strtol (s : string) : Z :=
  match scan_number 10 s with
  | Some (v, _) => clamp_long v
  | None => 0
  end.

(** A literal character of a [scanf] format. *)
Definition scan_char (c : ascii) (s : string) : option string :=
  match s with
  | String c' s' => if Ascii.eqb c c' then Some s' else None
  | EmptyString => None
  end.

(** The scan set [[a-z0-9_]]. *)
Definition in_ident_set (c : ascii) : bool :=
  let n := N_of_ascii c in
  (((97 <=? n) && (n <=? 122)) || ((48 <=? n) && (n <=? 57)) || (n =? 95))%N.

Fixpoint skip_ident (s : string) : string :=
  match s with
  | String c s' => if in_ident_set c then skip_ident s' else s
  | EmptyString => s
  end.

Definition ULONG_MAX : Z := 2 ^ 64 - 1.

(** What [strtoul] makes of a number read with its sign: the number modulo
    2^64, and ULONG_MAX when it is too large. *)
Definition clamp_ulong (z : Z) : Z :=
  if ULONG_MAX <? Z.abs z then ULONG_MAX else z mod 2 ^ 64.

(** [%d] and [%x] stored through an [int *]: [%d] is converted as [strtol]
    does it and [%x] as [strtoul] does it, and the low 32 bits are stored. *)
Definition scan_int (base : Z) (s : string) : option (Z * string) :=
  match scan_number base s with
  | Some (v, rest) =>
      Some (int_of_long (if base =? 16 then clamp_ulong v else clamp_long v),
            rest)
  | None => None
  end.

(** [sscanf(s, "%d-%x", &bus, &addr) == 2] *)
Definition sscanf_d_x (s : string) : option (Z * Z) :=
  '(bus, s1) ← scan_int 10 s;
  s2 ← scan_char "-" s1;
  '(addr, _) ← scan_int 16 s2;
  Some (bus, addr).

(** [sscanf(s, "%*[a-z0-9_].%d", &addr) == 1] *)
Definition sscanf_ident_d (s : string) : option Z :=
  match s with
  | String c _ =>
      if in_ident_set c then
        s1 ← scan_char "." (skip_ident s);
        '(addr, _) ← scan_int 10 s1;
        Some addr
      else None
  | EmptyString => None
  end.

(** [sscanf(s, "%x:%x:%x.%x", &domain, &bus, &slot, &fn) == 4] *)
Definition sscanf_pci (s : string) : option (Z * Z * Z * Z) :=
  '(domain, s1) ← scan_int 16 s;
  s2 ← scan_char ":" s1;
  '(bus, s3) ← scan_int 16 s2;
  s4 ← scan_char ":" s3;
  '(slot, s5) ← scan_int 16 s4;
  s6 ← scan_char "." s5;
  '(fn, _) ← scan_int 16 s6;
  Some (domain, bus, slot, fn).

(** [%d] of [printf] *)
Fixpoint print_digits (fuel : nat) (n : Z) (acc : string) : string :=
  match fuel with
  | O => acc
  | S fuel' =>
      let acc' := String (ascii_of_N (Z.to_N (48 + n mod 10))) acc in
      if n <? 10 then acc' else print_digits fuel' (n / 10) acc'
  end.

Definition print_int (z : Z) : string :=
  if z <? 0 then "-" +:+ print_digits 20 (- z) "" else print_digits 20 z "".

(** [sscanf(s, "i2c-%d", &number) == 1] *)
Definition sscanf_i2c_d (s : string) : option Z :=
  s1 ← scan_char "i" s;
  s2 ← scan_char "2" s1;
  s3 ← scan_char "c" s2;
  s4 ← scan_char "-" s3;
  '(number, _) ← scan_int 10 s4;
  Some number.

End C.

(** ** get_type_scaling *)

Section Scaling.
Context `{SensorsHeader}.

Definition MAX_SENSORS_PER_TYPE : Z := 16.

Definition get_type_scaling (type : Z) : Z :=
  let masked := Z.land type 0xFF10 in
  if (masked =? SENSORS_FEATURE_IN) || (masked =? SENSORS_FEATURE_TEMP) then 3
  else if masked =? SENSORS_FEATURE_FAN then 0
  else if type =? SENSORS_FEATURE_VID then 3
  else if type =? SENSORS_FEATURE_VRM then 1
  else 0.

End Scaling.

(** ** The data of libsysfs and of data.h that sysfs.c touches *)

(** [struct sysfs_attribute]; [len] is the length of [value]. *)
Record sysfs_attribute := {
  attr_name : string;
  attr_value : string;
  attr_method : Z
}.

Definition attr_len (a : sysfs_attribute) : Z := C.strlen (attr_value a).

(** [struct sysfs_device]: its directory name, its path and the attributes
    of its directory ([None]: the directory cannot be read). *)
Record sysfs_device := {
  dev_name : string;
  dev_path : string;
  dev_attrs : option (list sysfs_attribute)
}.

Definition sysfs_get_device_attributes (dev : sysfs_device)
  : option (list sysfs_attribute) := dev_attrs dev.

Definition sysfs_get_device_attr (dev : sysfs_device) (nm : string)
  : option sysfs_attribute :=
  attrs ← dev_attrs dev;
  List.find (fun a => String.eqb (attr_name a) nm) attrs.

(** [sensors_feature_data] *)
Record sensors_feature_data := {
  data_number : Z;
  data_name : option string;
  data_mapping : Z;
  data_compute_mapping : Z;
  data_mode : Z
}.

(** [sensors_chip_feature] *)
Record sensors_chip_feature := {
  feat_data : sensors_feature_data;
  feat_scaling : Z
}.

(** [sensors_chip_features] *)
Record sensors_chip_features := {
  cf_prefix : option string;
  cf_feature : option (list sensors_chip_feature)
}.

(** What [memset] and [calloc] leave in an element. *)
Definition zero_feature : sensors_chip_feature :=
  {| feat_data := {| data_number := 0; data_name := None; data_mapping := 0;
                     data_compute_mapping := 0; data_mode := 0 |};
     feat_scaling := 0 |}.

Definition occupied (f : sensors_chip_feature) : bool :=
  bool_decide (is_Some (data_name (feat_data f))).

(** [a[i]] on an array held as a list. *)
Definition array_get {A} (a : list A) (i : Z) : option A :=
  if 0 <=? i then a !! Z.to_nat i else None.

(** ** sensors_read_dynamic_chip *)

Section DynamicChip.
Context `{SensorsHeader}.

(** The number of elements of [features]. *)
Definition SPARSE_SIZE : Z :=
  MAX_SENSORS_PER_TYPE * SENSORS_FEATURE_MAX_SUB_FEATURES * 3
  + SENSORS_FEATURE_MAX_SUB_FEATURES.

(** The locals of the function that the loop over the attributes changes:
    the sparse table, [ret.prefix] and [fnum]. *)
Record scan_state := {
  features : list sensors_chip_feature;
  ret_prefix : option string;
  fnum : Z
}.

Definition scan_start : scan_state :=
  {| features := replicate (Z.to_nat SPARSE_SIZE) zero_feature;
     ret_prefix := None;
     fnum := 1 |}.

(** The name of the feature: the attribute's name without "_input". *)
Definition feature_name (name : string) : string :=
  let i := C.strlen name in
  if (6 <? i)
     && from_option (fun t => C.streq t "_input") false (C.ptr_add name (i - 6))
  then C.strndup name (i - 6)
  else name.

(** "Get N as in this is the N-th in / fan / temp sensor": [i] after the
    switch on [type & 0xFF00]. Where no case matches, [i] is still
    [strlen(name)]. *)
Definition sensor_index (name : string) (type : Z) : option Z :=
  let cat := Z.land type 0xFF00 in
  if cat =? SENSORS_FEATURE_IN then
    p ← C.ptr_add name 2; Some (C.int_of_long (C.strtol p))
  else if cat =? SENSORS_FEATURE_FAN then
    p ← C.ptr_add name 3;
    let i := C.int_of_long (C.strtol p) in
    if i =? 0 then Some i else C.int (i - 1)
  else if cat =? SENSORS_FEATURE_TEMP then
    p ← C.ptr_add name 4;
    let i := C.int_of_long (C.strtol p) in
    if i =? 0 then Some i else C.int (i - 1)
  else if cat =? SENSORS_FEATURE_VID then Some 0
  else Some (C.strlen name).

(** The "place to store the feature in our sparse, sorted table". *)
Definition slot_address (type i : Z) : option Z :=
  a ← C.int (Z.shiftr type 8 * MAX_SENSORS_PER_TYPE);
  b ← C.int (a * SENSORS_FEATURE_MAX_SUB_FEATURES);
  c ← C.int (i * SENSORS_FEATURE_MAX_SUB_FEATURES);
  d ← C.int (b + c);
  C.int (d + Z.land type 0xFF).

Definition access_mode (method : Z) : Z :=
  let both := Z.lor SYSFS_METHOD_SHOW SYSFS_METHOD_STORE in
  if Z.land method both =? both then SENSORS_MODE_RW
  else if negb (Z.land method SYSFS_METHOD_SHOW =? 0) then SENSORS_MODE_R
  else if negb (Z.land method SYSFS_METHOD_STORE =? 0) then SENSORS_MODE_W
  else SENSORS_MODE_NO_RW.

(** "fill in the other feature members": the feature stored at slot [i]. *)
Definition new_feature (attr : sysfs_attribute) (type i : Z)
  : sensors_chip_feature :=
  let primary := i - Z.rem i SENSORS_FEATURE_MAX_SUB_FEATURES + 1 in
  let '(m, cm) :=
    if (Z.land type 0xFF00 =? SENSORS_FEATURE_VID)
       || (Z.land type 0x00FF =? 0)
    then (SENSORS_NO_MAPPING, SENSORS_NO_MAPPING)
    else if negb (Z.land type 0x10 =? 0)
    then (primary, SENSORS_NO_MAPPING)
    else (primary, primary) in
  {| feat_data := {| data_number := i + 1;
                     data_name := Some (feature_name (attr_name attr));
                     data_mapping := m;
                     data_compute_mapping := cm;
                     data_mode := access_mode (attr_method attr) |};
     feat_scaling := get_type_scaling type |}.

(** What the loop body decides from the attribute alone. *)
Inductive decoded :=
  | IsName (p : string)      (* the "name" attribute: sets [ret.prefix] *)
  | Ignored                  (* unknown type, or too high an index *)
  | Slot (type i slot : Z).  (* a feature of this type and index *)

Definition decode_attr (attr : sysfs_attribute) : option decoded :=
  let name := attr_name attr in
  if C.streq name "name" then
    Some (IsName (C.strndup (attr_value attr)
                            (C.strlen (attr_value attr) - 1)))
  else
    let type := sensors_feature_get_type (feature_name name) in
    if type =? SENSORS_FEATURE_UNKNOWN then Some Ignored
    else
      i ← sensor_index name type;
      if MAX_SENSORS_PER_TYPE <=? i then Some Ignored
      else
        slot ← slot_address type i;
        Some (Slot type i slot).

(** One turn of [dlist_for_each_data(attrs, attr, ...)]. *)
Definition read_attr (st : scan_state) (attr : sysfs_attribute)
  : option scan_state :=
  d ← decode_attr attr;
  match d with
  | IsName p =>
      Some {| features := features st; ret_prefix := Some p;
              fnum := fnum st |}
  | Ignored => Some st
  | Slot type i slot =>
      old ← array_get (features st) slot;
      if occupied old then Some st   (* duplicate feature *)
      else
        Some {| features := <[Z.to_nat slot := new_feature attr type slot]>
                              (features st);
                ret_prefix := ret_prefix st;
                fnum := fnum st + 1 |}
  end.

Fixpoint read_attrs (st : scan_state) (attrs : list sysfs_attribute)
  : option scan_state :=
  match attrs with
  | [] => Some st
  | attr :: rest => st' ← read_attr st attr; read_attrs st' rest
  end.

(** The second loop: the occupied elements of [features], in the order of
    the table, go to [dyn_features[0]], [dyn_features[1]], ... *)
Fixpoint compact (sparse : list sensors_chip_feature)
    (dyn_features : list sensors_chip_feature) (fnum : Z)
  : option (list sensors_chip_feature) :=
  match sparse with
  | [] => Some dyn_features
  | f :: rest =>
      if occupied f then
        if (0 <=? fnum) && (fnum <? Z.of_nat (length dyn_features)) then
          compact rest (<[Z.to_nat fnum := f]> dyn_features) (fnum + 1)
        else None
      else compact rest dyn_features fnum
  end.

Definition calloc (n : Z) : list sensors_chip_feature :=
  replicate (Z.to_nat n) zero_feature.

Definition sensors_read_dynamic_chip (sysdir : sysfs_device)
  : option sensors_chip_features :=
  match sysfs_get_device_attributes sysdir with
  | None => Some {| cf_prefix := None; cf_feature := None |}
  | Some attrs =>
      st ← read_attrs scan_start attrs;
      dyn_features ← compact (features st) (calloc (fnum st)) 0;
      Some {| cf_prefix := ret_prefix st; cf_feature := Some dyn_features |}
  end.

End DynamicChip.

(** ** sensors_read_one_sysfs_chip *)

(** [sensors_chip_name] *)
Record sensors_chip_name := {
  cn_prefix : string;
  cn_bus : Z;
  cn_addr : Z;
  cn_busname : string
}.

(** [sensors_proc_chips_entry] *)
Record sensors_proc_chips_entry := {
  entry_name : sensors_chip_name
}.

(** An attribute that [sysfs_open_attribute] has opened:
    [sysfs_read_attribute] fails on it, or leaves a value (which the source
    tests against NULL). *)
Inductive opened_attribute :=
  | ReadFails
  | ReadGives (value : option string).

(** The file system the scan runs on: where sysfs is mounted, and what
    [sysfs_open_attribute] finds at a path ([None]: it returns NULL). *)
Record sysfs := {
  sensors_sysfs_mount : string;
  sysfs_open_attribute : string -> option opened_attribute
}.

(** The globals the function changes: the table of known chips,
    the static counter [total_dynamic] and the chip registry that
    [sensors_add_proc_chips] appends to. *)
Record lib_state := {
  sensors_chip_features_list : list sensors_chip_features;
  total_dynamic : Z;
  sensors_proc_chips : list sensors_proc_chips_entry
}.

Section OneChip.
Context `{SensorsHeader}.

(** [x << n] on [int]. *)
Definition shl (x : Z) (n : Z) : option Z :=
  if x <? 0 then None else C.int (Z.shiftl x n).

(** What the chain of [sscanf] calls on [dev->name] ends in. *)
Inductive bus_result :=
  | ParseError
  | OnBus (bus addr : Z).

(** [snprintf(bus_path, sizeof(bus_path), ...)] *)
Definition bus_path (fs : sysfs) (bus : Z) : string :=
  C.take_chars (Z.to_nat (SYSFS_PATH_MAX - 1))
    (sensors_sysfs_mount fs +:+ "/class/i2c-adapter/i2c-" +:+ C.print_int bus
     +:+ "/device/name").

Definition read_bus (fs : sysfs) (name : string) : option bus_result :=
  match C.sscanf_d_x name with
  | Some (bus, addr) =>
      (* find out if legacy ISA or not *)
      if bus =? 9191 then Some (OnBus SENSORS_CHIP_NAME_BUS_ISA addr)
      else
        match sysfs_open_attribute fs (bus_path fs bus) with
        | Some ReadFails => Some ParseError
        | Some (ReadGives value) =>
            if from_option (C.has_prefix "ISA ") false value
            then Some (OnBus SENSORS_CHIP_NAME_BUS_ISA addr)
            else Some (OnBus bus addr)
        | None => Some (OnBus bus addr)
        end
  | None =>
      match C.sscanf_ident_d name with
      | Some addr =>
          (* must be new ISA (platform driver) *)
          Some (OnBus SENSORS_CHIP_NAME_BUS_ISA addr)
      | None =>
          match C.sscanf_pci name with
          | Some (domain, bus, slot, fn) =>
              (* PCI *)
              a ← shl domain 16;
              b ← shl bus 8;
              c ← shl slot 3;
              ab ← C.int (a + b);
              abc ← C.int (ab + c);
              addr ← C.int (abc + fn);
              Some (OnBus SENSORS_CHIP_NAME_BUS_PCI addr)
          | None => Some ParseError
          end
      end
  end.

(** [for (i = 0; list[i].prefix; i++) if (!strcasecmp(...)) break;]
    the index the loop stops at, counting from [i]; [None] when it runs off
    the array. *)
Fixpoint find_chip (list : list sensors_chip_features) (prefix : string)
    (i : nat) : option nat :=
  match list with
  | [] => None
  | e :: rest =>
      match cf_prefix e with
      | None => Some i
      | Some p =>
          if C.strcaseeq p prefix then Some i
          else find_chip rest prefix (S i)
      end
  end.

(** [for (i = 0; list[i].prefix; i++);] *)
Fixpoint end_of_list (list : list sensors_chip_features) (i : nat)
  : option nat :=
  match list with
  | [] => None
  | e :: rest =>
      match cf_prefix e with
      | None => Some i
      | Some _ => end_of_list rest (S i)
      end
  end.

(** "ignore subclients": the test on the "name" attribute. *)
Definition is_subclient (attr : sysfs_attribute) : bool :=
  (11 <=? attr_len attr)
  && from_option (fun t => C.streq t (" subclient" +:+ String "010" ""))
       false (C.ptr_add (attr_value attr) (attr_len attr - 11)).

(** The result is the returned [int] and the globals after the call. *)
Definition sensors_read_one_sysfs_chip (fs : sysfs) (st : lib_state)
    (dev : sysfs_device) : option (Z * lib_state) :=
  (* ignore any device without name attribute *)
  match sysfs_get_device_attr dev "name" with
  | None => Some (0, st)
  | Some attr =>
      if is_subclient attr then Some (0, st)
      else
        let prefix := C.strndup (attr_value attr) (attr_len attr - 1) in
        let busname := dev_path dev in
        r ← read_bus fs (dev_name dev);
        match r with
        | ParseError => Some (- SENSORS_ERR_PARSE, st)
        | OnBus bus addr =>
            let entry :=
              {| entry_name := {| cn_prefix := prefix; cn_bus := bus;
                                  cn_addr := addr; cn_busname := busname |} |}
            in
            let list := sensors_chip_features_list st in
            (* check whether this chip is known in the static list *)
            i ← find_chip list prefix 0;
            e ← list !! i;
            '(list', total') ←
              (* if no chip definition matches *)
              (if bool_decide (cf_prefix e = None)
                  && (total_dynamic st <? N_PLACEHOLDER_ELEMENTS)
               then
                 n_entry ← sensors_read_dynamic_chip dev;
                 (* skip to end of list *)
                 j ← end_of_list list 0;
                 total' ← C.int (total_dynamic st + 1);
                 Some (<[j := n_entry]> list, total')
               else Some (list, total_dynamic st));
            Some (0, {| sensors_chip_features_list := list';
                        total_dynamic := total';
                        sensors_proc_chips :=
                          sensors_proc_chips st ++ [entry] |})
        end
  end.

(** The loop of [sensors_read_sysfs_chips_compat] (and, on the devices of
    the class, of [sensors_read_sysfs_chips]):
    [if ((ret = sensors_read_one_sysfs_chip(dev))) goto exit;] *)
Fixpoint read_chip_devices (fs : sysfs) (st : lib_state)
    (devs : list sysfs_device) : option (Z * lib_state) :=
  match devs with
  | [] => Some (0, st)
  | dev :: rest =>
      '(ret, st') ← sensors_read_one_sysfs_chip fs st dev;
      if ret =? 0 then read_chip_devices fs st' rest else Some (ret, st')
  end.

End OneChip.

(** ** sensors_read_sysfs_chips, sensors_read_sysfs_chips_compat and
       sensors_read_sysfs_bus *)

(** The constants that the three scans use beyond those of [SensorsHeader]:
    of error.h, of sensors.h and of errno.h. *)
Class ScanHeader := {
  SENSORS_ERR_PROC : Z;
  SENSORS_CHIP_NAME_BUS_DUMMY : Z;
  ENOENT : Z
}.

(** What a libsysfs call that opens or lists something returns: NULL, with
    [errno] as the caller then finds it, or the thing. *)
Inductive sysfs_result (A : Type) :=
  | Fails (errno : Z)
  | Gives (a : A).
Arguments Fails {A} errno.
Arguments Gives {A} a.

(** [struct sysfs_class_device]: its name, the attributes of its own
    directory and the device it stands for, if any. *)
Record sysfs_class_device := {
  clsdev_name : string;
  clsdev_attrs : list sysfs_attribute;
  clsdev_device : option sysfs_device
}.

Definition sysfs_get_classdev_attr (clsdev : sysfs_class_device) (nm : string)
  : option sysfs_attribute :=
  List.find (fun a => String.eqb (attr_name a) nm) (clsdev_attrs clsdev).

Definition sysfs_get_classdev_device (clsdev : sysfs_class_device)
  : option sysfs_device := clsdev_device clsdev.

(** [struct sysfs_bus] and [struct sysfs_class], as far as they are used. *)
Record sysfs_bus := {
  sysfs_get_bus_devices : sysfs_result (list sysfs_device)
}.

Record sysfs_class := {
  sysfs_get_class_devices : sysfs_result (list sysfs_class_device)
}.

(** The directories of sysfs beside the attribute files of [sysfs]. *)
Record sysfs_dirs := {
  sysfs_open_bus : string -> sysfs_result sysfs_bus;
  sysfs_open_class : string -> sysfs_result sysfs_class
}.

(** [sensors_bus] *)
Record sensors_bus := {
  bus_number : Z;
  bus_adapter : string
}.

Section Scans.
Context `{SensorsHeader} `{ScanHeader}.

(** [if (errno && errno != ENOENT) ret = -SENSORS_ERR_PROC;] with [ret]
    still 0. *)
Definition ret_of_errno (errno : Z) : Z :=
  if negb (errno =? 0) && negb (errno =? ENOENT) then - SENSORS_ERR_PROC
  else 0.

Definition sensors_read_sysfs_chips_compat (fs : sysfs) (dirs : sysfs_dirs)
    (st : lib_state) : option (Z * lib_state) :=
  match sysfs_open_bus dirs "i2c" with
  | Fails errno => Some (ret_of_errno errno, st)
  | Gives bus =>
      match sysfs_get_bus_devices bus with
      | Fails errno => Some (ret_of_errno errno, st)
      | Gives devs => read_chip_devices fs st devs
      end
  end.

(** The loop of [sensors_read_sysfs_chips] over the devices of the class. *)
Fixpoint read_class_devices (fs : sysfs) (st : lib_state)
    (clsdevs : list sysfs_class_device) : option (Z * lib_state) :=
  match clsdevs with
  | [] => Some (0, st)
  | clsdev :: rest =>
      match sysfs_get_classdev_device clsdev with
      | None => Some (- SENSORS_ERR_PROC, st)
      | Some dev =>
          '(ret, st') ← sensors_read_one_sysfs_chip fs st dev;
          if ret =? 0 then read_class_devices fs st' rest else Some (ret, st')
      end
  end.

Definition sensors_read_sysfs_chips (fs : sysfs) (dirs : sysfs_dirs)
    (st : lib_state) : option (Z * lib_state) :=
  match sysfs_open_class dirs "hwmon" with
  | Fails _ =>
      (* compatibility function for kernel 2.6.n where n <= 13 *)
      sensors_read_sysfs_chips_compat fs dirs st
  | Gives cls =>
      match sysfs_get_class_devices cls with
      | Fails errno => Some (ret_of_errno errno, st)
      | Gives clsdevs => read_class_devices fs st clsdevs
      end
  end.

(** "Get the adapter name from the classdev "name" attribute ... If it
    fails, fall back to the device "name" attribute". *)
Definition adapter_name_attr (clsdev : sysfs_class_device)
  : option sysfs_attribute :=
  match sysfs_get_classdev_attr clsdev "name" with
  | Some attr => Some attr
  | None =>
      dev ← sysfs_get_classdev_device clsdev;
      sysfs_get_device_attr dev "name"
  end.

(** The entry that [sensors_add_proc_bus] receives for an adapter with this
    "name" attribute. *)
Definition adapter_entry (clsdev : sysfs_class_device) (attr : sysfs_attribute)
  : sensors_bus :=
  let adapter := C.strndup (attr_value attr) (attr_len attr - 1) in
  {| bus_adapter := adapter;
     bus_number :=
       if C.has_prefix "ISA " adapter then SENSORS_CHIP_NAME_BUS_ISA
       else match C.sscanf_i2c_d (clsdev_name clsdev) with
            | Some number => number
            | None => SENSORS_CHIP_NAME_BUS_DUMMY
            end |}.

(** The loop of [sensors_read_sysfs_bus]; [sensors_proc_bus] is the bus
    registry that [sensors_add_proc_bus] appends to. *)
Fixpoint read_adapters (sensors_proc_bus : list sensors_bus)
    (clsdevs : list sysfs_class_device) : list sensors_bus :=
  match clsdevs with
  | [] => sensors_proc_bus
  | clsdev :: rest =>
      match adapter_name_attr clsdev with
      | None => read_adapters sensors_proc_bus rest
      | Some attr =>
          read_adapters (sensors_proc_bus ++ [adapter_entry clsdev attr]) rest
      end
  end.

(** The result is the returned [int] and the bus registry after the call. *)
Definition sensors_read_sysfs_bus (dirs : sysfs_dirs)
    (sensors_proc_bus : list sensors_bus) : Z * list sensors_bus :=
  match sysfs_open_class dirs "i2c-adapter" with
  | Fails errno => (ret_of_errno errno, sensors_proc_bus)
  | Gives cls =>
      match sysfs_get_class_devices cls with
      | Fails errno => (ret_of_errno errno, sensors_proc_bus)
      | Gives clsdevs => (0, read_adapters sensors_proc_bus clsdevs)
      end
  end.

End Scans.

(** ** The vocabulary of the properties *)

Section Vocabulary.
Context `{SensorsHeader}.

(** The entry that [sensors_add_proc_chips] receives. *)
Definition chip_entry (dev : sysfs_device) (attr : sysfs_attribute)
    (bus addr : Z) : sensors_proc_chips_entry :=
  {| entry_name :=
       {| cn_prefix := C.strndup (attr_value attr) (attr_len attr - 1);
          cn_bus := bus; cn_addr := addr; cn_busname := dev_path dev |} |}.

(** The table ends in an entry without prefix. *)
Definition terminated (list : list sensors_chip_features) : Prop :=
  exists e, e ∈ list /\ cf_prefix e = None.

(** Where an accepted attribute goes and what is stored for it. *)
Definition placement (attr : sysfs_attribute)
  : option (Z * sensors_chip_feature) :=
  match decode_attr attr with
  | Some (Slot type i slot) => Some (slot, new_feature attr type slot)
  | _ => None
  end.

Definition slot_of (attr : sysfs_attribute) : option Z :=
  fst <$> placement attr.

Definition feature_of (attr : sysfs_attribute) : option sensors_chip_feature :=
  snd <$> placement attr.

(** The category ordinal, index and subtype that the slot address is
    computed from. *)
Definition feature_key (attr : sysfs_attribute) : option (Z * Z * Z) :=
  match decode_attr attr with
  | Some (Slot type i _) => Some (Z.shiftr type 8, i, Z.land type 0xFF)
  | _ => None
  end.

(** The feature of the first attribute of the list placed at slot [j]. *)
Fixpoint first_at (attrs : list sysfs_attribute) (j : Z)
  : option sensors_chip_feature :=
  match attrs with
  | [] => None
  | attr :: rest =>
      match placement attr with
      | Some (slot, f) => if slot =? j then Some f else first_at rest j
      | None => first_at rest j
      end
  end.

(** What a slot holding [f] holds after the attributes [attrs]. *)
Definition fill (attrs : list sysfs_attribute) (j : nat)
    (f : sensors_chip_feature) : sensors_chip_feature :=
  if occupied f then f else default f (first_at attrs (Z.of_nat j)).

(** The features stored in a table, in the order of the table. *)
Definition stored (table : list sensors_chip_feature)
  : list sensors_chip_feature := List.filter occupied table.

(** An attribute that the loop body handles without stepping outside a
    table of [n] elements. *)
Definition attr_fits (n : nat) (attr : sysfs_attribute) : Prop :=
  exists d, decode_attr attr = Some d
            /\ forall type i slot, d = Slot type i slot ->
                                   0 <= slot < Z.of_nat n.

(** The device with other attributes. *)
Definition with_attrs (sysdir : sysfs_device) (attrs : list sysfs_attribute)
  : sysfs_device :=
  {| dev_name := dev_name sysdir; dev_path := dev_path sysdir;
     dev_attrs := Some attrs |}.

Definition number_of (f : sensors_chip_feature) : Z :=
  data_number (feat_data f).

(** The number of the primary feature of the index that slot [slot]
    belongs to: [i - i % SENSORS_FEATURE_MAX_SUB_FEATURES + 1]. *)
Definition primary_number (slot : Z) : Z :=
  slot - Z.rem slot SENSORS_FEATURE_MAX_SUB_FEATURES + 1.

(** An index that is not negative and a subtype below
    SENSORS_FEATURE_MAX_SUB_FEATURES: what the room of the sparse table, 16
    indices of SENSORS_FEATURE_MAX_SUB_FEATURES subtypes for a category,
    takes for granted. *)
Definition key_in_range (attr : sysfs_attribute) : Prop :=
  forall c i s, feature_key attr = Some (c, i, s) ->
                0 <= i /\ s < SENSORS_FEATURE_MAX_SUB_FEATURES.

(** The table holds known chips and then entries without prefix, more of
    them than there is budget left: the placeholders and the entry that ends
    the table. *)
Definition reserved (st : lib_state) : Prop :=
  exists known free,
    sensors_chip_features_list st = known ++ free
    /\ Forall (fun e => cf_prefix e <> None) known
    /\ Forall (fun e => cf_prefix e = None) free
    /\ total_dynamic st <= N_PLACEHOLDER_ELEMENTS
    /\ N_PLACEHOLDER_ELEMENTS - total_dynamic st < Z.of_nat (length free).

End Vocabulary.

(** ** A header to evaluate the functions with *)

Module Sample.

(** Modelled from the spec: access.c, which defines
    [sensors_feature_get_type], is not among the sources. Following section
    4.1: a name beginning with "in", "fan" or "temp" and a decimal index is
    Voltage, Fan or Temperature; the rest of the name gives the subtype, the
    bare name being the primary value, "_min" and "_max" computed
    sub-readings and "_alarm" a sub-reading with the "non-computed" flag
    (0x10); "cpu0_vid" and "vrm" are the Vid and Vrm identifiers; anything
    else is Unknown. *)
Definition subtype_of_suffix (suffix : string) : option Z :=
  if String.eqb suffix "" then Some 0x00
  else if String.eqb suffix "_min" then Some 0x01
  else if String.eqb suffix "_max" then Some 0x02
  else if String.eqb suffix "_alarm" then Some 0x10
  else None.

Definition UNKNOWN : Z := C.INT_MAX.

Definition classify (category : Z) (rest : string) : Z :=
  if C.starts_with_digit 10 rest then
    match subtype_of_suffix (snd (C.scan_digits 10 0 rest)) with
    | Some sub => category + sub
    | None => UNKNOWN
    end
  else UNKNOWN.

Definition get_type (name : string) : Z :=
  if String.eqb name "cpu0_vid" then 0x300
  else if String.eqb name "vrm" then 0x301
  else if String.prefix "temp" name then classify 0x200 (C.drop_chars 4 name)
  else if String.prefix "fan" name then classify 0x100 (C.drop_chars 3 name)
  else if String.prefix "in" name then classify 0x000 (C.drop_chars 2 name)
  else UNKNOWN.

(** Modelled from the spec: sensors.h, data.h, error.h, chips.h and
    libsysfs.h are not among the sources. The categories are numbered in the
    order of section 3 (Voltage, Fan, Temperature, then the misc features),
    0x100 apart; the sentinels are distinct negative values; there is room
    for 22 subtypes per index and for 2 dynamic chips. *)
#[export] Instance header : SensorsHeader := {|
  SENSORS_FEATURE_IN := 0x000;
  SENSORS_FEATURE_FAN := 0x100;
  SENSORS_FEATURE_TEMP := 0x200;
  SENSORS_FEATURE_VID := 0x300;
  SENSORS_FEATURE_VRM := 0x301;
  SENSORS_FEATURE_UNKNOWN := UNKNOWN;
  SENSORS_FEATURE_MAX_SUB_FEATURES := 22;
  SENSORS_NO_MAPPING := -1;
  SENSORS_MODE_NO_RW := 0;
  SENSORS_MODE_R := 1;
  SENSORS_MODE_W := 2;
  SENSORS_MODE_RW := 3;
  SENSORS_CHIP_NAME_BUS_ISA := -1;
  SENSORS_CHIP_NAME_BUS_PCI := -5;
  SENSORS_ERR_PARSE := 8;
  N_PLACEHOLDER_ELEMENTS := 2;
  SYSFS_METHOD_SHOW := 1;
  SYSFS_METHOD_STORE := 2;
  SYSFS_PATH_MAX := 256;
  sensors_feature_get_type := get_type
|}.

Definition attr (name : string) : sysfs_attribute :=
  {| attr_name := name; attr_value := "0" +:+ String "010" ""; attr_method := 1 |}.

(** A device with the given directory name, "name" attribute (without the
    newline that ends it) and further attributes. *)
Definition device (dir name : string) (names : list string) : sysfs_device :=
  {| dev_name := dir; dev_path := "/sys/bus/i2c/devices/" +:+ dir;
     dev_attrs := Some ({| attr_name := "name";
                           attr_value := name +:+ String "010" "";
                           attr_method := 1 |} :: List.map attr names) |}.

Definition chip (names : list string) : sysfs_device :=
  device "0-002d" "w83781d" names.

(** A sysfs mounted on /sys whose i2c adapters 0 and 4 have a "name"
    attribute, the one of adapter 4 being that of an ISA bridge and the one
    of adapter 7 being unreadable. *)
Definition fs : sysfs :=
  {| sensors_sysfs_mount := "/sys";
     sysfs_open_attribute := fun path =>
       if String.eqb path "/sys/class/i2c-adapter/i2c-0/device/name"
       then Some (ReadGives (Some ("SMBus I801 adapter" +:+ String "010" "")))
       else if String.eqb path "/sys/class/i2c-adapter/i2c-4/device/name"
       then Some (ReadGives (Some ("ISA adapter" +:+ String "010" "")))
       else if String.eqb path "/sys/class/i2c-adapter/i2c-7/device/name"
       then Some ReadFails
       else None |}.

Definition known (prefix : string) : sensors_chip_features :=
  {| cf_prefix := Some prefix; cf_feature := Some [zero_feature] |}.

Definition placeholder : sensors_chip_features :=
  {| cf_prefix := None; cf_feature := None |}.

(** A table of two known chips, the placeholders and the final entry. *)
Definition start : lib_state :=
  {| sensors_chip_features_list :=
       [known "lm78"; known "lm75"; placeholder; placeholder; placeholder];
     total_dynamic := 0;
     sensors_proc_chips := [] |}.

(** The same table with the two placeholders used. *)
Definition full : lib_state :=
  {| sensors_chip_features_list :=
       [known "lm78"; known "lm75"; known "w83781d"; known "it87";
        placeholder];
     total_dynamic := 2;
     sensors_proc_chips := [] |}.

End Sample.

(** ** Further vocabulary and sample data *)

Definition newline : string := String "010" "".

(** The value of a "name" attribute with the newline chopped off, as both
    [sensors_read_dynamic_chip] and [sensors_read_one_sysfs_chip] do it. *)
Definition chopped (attr : sysfs_attribute) : string :=
  C.strndup (attr_value attr) (attr_len attr - 1).

Definition is_name (attr : sysfs_attribute) : bool :=
  C.streq (attr_name attr) "name".

(** ** What sensors_read_dynamic_chip prints on stderr *)

Definition too_many_message (name : string) : string :=
  "libsensors error, more sensors of one type then MAX_SENSORS_PER_TYPE, "
  +:+ "ignoring feature: " +:+ name +:+ newline.

Definition duplicate_message (name : string) : string :=
  "libsensors error, trying to add duplicate feature: " +:+ name
  +:+ " to dynamic feature table" +:+ newline.

Section Diagnostics.
Context `{SensorsHeader}.

(** The calls of [fprintf(stderr, ...)] of one turn of the loop, in the
    state the turn starts in: one where the index is too high, one where the
    slot is taken. *)
Definition attr_stderr (st : scan_state) (attr : sysfs_attribute)
  : list string :=
  let name := attr_name attr in
  if C.streq name "name" then []
  else
    let type := sensors_feature_get_type (feature_name name) in
    if type =? SENSORS_FEATURE_UNKNOWN then []
    else
      match sensor_index name type with
      | None => []
      | Some i =>
          if MAX_SENSORS_PER_TYPE <=? i then [too_many_message name]
          else
            match slot_address type i with
            | None => []
            | Some slot =>
                match array_get (features st) slot with
                | Some old =>
                    if occupied old then [duplicate_message name] else []
                | None => []
                end
            end
      end.

(** What the loop over the attributes prints. *)
Fixpoint attrs_stderr (st : scan_state) (attrs : list sysfs_attribute)
  : list string :=
  match attrs with
  | [] => []
  | attr :: rest =>
      attr_stderr st attr
      ++ match read_attr st attr with
         | Some st' => attrs_stderr st' rest
         | None => []
         end
  end.

End Diagnostics.

Section MoreVocabulary.
Context `{SensorsHeader}.

(** A type and index that the sparse table has a slot for: one of the three
    categories with 16 indices each, or the misc category with its one
    index, and a subtype below SENSORS_FEATURE_MAX_SUB_FEATURES. *)
Definition type_in_range (type i : Z) : Prop :=
  0 <= i < MAX_SENSORS_PER_TYPE
  /\ Z.land type 0xFF < SENSORS_FEATURE_MAX_SUB_FEATURES
  /\ (0 <= Z.shiftr type 8 <= 2 \/ (Z.shiftr type 8 = 3 /\ i = 0)).

(** An attribute that the loop decodes without undefined behaviour, to a
    type and index in range if it is a feature. *)
Definition decodes_in_range (attr : sysfs_attribute) : Prop :=
  exists d, decode_attr attr = Some d
            /\ forall type i slot, d = Slot type i slot ->
                                   type_in_range type i.

(** The chip registry has grown by at most [n] entries. *)
Definition registry_grown (st st' : lib_state) (n : nat) : Prop :=
  exists added,
    sensors_proc_chips st' = sensors_proc_chips st ++ added
    /\ (length added <= n)%nat.

(** The table holds [known] chips, none of them with the given prefix, and
    then free entries. *)
Definition unknown_in (prefix : string) (known free : list sensors_chip_features)
  : Prop :=
  Forall (fun e => exists q, cf_prefix e = Some q
                             /\ C.strcaseeq q prefix = false) known
  /\ Forall (fun e => cf_prefix e = None) free
  /\ free <> [].

End MoreVocabulary.

Module SampleScan.

(** Modelled from the spec: error.h, sensors.h and errno.h are not among the
    sources; the dummy bus is a further negative sentinel. *)
#[export] Instance header : ScanHeader := {|
  SENSORS_ERR_PROC := 4;
  SENSORS_CHIP_NAME_BUS_DUMMY := -4;
  ENOENT := 2
|}.

Definition name_attr (value : string) : sysfs_attribute :=
  {| attr_name := "name"; attr_value := value +:+ newline; attr_method := 1 |}.

(** Four adapters: one named by its class device, an ISA bridge, one named
    by its device only, and one without name. *)
Definition adapters : list sysfs_class_device :=
  [ {| clsdev_name := "i2c-0";
       clsdev_attrs := [name_attr "SMBus I801 adapter at 0400"];
       clsdev_device := None |};
    {| clsdev_name := "i2c-9191";
       clsdev_attrs := [name_attr "ISA main adapter"];
       clsdev_device := None |};
    {| clsdev_name := "i2c-2";
       clsdev_attrs := [];
       clsdev_device := Some (Sample.device "i2c-2" "bt878 #0 [sw]" []) |};
    {| clsdev_name := "i2c-3"; clsdev_attrs := []; clsdev_device := None |} ].

(** A sysfs without hwmon class, as of the kernels before 2.6.14, with one
    chip on the i2c bus. *)
Definition old_kernel : sysfs_dirs :=
  {| sysfs_open_bus := fun name =>
       if String.eqb name "i2c"
       then Gives {| sysfs_get_bus_devices :=
                       Gives [Sample.device "0-0048" "lm75" ["temp1_input"]] |}
       else Fails 2;
     sysfs_open_class := fun name =>
       if String.eqb name "i2c-adapter"
       then Gives {| sysfs_get_class_devices := Gives adapters |}
       else Fails 2 |}.

(** A sysfs with nothing in it. *)
Definition no_sensors : sysfs_dirs :=
  {| sysfs_open_bus := fun _ => Fails 2;
     sysfs_open_class := fun _ => Fails 2 |}.

(** A sysfs on which every call fails with EACCES. *)
Definition no_access : sysfs_dirs :=
  {| sysfs_open_bus := fun _ => Fails 13;
     sysfs_open_class := fun _ => Fails 13 |}.

End SampleScan.

(** * Properties *)

Lemma sample_header_ok : @header_ok Sample.header.
Proof. split; try reflexivity; try split; try reflexivity; try discriminate. Qed.

(** ** The scaling of a feature *)

Section ScalingFacts.
Context `{SensorsHeader}.

Lemma land_FF10_flag (t : Z) :
  Z.land (Z.land t 0xFF10) 0x10 = Z.land t 0x10.
Proof. now rewrite <- Z.land_assoc. Qed.

Lemma land_FF10_no_flag (t : Z) :
  Z.land t 0x10 = 0 -> Z.land t 0xFF10 = Z.land t 0xFF00.
Proof.
  intros Hflag.
  change 0xFF10 with (Z.lor 0xFF00 0x10).
  now rewrite Z.land_lor_distr_r, Hflag, Z.lor_0_r.
Qed.

Lemma land_FF10_category (t : Z) :
  Z.land (Z.land t 0xFF10) 0xFF00 = Z.land t 0xFF00.
Proof. now rewrite <- Z.land_assoc. Qed.

(** With the flag 0x10 set, [type & 0xFF10] is none of the three labels of
    the first switch. *)
Lemma flagged_matches_no_case (t : Z) :
  header_ok -> Z.land t 0x10 <> 0 ->
  Z.land t 0xFF10 <> SENSORS_FEATURE_IN
  /\ Z.land t 0xFF10 <> SENSORS_FEATURE_TEMP
  /\ Z.land t 0xFF10 <> SENSORS_FEATURE_FAN.
Proof.
  intros Hok Hflag.
  rewrite (hdr_in Hok), (hdr_temp Hok), (hdr_fan Hok).
  repeat split; intros Heq; apply Hflag;
    rewrite <- land_FF10_flag, Heq; reflexivity.
Qed.

Lemma get_type_scaling_computed (t : Z) :
  header_ok ->
  Z.land t 0xFF00 = SENSORS_FEATURE_IN \/ Z.land t 0xFF00 = SENSORS_FEATURE_TEMP ->
  Z.land t 0x10 = 0 -> get_type_scaling t = 3.
Proof.
  intros Hok Hcat Hflag. unfold get_type_scaling.
  rewrite (land_FF10_no_flag _ Hflag).
  destruct Hcat as [-> | ->]; rewrite Z.eqb_refl; [reflexivity|].
  now rewrite orb_true_r.
Qed.

Lemma misc_category_differs (t : Z) :
  header_ok ->
  Z.land t 0xFF00 = SENSORS_FEATURE_IN \/ Z.land t 0xFF00 = SENSORS_FEATURE_TEMP
  \/ Z.land t 0xFF00 = SENSORS_FEATURE_FAN ->
  t <> SENSORS_FEATURE_VID /\ t <> SENSORS_FEATURE_VRM.
Proof.
  intros Hok Hcat.
  rewrite (hdr_in Hok), (hdr_temp Hok), (hdr_fan Hok) in Hcat.
  destruct (hdr_vrm Hok) as [Hvrm _].
  split; intros ->.
  - rewrite (hdr_vid Hok) in Hcat.
    destruct Hcat as [Hc | [Hc | Hc]]; vm_compute in Hc; discriminate.
  - rewrite Hvrm in Hcat. lia.
Qed.

Lemma get_type_scaling_flagged (t : Z) :
  header_ok ->
  Z.land t 0xFF00 = SENSORS_FEATURE_IN \/ Z.land t 0xFF00 = SENSORS_FEATURE_TEMP
  \/ Z.land t 0xFF00 = SENSORS_FEATURE_FAN ->
  Z.land t 0x10 <> 0 -> get_type_scaling t = 0.
Proof.
  intros Hok Hcat Hflag. unfold get_type_scaling.
  destruct (flagged_matches_no_case t Hok Hflag) as (Hin & Htemp & Hfan).
  destruct (misc_category_differs t Hok Hcat) as [Hvid Hvrm].
  apply Z.eqb_neq in Hin, Htemp, Hfan, Hvid, Hvrm.
  now rewrite Hin, Htemp, Hfan, Hvid, Hvrm.
Qed.

Lemma get_type_scaling_fan (t : Z) :
  header_ok -> Z.land t 0xFF00 = SENSORS_FEATURE_FAN -> get_type_scaling t = 0.
Proof.
  intros Hok Hcat.
  destruct (Z.eq_dec (Z.land t 0x10) 0) as [Hflag | Hflag].
  - unfold get_type_scaling.
    rewrite (land_FF10_no_flag _ Hflag), Hcat.
    rewrite (hdr_in Hok), (hdr_temp Hok), (hdr_fan Hok). reflexivity.
  - apply get_type_scaling_flagged; auto.
Qed.

Lemma get_type_scaling_misc (t : Z) :
  header_ok ->
  (t = SENSORS_FEATURE_VID -> get_type_scaling t = 3)
  /\ (t = SENSORS_FEATURE_VRM -> get_type_scaling t = 1).
Proof.
  intros Hok. destruct (hdr_vrm Hok) as [Hvrm Hne].
  assert (Hmask : forall u, Z.land u 0xFF00 = 0x300 ->
            Z.land u 0xFF10 <> 0x000 /\ Z.land u 0xFF10 <> 0x200
            /\ Z.land u 0xFF10 <> 0x100).
  { intros u Hu. repeat split; intros Heq;
      rewrite <- land_FF10_category, Heq in Hu; discriminate. }
  unfold get_type_scaling.
  rewrite (hdr_in Hok), (hdr_temp Hok), (hdr_fan Hok).
  split; intros ->.
  - rewrite (hdr_vid Hok). reflexivity.
  - destruct (Hmask _ Hvrm) as (H1 & H2 & H3).
    apply Z.eqb_neq in H1, H2, H3, Hne.
    now rewrite H1, H2, H3, Hne, Z.eqb_refl.
Qed.

Lemma decode_attr_type (attr : sysfs_attribute) (type i slot : Z) :
  decode_attr attr = Some (Slot type i slot) ->
  type = sensors_feature_get_type (feature_name (attr_name attr))
  /\ type <> SENSORS_FEATURE_UNKNOWN
  /\ C.streq (attr_name attr) "name" = false
  /\ sensor_index (attr_name attr) type = Some i
  /\ i < MAX_SENSORS_PER_TYPE
  /\ slot_address type i = Some slot.
Proof.
  unfold decode_attr.
  destruct (C.streq (attr_name attr) "name"); [discriminate|].
  destruct (Z.eqb_spec (sensors_feature_get_type (feature_name (attr_name attr)))
              SENSORS_FEATURE_UNKNOWN) as [|Hunk]; [discriminate|].
  destruct (sensor_index _ _) as [i'|] eqn:Hidx; [|discriminate]. simpl.
  destruct (Z.leb_spec MAX_SENSORS_PER_TYPE i'); [discriminate|].
  destruct (slot_address _ i') as [slot'|] eqn:Hslot; [|discriminate]. simpl.
  intros [= <- <- <-]. auto 10.
Qed.

(** C2, amended: the scaling of an accepted attribute follows its category
    and the flag 0x10 of its subtype. Voltage and Temperature features get 3
    when the flag is clear (the primary value and the computed sub-readings)
    and 0 when it is set (alarms and the other sub-readings without compute
    mapping); Fan features get 0 for every subtype; Vid gets 3 and Vrm 1. *)
Theorem scaling_by_category_and_flag (attr : sysfs_attribute) (type i slot : Z) :
  header_ok ->
  decode_attr attr = Some (Slot type i slot) ->
  let category := Z.land type 0xFF00 in
  let scaling := feat_scaling (new_feature attr type slot) in
  (category = SENSORS_FEATURE_IN \/ category = SENSORS_FEATURE_TEMP ->
     (Z.land type 0x10 = 0 -> scaling = 3)
     /\ (Z.land type 0x10 <> 0 -> scaling = 0))
  /\ (category = SENSORS_FEATURE_FAN -> scaling = 0)
  /\ (type = SENSORS_FEATURE_VID -> scaling = 3)
  /\ (type = SENSORS_FEATURE_VRM -> scaling = 1).
Proof.
  intros Hok _ category scaling.
  assert (Hs : scaling = get_type_scaling type).
  { unfold scaling, new_feature. repeat case_match; reflexivity. }
  rewrite Hs. subst category. repeat split.
  - now apply get_type_scaling_computed.
  - apply get_type_scaling_flagged; tauto.
  - now apply get_type_scaling_fan.
  - now apply get_type_scaling_misc.
  - now apply get_type_scaling_misc.
Qed.

End ScalingFacts.

Section ScalingExamples.
#[local] Existing Instance Sample.header.

Lemma scaling_by_category_and_flag_witness :
  decode_attr (Sample.attr "temp2_max") = Some (Slot 0x202 1 728)
  /\ feat_scaling (new_feature (Sample.attr "temp2_max") 0x202 728) = 3.
Proof.
  assert (Hdec : decode_attr (Sample.attr "temp2_max")
                 = Some (Slot 0x202 1 728)) by reflexivity.
  split; [exact Hdec|].
  destruct (scaling_by_category_and_flag (Sample.attr "temp2_max") 0x202 1 728
              sample_header_ok Hdec) as [Hcomputed _].
  apply Hcomputed; [right|]; reflexivity.
Defined.

(** C2 as stated fails: "in0_alarm" is a Voltage sub-reading, and its
    scaling is 0, not 3. *)
Lemma voltage_alarm_scaling_is_0 :
  decode_attr (Sample.attr "in0_alarm") = Some (Slot 0x010 0 16)
  /\ Z.land 0x010 0xFF00 = SENSORS_FEATURE_IN
  /\ feat_scaling (new_feature (Sample.attr "in0_alarm") 0x010 16) = 0
  /\ cf_feature <$> sensors_read_dynamic_chip (Sample.chip ["in0_alarm"])
     = Some (Some [new_feature (Sample.attr "in0_alarm") 0x010 16;
                   zero_feature]).
Proof. vm_compute. auto. Qed.

End ScalingExamples.

(** ** The scan of one chip *)

Section OneChipFacts.
Context `{SensorsHeader}.

Lemma find_chip_lookup (list : list sensors_chip_features) (p : string)
    (k i : nat) :
  find_chip list p k = Some i ->
  (k <= i)%nat /\ exists e, list !! (i - k)%nat = Some e
    /\ (cf_prefix e = None
        \/ exists q, cf_prefix e = Some q /\ C.strcaseeq q p = true).
Proof.
  revert k. induction list as [|e rest IH]; intros k; simpl; [discriminate|].
  destruct (cf_prefix e) as [q|] eqn:Hq.
  - destruct (C.strcaseeq q p) eqn:Hcmp.
    + intros [= <-]. split; [lia|]. rewrite Nat.sub_diag. eauto 10.
    + intros Hfind. destruct (IH _ Hfind) as (Hle & e' & Hlook & He').
      split; [lia|]. exists e'. split; [|exact He'].
      replace (i - k)%nat with (S (i - S k)) by lia. exact Hlook.
  - intros [= <-]. split; [lia|]. rewrite Nat.sub_diag. eauto.
Qed.

Lemma find_chip_terminated (list : list sensors_chip_features) (p : string)
    (k : nat) :
  terminated list -> is_Some (find_chip list p k).
Proof.
  intros (e & Hin & He). revert k.
  induction list as [|e' rest IH]; intros k; [inversion Hin|].
  simpl. destruct (cf_prefix e') as [q|] eqn:Hq; [|eauto].
  destruct (C.strcaseeq q p); [eauto|].
  apply IH. apply elem_of_cons in Hin as [-> | Hin]; [congruence | exact Hin].
Qed.

Lemma end_of_list_bound (list : list sensors_chip_features) (k j : nat) :
  end_of_list list k = Some j -> (k <= j < k + length list)%nat.
Proof.
  revert k. induction list as [|e rest IH]; intros k; simpl; [discriminate|].
  destruct (cf_prefix e).
  - intros Hend. apply IH in Hend. lia.
  - intros [= <-]. lia.
Qed.

(** The chip of a device that is not skipped and whose bus is resolved: it
    is registered, whatever happens to the table of known chips, and the
    table keeps its size. *)
Lemma resolved_chip_registered (fs : sysfs) (st : lib_state)
    (dev : sysfs_device) (attr : sysfs_attribute) (bus addr r : Z)
    (st' : lib_state) :
  sysfs_get_device_attr dev "name" = Some attr ->
  is_subclient attr = false ->
  read_bus fs (dev_name dev) = Some (OnBus bus addr) ->
  sensors_read_one_sysfs_chip fs st dev = Some (r, st') ->
  r = 0
  /\ sensors_proc_chips st'
     = sensors_proc_chips st ++ [chip_entry dev attr bus addr]
  /\ length (sensors_chip_features_list st')
     = length (sensors_chip_features_list st).
Proof.
  intros Hname Hsub Hbus. unfold sensors_read_one_sysfs_chip.
  rewrite Hname, Hsub, Hbus. simpl.
  destruct (find_chip _ _ 0) as [i|]; [|discriminate]. simpl.
  destruct (sensors_chip_features_list st !! i) as [e|]; [|discriminate]. simpl.
  destruct (bool_decide (cf_prefix e = None)
            && (total_dynamic st <? N_PLACEHOLDER_ELEMENTS)).
  - destruct (sensors_read_dynamic_chip dev) as [n_entry|]; [|discriminate].
    simpl. destruct (end_of_list _ 0) as [j|]; [|discriminate]. simpl.
    destruct (C.int _) as [total'|]; [|discriminate]. simpl.
    intros [= <- <-]. simpl. now rewrite length_insert.
  - simpl. intros [= <- <-]. auto.
Qed.

(** C9: a device without "name" attribute is skipped: the call returns 0 and
    leaves the table of known chips, the budget and the chip registry as they
    were. *)
Theorem device_without_name_skipped (fs : sysfs) (st : lib_state)
    (dev : sysfs_device) :
  sysfs_get_device_attr dev "name" = None ->
  sensors_read_one_sysfs_chip fs st dev = Some (0, st).
Proof. intros Hname. unfold sensors_read_one_sysfs_chip. now rewrite Hname. Qed.

(** C6: a device named "<decimal-bus>-<hex-addr>" is on the ISA bus when the
    bus is 9191, whatever the file system holds (no adapter is looked up);
    otherwise the value of its adapter's "name" attribute decides: ISA when
    it starts with "ISA ", and else the I2C bus of the parsed number. The
    chip is registered on the bus it is classified to. *)
Theorem bus_classification (fs : sysfs) (dev : sysfs_device) (bus addr : Z) :
  C.sscanf_d_x (dev_name dev) = Some (bus, addr) ->
  (bus = 9191 ->
     forall fs', read_bus fs' (dev_name dev)
                 = Some (OnBus SENSORS_CHIP_NAME_BUS_ISA addr))
  /\ (bus <> 9191 ->
      forall value,
        sysfs_open_attribute fs (bus_path fs bus)
        = Some (ReadGives (Some value)) ->
        (C.has_prefix "ISA " value = true ->
           read_bus fs (dev_name dev)
           = Some (OnBus SENSORS_CHIP_NAME_BUS_ISA addr))
        /\ (C.has_prefix "ISA " value = false ->
            read_bus fs (dev_name dev) = Some (OnBus bus addr)))
  /\ (forall classified attr st r st',
        read_bus fs (dev_name dev) = Some (OnBus classified addr) ->
        sysfs_get_device_attr dev "name" = Some attr ->
        is_subclient attr = false ->
        sensors_read_one_sysfs_chip fs st dev = Some (r, st') ->
        r = 0
        /\ sensors_proc_chips st'
           = sensors_proc_chips st ++ [chip_entry dev attr classified addr]).
Proof.
  intros Hscan. split; [|split].
  - intros -> fs'. unfold read_bus. now rewrite Hscan.
  - intros Hbus value Hopen. apply Z.eqb_neq in Hbus.
    unfold read_bus. rewrite Hscan, Hbus, Hopen.
    simpl. split; intros ->; reflexivity.
  - intros classified attr st r st' Hread Hname Hsub Hone.
    destruct (resolved_chip_registered _ _ _ _ _ _ _ _ Hname Hsub Hread Hone)
      as (Hr & Hreg & _).
    auto.
Qed.

(** C3, amended: for a device that has a "name" attribute, is no subclient
    and is named "<decimal-bus>-<hex-addr>" with a bus other than 9191: when
    the adapter's "name" attribute can be opened and reading it fails, the
    call returns the parse error without touching the globals, and the scan
    stops there; when the attribute cannot be opened, there is no error and
    the chip stays on the I2C bus of the parsed number. *)
Theorem adapter_name_read_failure (fs : sysfs) (st : lib_state)
    (dev : sysfs_device) (attr : sysfs_attribute) (bus addr : Z)
    (rest : list sysfs_device) :
  SENSORS_ERR_PARSE <> 0 ->
  sysfs_get_device_attr dev "name" = Some attr ->
  is_subclient attr = false ->
  C.sscanf_d_x (dev_name dev) = Some (bus, addr) ->
  bus <> 9191 ->
  (sysfs_open_attribute fs (bus_path fs bus) = Some ReadFails ->
     sensors_read_one_sysfs_chip fs st dev = Some (- SENSORS_ERR_PARSE, st)
     /\ read_chip_devices fs st (dev :: rest)
        = Some (- SENSORS_ERR_PARSE, st))
  /\ (sysfs_open_attribute fs (bus_path fs bus) = None ->
      read_bus fs (dev_name dev) = Some (OnBus bus addr)
      /\ forall r st',
           sensors_read_one_sysfs_chip fs st dev = Some (r, st') ->
           r = 0
           /\ sensors_proc_chips st'
              = sensors_proc_chips st ++ [chip_entry dev attr bus addr]).
Proof.
  intros Herr Hname Hsub Hscan Hbus. apply Z.eqb_neq in Hbus. split.
  - intros Hopen.
    assert (Hone : sensors_read_one_sysfs_chip fs st dev
                   = Some (- SENSORS_ERR_PARSE, st)).
    { unfold sensors_read_one_sysfs_chip, read_bus.
      now rewrite Hname, Hsub, Hscan, Hbus, Hopen. }
    split; [exact Hone|]. simpl. rewrite Hone. simpl.
    destruct (Z.eqb_spec (- SENSORS_ERR_PARSE) 0); [lia | reflexivity].
  - intros Hopen.
    assert (Hread : read_bus fs (dev_name dev) = Some (OnBus bus addr)).
    { unfold read_bus. now rewrite Hscan, Hbus, Hopen. }
    split; [exact Hread|]. intros r st' Hone.
    destruct (resolved_chip_registered _ _ _ _ _ _ _ _ Hname Hsub Hread Hone)
      as (Hr & Hreg & _).
    auto.
Qed.

Lemma end_of_list_known (known free : list sensors_chip_features) (k : nat) :
  Forall (fun e => cf_prefix e <> None) known ->
  Forall (fun e => cf_prefix e = None) free ->
  free <> [] ->
  end_of_list (known ++ free) k = Some (k + length known)%nat.
Proof.
  intros Hknown Hfree Hne. revert k.
  induction Hknown as [|e known He _ IH]; intros k; simpl.
  - destruct free as [|e rest]; [congruence|]. simpl.
    apply Forall_inv in Hfree. rewrite Hfree. f_equal. lia.
  - destruct (cf_prefix e); [|congruence]. rewrite IH. f_equal. lia.
Qed.

Lemma int_Some (z y : Z) : C.int z = Some y -> y = z.
Proof. unfold C.int. destruct (_ && _); [now intros [= <-] | discriminate]. Qed.

(** A call keeps the table within the room reserved for it: what is written
    goes to a placeholder, and the entry that ends the table stays. *)
Lemma reserved_room_kept (fs : sysfs) (st st' : lib_state)
    (dev : sysfs_device) (r : Z) :
  reserved st ->
  sensors_read_one_sysfs_chip fs st dev = Some (r, st') ->
  reserved st'.
Proof.
  intros Hres. unfold sensors_read_one_sysfs_chip.
  destruct (sysfs_get_device_attr dev "name") as [attr|];
    [|now intros [= <- <-]].
  destruct (is_subclient attr); [now intros [= <- <-]|].
  destruct (read_bus fs (dev_name dev)) as [[|bus addr]|]; simpl;
    [now intros [= <- <-] | | discriminate].
  destruct (find_chip _ _ 0) as [i|]; [|discriminate]. simpl.
  destruct (sensors_chip_features_list st !! i) as [e|]; [|discriminate]. simpl.
  destruct (bool_decide (cf_prefix e = None)
            && (total_dynamic st <? N_PLACEHOLDER_ELEMENTS)) eqn:Hsynth;
    [|simpl; intros [= <- <-]; exact Hres].
  apply andb_true_iff in Hsynth as [_ Hbudget]. apply Z.ltb_lt in Hbudget.
  destruct (sensors_read_dynamic_chip dev) as [n_entry|]; [|discriminate].
  simpl.
  destruct Hres as (known & free & Hlist & Hknown & Hfree & Htotal & Hroom).
  destruct free as [|e0 free]; [simpl in Hroom; lia|].
  rewrite Hlist, (end_of_list_known known (e0 :: free) 0) by (auto; congruence).
  simpl. destruct (C.int _) as [total'|] eqn:Htotal'; [|discriminate]. simpl.
  apply int_Some in Htotal'. intros [= <- <-]. unfold reserved. simpl.
  rewrite insert_app_r_alt, Nat.sub_diag by lia. simpl.
  apply Forall_inv_tail in Hfree as Hfree'. simpl in Hroom.
  destruct (cf_prefix n_entry) as [q|] eqn:Hq.
  - exists (known ++ [n_entry]), free. rewrite <- app_assoc. simpl.
    repeat split; auto; try lia.
    apply Forall_app. split; [exact Hknown|]. constructor; [congruence|constructor].
  - exists known, (n_entry :: free). simpl.
    repeat split; auto; try lia.
Qed.

(** With the budget used up a call leaves the table of known chips and the
    counter as they are. *)
Lemma exhausted_table_kept (fs : sysfs) (st st' : lib_state)
    (dev : sysfs_device) (r : Z) :
  N_PLACEHOLDER_ELEMENTS <= total_dynamic st ->
  sensors_read_one_sysfs_chip fs st dev = Some (r, st') ->
  sensors_chip_features_list st' = sensors_chip_features_list st
  /\ total_dynamic st' = total_dynamic st.
Proof.
  intros Hfull. apply Z.ltb_ge in Hfull. unfold sensors_read_one_sysfs_chip.
  destruct (sysfs_get_device_attr dev "name") as [attr|];
    [|now intros [= <- <-]].
  destruct (is_subclient attr); [now intros [= <- <-]|].
  destruct (read_bus fs (dev_name dev)) as [[|bus addr]|]; simpl;
    [now intros [= <- <-] | | discriminate].
  destruct (find_chip _ _ 0) as [i|]; [|discriminate]. simpl.
  destruct (sensors_chip_features_list st !! i) as [e|]; [|discriminate]. simpl.
  rewrite Hfull, andb_false_r. simpl. now intros [= <- <-].
Qed.

(** C7: with the budget of dynamic chips used up, a call synthesizes nothing
    and writes nothing: the table of known chips and the counter stay as they
    are, and the chip of a device that is not skipped and whose bus is
    resolved is registered. With or without budget, such a chip is registered
    whenever the call returns; the table never changes its size, and a write
    goes to one of the placeholders that remain, never to the entry that
    ends the table or beyond. *)
Theorem budget_exhausted (fs : sysfs) (st : lib_state) (dev : sysfs_device) :
  (N_PLACEHOLDER_ELEMENTS <= total_dynamic st ->
   forall r st',
     sensors_read_one_sysfs_chip fs st dev = Some (r, st') ->
     sensors_chip_features_list st' = sensors_chip_features_list st
     /\ total_dynamic st' = total_dynamic st)
  /\ (forall attr bus addr,
        sysfs_get_device_attr dev "name" = Some attr ->
        is_subclient attr = false ->
        read_bus fs (dev_name dev) = Some (OnBus bus addr) ->
        (N_PLACEHOLDER_ELEMENTS <= total_dynamic st ->
         terminated (sensors_chip_features_list st) ->
         sensors_read_one_sysfs_chip fs st dev
         = Some (0, {| sensors_chip_features_list :=
                         sensors_chip_features_list st;
                       total_dynamic := total_dynamic st;
                       sensors_proc_chips :=
                         sensors_proc_chips st
                         ++ [chip_entry dev attr bus addr] |}))
        /\ (forall r st',
              sensors_read_one_sysfs_chip fs st dev = Some (r, st') ->
              r = 0
              /\ sensors_proc_chips st'
                 = sensors_proc_chips st ++ [chip_entry dev attr bus addr]))
  /\ (forall r st',
        sensors_read_one_sysfs_chip fs st dev = Some (r, st') ->
        length (sensors_chip_features_list st')
        = length (sensors_chip_features_list st)
        /\ (reserved st -> reserved st')).
Proof.
  split; [|split].
  - intros Hfull r st'. now apply exhausted_table_kept.
  - intros attr bus addr Hname Hsub Hbus. split.
    + intros Hfull Hterm. unfold sensors_read_one_sysfs_chip.
      rewrite Hname, Hsub, Hbus. simpl.
      destruct (find_chip_terminated _ (C.strndup (attr_value attr)
                  (attr_len attr - 1)) 0%nat Hterm) as [i Hfind].
      rewrite Hfind. simpl.
      destruct (find_chip_lookup _ _ _ _ Hfind) as (_ & e & Hlook & _).
      rewrite Nat.sub_0_r in Hlook. rewrite Hlook. simpl.
      apply Z.ltb_ge in Hfull. rewrite Hfull, andb_false_r. reflexivity.
    + intros r st' Hone.
      destruct (resolved_chip_registered _ _ _ _ _ _ _ _ Hname Hsub Hbus Hone)
        as (Hr & Hreg & _).
      auto.
  - intros r st' Hone. split.
    + unfold sensors_read_one_sysfs_chip in Hone.
      destruct (sysfs_get_device_attr dev "name") as [attr|];
        [|now injection Hone as <- <-].
      destruct (is_subclient attr); [now injection Hone as <- <-|].
      destruct (read_bus fs (dev_name dev)) as [[|bus addr]|] eqn:Hbus;
        simpl in Hone; [now injection Hone as <- <- | | discriminate].
      destruct (find_chip _ _ 0) as [i|]; [|discriminate]. simpl in Hone.
      destruct (sensors_chip_features_list st !! i) as [e|]; [|discriminate].
      simpl in Hone.
      destruct (bool_decide (cf_prefix e = None)
                && (total_dynamic st <? N_PLACEHOLDER_ELEMENTS)).
      * destruct (sensors_read_dynamic_chip dev) as [n_entry|]; [|discriminate].
        simpl in Hone. destruct (end_of_list _ 0) as [j|]; [|discriminate].
        simpl in Hone. destruct (C.int _) as [total'|]; [|discriminate].
        simpl in Hone. injection Hone as <- <-. simpl. apply length_insert.
      * simpl in Hone. now injection Hone as <- <-.
    + intros Hres. exact (reserved_room_kept _ _ _ _ _ Hres Hone).
Qed.

End OneChipFacts.

(** ** The sparse table *)

Section SparseTable.
Context `{SensorsHeader}.

Lemma occupied_new_feature (attr : sysfs_attribute) (type slot : Z) :
  occupied (new_feature attr type slot) = true.
Proof.
  unfold new_feature, occupied. repeat case_match; apply bool_decide_eq_true;
    simpl; eauto.
Qed.

Lemma number_new_feature (attr : sysfs_attribute) (type slot : Z) :
  data_number (feat_data (new_feature attr type slot)) = slot + 1.
Proof. unfold new_feature. repeat case_match; reflexivity. Qed.

Lemma array_get_Some {A} (a : list A) (i : Z) (x : A) :
  array_get a i = Some x <->
  0 <= i /\ a !! Z.to_nat i = Some x.
Proof.
  unfold array_get. destruct (Z.leb_spec 0 i); split.
  - auto.
  - now intros [_ ?].
  - discriminate.
  - lia.
Qed.

Lemma placement_decode (attr : sysfs_attribute) (slot : Z)
    (f : sensors_chip_feature) :
  placement attr = Some (slot, f) <->
  exists type i, decode_attr attr = Some (Slot type i slot)
                 /\ f = new_feature attr type slot.
Proof.
  unfold placement. split.
  - destruct (decode_attr attr) as [[| |type i slot']|]; try discriminate.
    intros [= <- <-]. eauto.
  - intros (type & i & -> & ->). reflexivity.
Qed.

Lemma first_at_Some (attrs : list sysfs_attribute) (j : Z)
    (f : sensors_chip_feature) :
  first_at attrs j = Some f ->
  exists attr, attr ∈ attrs /\ placement attr = Some (j, f).
Proof.
  induction attrs as [|attr rest IH]; simpl; [discriminate|].
  destruct (placement attr) as [[slot g]|] eqn:Hp.
  - destruct (Z.eqb_spec slot j) as [-> | _].
    + intros [= <-]. exists attr. split; [left | exact Hp].
    + intros Hf. destruct (IH Hf) as (a & Ha & Hpa).
      exists a. split; [now right | exact Hpa].
  - intros Hf. destruct (IH Hf) as (a & Ha & Hpa).
    exists a. split; [now right | exact Hpa].
Qed.

Lemma first_at_None (attrs : list sysfs_attribute) (j : Z) :
  first_at attrs j = None <->
  forall attr, attr ∈ attrs -> slot_of attr <> Some j.
Proof.
  unfold slot_of. induction attrs as [|attr rest IH]; simpl.
  - split; [|reflexivity]. intros _ a Ha. inversion Ha.
  - destruct (placement attr) as [[slot g]|] eqn:Hp.
    + destruct (Z.eqb_spec slot j) as [-> | Hne].
      * split; [discriminate|]. intros Hall.
        exfalso. apply (Hall attr); [left|]. now rewrite Hp.
      * rewrite IH. split.
        -- intros Hall a Ha. apply elem_of_cons in Ha as [-> | Ha]; [|auto].
           rewrite Hp. simpl. congruence.
        -- intros Hall a Ha. apply Hall. now right.
    + rewrite IH. split.
      * intros Hall a Ha. apply elem_of_cons in Ha as [-> | Ha]; [|auto].
        now rewrite Hp.
      * intros Hall a Ha. apply Hall. now right.
Qed.

Lemma first_at_occupied (attrs : list sysfs_attribute) (j : Z)
    (f : sensors_chip_feature) :
  first_at attrs j = Some f ->
  occupied f = true /\ data_number (feat_data f) = j + 1.
Proof.
  intros Hf. destruct (first_at_Some _ _ _ Hf) as (a & _ & Hp).
  apply placement_decode in Hp as (type & i & _ & ->).
  split; [apply occupied_new_feature | apply number_new_feature].
Qed.

Lemma fill_cons (attr : sysfs_attribute) (rest : list sysfs_attribute)
    (j : nat) (f : sensors_chip_feature) :
  fill rest j (fill [attr] j f) = fill (attr :: rest) j f.
Proof.
  unfold fill. destruct (occupied f) eqn:Hocc; [now rewrite Hocc|].
  simpl. destruct (placement attr) as [[slot g]|] eqn:Hp.
  - destruct (Z.eqb_spec slot (Z.of_nat j)) as [-> | _]; simpl.
    + apply placement_decode in Hp as (type & i & _ & ->).
      now rewrite occupied_new_feature.
    + now rewrite Hocc.
  - simpl. now rewrite Hocc.
Qed.

Lemma fill_nil (j : nat) (f : sensors_chip_feature) : fill [] j f = f.
Proof. unfold fill. now destruct (occupied f). Qed.

(** One attribute: the table keeps its length, and a slot changes only when
    it is free and the attribute is placed there. *)
Lemma read_attr_features (st st' : scan_state) (attr : sysfs_attribute) :
  read_attr st attr = Some st' ->
  length (features st') = length (features st)
  /\ forall j : nat, features st' !! j = fill [attr] j <$> features st !! j.
Proof.
  unfold read_attr, fill. simpl. unfold placement.
  destruct (decode_attr attr) as [[p| |type i slot]|]; simpl;
    try discriminate.
  - intros [= <-]. simpl. split; [reflexivity|]. intros j.
    destruct (features st !! j) as [f|]; [|reflexivity].
    simpl. now destruct (occupied f).
  - intros [= <-]. split; [reflexivity|]. intros j.
    destruct (features st !! j) as [f|]; [|reflexivity].
    simpl. now destruct (occupied f).
  - destruct (array_get (features st) slot) as [old|] eqn:Hget;
      [|discriminate]. simpl.
    apply array_get_Some in Hget as [Hpos Hold].
    destruct (occupied old) eqn:Hocc.
    + intros [= <-]. split; [reflexivity|]. intros j.
      destruct (features st !! j) as [f|] eqn:Hf; [|reflexivity]. simpl.
      destruct (occupied f) eqn:Hf_occ; [reflexivity|].
      destruct (Z.eqb_spec slot (Z.of_nat j)) as [-> | _]; [|reflexivity].
      rewrite Nat2Z.id in Hold. congruence.
    + intros [= <-]. simpl. split; [apply length_insert|]. intros j.
      destruct (decide (Z.to_nat slot = j)) as [<- | Hne].
      * rewrite list_lookup_insert_eq by (eapply lookup_lt_Some; eauto).
        rewrite Hold. simpl. rewrite Hocc, Z2Nat.id, Z.eqb_refl by lia.
        reflexivity.
      * rewrite list_lookup_insert_ne by exact Hne.
        destruct (features st !! j) as [f|]; [|reflexivity]. simpl.
        destruct (occupied f); [reflexivity|].
        destruct (Z.eqb_spec slot (Z.of_nat j)) as [-> | _]; [|reflexivity].
        rewrite Nat2Z.id in Hne. congruence.
Qed.

(** The whole loop: every slot holds what it held if it was occupied, and
    otherwise the feature of the first attribute placed there. *)
Lemma read_attrs_features (attrs : list sysfs_attribute) (st st' : scan_state) :
  read_attrs st attrs = Some st' ->
  length (features st') = length (features st)
  /\ forall j : nat, features st' !! j = fill attrs j <$> features st !! j.
Proof.
  revert st. induction attrs as [|attr rest IH]; intros st; simpl.
  - intros [= <-]. split; [reflexivity|]. intros j.
    destruct (features st !! j) as [f|]; [|reflexivity].
    simpl. now rewrite fill_nil.
  - destruct (read_attr st attr) as [st1|] eqn:Hone; [|discriminate]. simpl.
    intros Hrest.
    destruct (read_attr_features _ _ _ Hone) as [Hlen1 Hlook1].
    destruct (IH _ Hrest) as [Hlen Hlook].
    split; [congruence|]. intros j. rewrite Hlook, Hlook1.
    destruct (features st !! j) as [f|]; [|reflexivity].
    simpl. now rewrite fill_cons.
Qed.

Lemma stored_insert (table : list sensors_chip_feature) (j : nat)
    (old f : sensors_chip_feature) :
  table !! j = Some old -> occupied old = false -> occupied f = true ->
  length (stored (<[j := f]> table)) = S (length (stored table)).
Proof.
  unfold stored. revert j.
  induction table as [|g rest IH]; intros j; [discriminate|].
  destruct j as [|j]; simpl.
  - intros [= ->] -> ->. reflexivity.
  - intros Hold Hocc Hf. destruct (occupied g); simpl; rewrite IH; auto.
Qed.

Lemma stored_replicate_zero (n : nat) : stored (replicate n zero_feature) = [].
Proof. induction n as [|n IH]; [reflexivity | exact IH]. Qed.

(** [fnum] counts the stored features, from 1. *)
Lemma read_attr_fnum (st st' : scan_state) (attr : sysfs_attribute) :
  read_attr st attr = Some st' ->
  fnum st' - Z.of_nat (length (stored (features st')))
  = fnum st - Z.of_nat (length (stored (features st))).
Proof.
  unfold read_attr.
  destruct (decode_attr attr) as [[p| |type i slot]|]; simpl;
    try discriminate; try (intros [= <-]; reflexivity).
  destruct (array_get (features st) slot) as [old|] eqn:Hget;
    [|discriminate]. simpl.
  apply array_get_Some in Hget as [Hpos Hold].
  destruct (occupied old) eqn:Hocc; intros [= <-]; [reflexivity|]. simpl.
  rewrite (stored_insert _ _ old _ Hold Hocc (occupied_new_feature _ _ _)). lia.
Qed.

Lemma read_attrs_fnum (attrs : list sysfs_attribute) (st st' : scan_state) :
  read_attrs st attrs = Some st' ->
  fnum st' - Z.of_nat (length (stored (features st')))
  = fnum st - Z.of_nat (length (stored (features st))).
Proof.
  revert st. induction attrs as [|attr rest IH]; intros st; simpl.
  - now intros [= <-].
  - destruct (read_attr st attr) as [st1|] eqn:Hone; [|discriminate]. simpl.
    intros Hrest. rewrite (IH _ Hrest). exact (read_attr_fnum _ _ _ Hone).
Qed.

Lemma read_attrs_app (l1 l2 : list sysfs_attribute) (st : scan_state) :
  read_attrs st (l1 ++ l2) = st' ← read_attrs st l1; read_attrs st' l2.
Proof.
  revert st. induction l1 as [|attr rest IH]; intros st; simpl; [reflexivity|].
  destruct (read_attr st attr); simpl; [apply IH | reflexivity].
Qed.

Lemma read_attr_is_Some (st : scan_state) (attr : sysfs_attribute) :
  is_Some (read_attr st attr) <-> attr_fits (length (features st)) attr.
Proof.
  unfold read_attr, attr_fits.
  destruct (decode_attr attr) as [[p| |type i slot]|]; simpl.
  - split; [|eauto]. intros _. eexists. split; [reflexivity | discriminate].
  - split; [|eauto]. intros _. eexists. split; [reflexivity | discriminate].
  - split.
    + destruct (array_get (features st) slot) as [old|] eqn:Hget;
        [|intros [? ?]; discriminate].
      apply array_get_Some in Hget as [Hpos Hold]. intros _.
      eexists. split; [reflexivity|]. intros ? ? ? [= <- <- <-].
      apply lookup_lt_Some in Hold. lia.
    + intros (d & [= <-] & Hfit). specialize (Hfit _ _ _ eq_refl).
      destruct (lookup_lt_is_Some_2 (features st) (Z.to_nat slot)) as [old Hold];
        [lia|].
      assert (Hget : array_get (features st) slot = Some old)
        by (apply array_get_Some; split; [lia | exact Hold]).
      rewrite Hget. simpl. destruct (occupied old); eauto.
  - split; [intros [? ?]; discriminate | intros (? & ? & _); discriminate].
Qed.

Lemma read_attrs_is_Some (attrs : list sysfs_attribute) (st : scan_state) :
  is_Some (read_attrs st attrs)
  <-> Forall (attr_fits (length (features st))) attrs.
Proof.
  revert st. induction attrs as [|attr rest IH]; intros st; simpl.
  - split; [constructor | eauto].
  - rewrite Forall_cons_iff, <- read_attr_is_Some.
    destruct (read_attr st attr) as [st1|] eqn:Hone; simpl.
    + rewrite IH. destruct (read_attr_features _ _ _ Hone) as [-> _].
      split; [split; eauto | tauto].
    + split; [intros [? ?]; discriminate | intros [[? ?] _]; discriminate].
Qed.

(** The second loop copies the stored features, in the order of the table,
    to the front of the zeroed array. *)
Lemma compact_stored (sparse done : list sensors_chip_feature) (k : nat) :
  (length (stored sparse) <= k)%nat ->
  compact sparse (done ++ replicate k zero_feature) (Z.of_nat (length done))
  = Some (done ++ stored sparse
          ++ replicate (k - length (stored sparse)) zero_feature).
Proof.
  unfold stored. revert done k.
  induction sparse as [|f rest IH]; intros done k; simpl.
  - now rewrite Nat.sub_0_r.
  - destruct (occupied f) eqn:Hocc; simpl; [|apply IH].
    intros Hk. destruct k as [|k]; [lia|].
    rewrite length_app, length_replicate.
    destruct (Z.leb_spec 0 (Z.of_nat (length done))); [|lia].
    destruct (Z.ltb_spec (Z.of_nat (length done))
                (Z.of_nat (length done + S k))); [|lia].
    simpl. rewrite Nat2Z.id, insert_app_r_alt, Nat.sub_diag by lia. simpl.
    replace (Z.of_nat (length done) + 1)
      with (Z.of_nat (length (done ++ [f])))
      by (rewrite length_app; simpl; lia).
    replace (done ++ f :: replicate k zero_feature)
      with ((done ++ [f]) ++ replicate k zero_feature)
      by now rewrite <- app_assoc.
    rewrite IH by lia. now rewrite <- app_assoc.
Qed.

Lemma scan_start_fnum :
  fnum scan_start - Z.of_nat (length (stored (features scan_start))) = 1.
Proof. simpl. now rewrite stored_replicate_zero. Qed.

(** What the function returns once the first loop is through. *)
Lemma sensors_read_dynamic_chip_stored (sysdir : sysfs_device)
    (attrs : list sysfs_attribute) (st : scan_state) :
  dev_attrs sysdir = Some attrs ->
  read_attrs scan_start attrs = Some st ->
  sensors_read_dynamic_chip sysdir
  = Some {| cf_prefix := ret_prefix st;
            cf_feature := Some (stored (features st) ++ [zero_feature]) |}
  /\ fnum st = Z.of_nat (length (stored (features st))) + 1.
Proof.
  intros Hattrs Hloop.
  assert (Hfnum : fnum st = Z.of_nat (length (stored (features st))) + 1).
  { pose proof (read_attrs_fnum _ _ _ Hloop) as Hinv.
    rewrite scan_start_fnum in Hinv. lia. }
  split; [|exact Hfnum].
  unfold sensors_read_dynamic_chip, sysfs_get_device_attributes.
  rewrite Hattrs, Hloop. simpl. unfold calloc. rewrite Hfnum.
  replace (Z.to_nat (Z.of_nat (length (stored (features st))) + 1))
    with (length (stored (features st)) + 1)%nat by lia.
  pose proof (compact_stored (features st) [] (length (stored (features st)) + 1))
    as Hcompact.
  change (Z.of_nat (length [])) with 0 in Hcompact.
  rewrite app_nil_l in Hcompact. rewrite Hcompact by lia. simpl.
  now replace (length (stored (features st)) + 1
               - length (stored (features st)))%nat with 1%nat by lia.
Qed.

Lemma occupied_zero_feature : occupied zero_feature = false.
Proof. apply bool_decide_eq_false. simpl. intros [? ?]. discriminate. Qed.

(** The table after the first loop: slot [j] holds the feature of the first
    attribute placed there, and is zero when there is none. *)
Lemma final_table (attrs : list sysfs_attribute) (st : scan_state) :
  read_attrs scan_start attrs = Some st ->
  length (features st) = Z.to_nat SPARSE_SIZE
  /\ forall j : nat, (j < Z.to_nat SPARSE_SIZE)%nat ->
       features st !! j
       = Some (default zero_feature (first_at attrs (Z.of_nat j))).
Proof.
  intros Hloop. destruct (read_attrs_features _ _ _ Hloop) as [Hlen Hlook].
  simpl in Hlen. rewrite length_replicate in Hlen. split; [exact Hlen|].
  intros j Hj. rewrite Hlook. simpl.
  rewrite lookup_replicate_2 by exact Hj. simpl.
  unfold fill. now rewrite occupied_zero_feature.
Qed.

Lemma elem_of_stored (table : list sensors_chip_feature)
    (f : sensors_chip_feature) :
  f ∈ stored table <->
  occupied f = true /\ exists j : nat, table !! j = Some f.
Proof.
  unfold stored. rewrite list_elem_of_In, filter_In, <- list_elem_of_In.
  rewrite list_elem_of_lookup. tauto.
Qed.

Lemma fits_slot_bound (attrs : list sysfs_attribute) (st : scan_state)
    (attr : sysfs_attribute) (slot : Z) :
  read_attrs scan_start attrs = Some st ->
  attr ∈ attrs -> slot_of attr = Some slot ->
  0 <= slot /\ (Z.to_nat slot < Z.to_nat SPARSE_SIZE)%nat.
Proof.
  intros Hloop Hin Hslot.
  assert (Hfits : Forall (attr_fits (length (features scan_start))) attrs)
    by (apply read_attrs_is_Some; eauto).
  rewrite Forall_forall in Hfits.
  destruct (Hfits attr) as (d & Hd & Hbound); [now apply list_elem_of_In|].
  unfold slot_of, placement in Hslot. rewrite Hd in Hslot.
  destruct d as [| |type i slot']; try discriminate.
  simpl in Hslot. injection Hslot as ->.
  specialize (Hbound _ _ _ eq_refl). simpl in Hbound.
  rewrite length_replicate in Hbound. lia.
Qed.

(** The stored features are those of the attributes that come first at
    their slot. *)
Lemma stored_first_at (attrs : list sysfs_attribute) (st : scan_state)
    (f : sensors_chip_feature) :
  read_attrs scan_start attrs = Some st ->
  f ∈ stored (features st) <-> exists j : Z, first_at attrs j = Some f.
Proof.
  intros Hloop. destruct (final_table _ _ Hloop) as [Hlen Htable].
  rewrite elem_of_stored. split.
  - intros (Hocc & j & Hj).
    assert (Hlt : (j < Z.to_nat SPARSE_SIZE)%nat)
      by (rewrite <- Hlen; eapply lookup_lt_Some; eauto).
    rewrite (Htable _ Hlt) in Hj. injection Hj as Hj.
    exists (Z.of_nat j).
    destruct (first_at attrs (Z.of_nat j)) as [g|]; simpl in Hj.
    + now subst.
    + subst f. now rewrite occupied_zero_feature in Hocc.
  - intros (j & Hfirst).
    destruct (first_at_occupied _ _ _ Hfirst) as [Hocc _].
    split; [exact Hocc|].
    destruct (first_at_Some _ _ _ Hfirst) as (a & Ha & Hp).
    assert (Hslot : slot_of a = Some j) by (unfold slot_of; now rewrite Hp).
    destruct (fits_slot_bound _ _ _ _ Hloop Ha Hslot) as [Hpos Hlt].
    exists (Z.to_nat j). rewrite (Htable _ Hlt), Z2Nat.id, Hfirst by lia.
    reflexivity.
Qed.

(** The result of the function, unfolded. *)
Lemma sensors_read_dynamic_chip_Some (sysdir : sysfs_device)
    (ret : sensors_chip_features) (arr : list sensors_chip_feature) :
  sensors_read_dynamic_chip sysdir = Some ret ->
  cf_feature ret = Some arr ->
  exists attrs st,
    dev_attrs sysdir = Some attrs
    /\ read_attrs scan_start attrs = Some st
    /\ ret = {| cf_prefix := ret_prefix st;
                cf_feature := Some (stored (features st) ++ [zero_feature]) |}
    /\ arr = stored (features st) ++ [zero_feature]
    /\ fnum st = Z.of_nat (length arr).
Proof.
  intros Hret Harr.
  destruct (dev_attrs sysdir) as [attrs|] eqn:Hattrs.
  - destruct (read_attrs scan_start attrs) as [st|] eqn:Hloop.
    + destruct (sensors_read_dynamic_chip_stored _ _ _ Hattrs Hloop)
        as [Hres Hfnum].
      rewrite Hres in Hret. injection Hret as <-. simpl in Harr.
      injection Harr as <-. exists attrs, st.
      split; [reflexivity|]. split; [exact Hloop|]. split; [reflexivity|].
      split; [reflexivity|]. rewrite length_app. simpl. lia.
    + unfold sensors_read_dynamic_chip, sysfs_get_device_attributes in Hret.
      rewrite Hattrs, Hloop in Hret. discriminate.
  - unfold sensors_read_dynamic_chip, sysfs_get_device_attributes in Hret.
    rewrite Hattrs in Hret. injection Hret as <-. discriminate.
Qed.

(** C10: the array that the function returns is allocated with one element
    more than there are stored features ([fnum] elements, zeroed); the
    stored features fill it from the front, so that exactly one element
    follows them, and that element is zero. *)
Theorem dense_table_zero_terminated (sysdir : sysfs_device)
    (ret : sensors_chip_features) (arr : list sensors_chip_feature) :
  sensors_read_dynamic_chip sysdir = Some ret ->
  cf_feature ret = Some arr ->
  exists feats,
    arr = feats ++ [zero_feature]
    /\ Forall (fun f => occupied f = true) feats
    /\ exists attrs st,
         dev_attrs sysdir = Some attrs
         /\ read_attrs scan_start attrs = Some st
         /\ feats = stored (features st)
         /\ Z.of_nat (length arr) = fnum st
         /\ calloc (fnum st) = replicate (length feats + 1) zero_feature.
Proof.
  intros Hret Harr.
  destruct (sensors_read_dynamic_chip_Some _ _ _ Hret Harr)
    as (attrs & st & Hattrs & Hloop & _ & -> & Hfnum).
  exists (stored (features st)). split; [reflexivity|]. split.
  - apply Forall_forall. intros f Hf. apply list_elem_of_In in Hf.
    now apply elem_of_stored in Hf.
  - exists attrs, st. repeat split; auto. unfold calloc.
    rewrite Hfnum, Nat2Z.id, length_app. reflexivity.
Qed.


Lemma mapping_new_feature (attr : sysfs_attribute) (type slot : Z) :
  let f := new_feature attr type slot in
  (data_mapping (feat_data f) = SENSORS_NO_MAPPING
   \/ data_mapping (feat_data f) = primary_number slot)
  /\ (data_compute_mapping (feat_data f) = SENSORS_NO_MAPPING
      \/ data_compute_mapping (feat_data f) = primary_number slot).
Proof.
  unfold new_feature, primary_number.
  destruct (_ || _); [simpl; auto|]. destruct (negb _); simpl; auto.
Qed.

Lemma stored_at_slot (attrs : list sysfs_attribute) (st : scan_state)
    (f : sensors_chip_feature) :
  read_attrs scan_start attrs = Some st ->
  f ∈ stored (features st) ->
  exists attr type i,
    attr ∈ attrs
    /\ decode_attr attr = Some (Slot type i (number_of f - 1))
    /\ f = new_feature attr type (number_of f - 1)
    /\ first_at attrs (number_of f - 1) = Some f.
Proof.
  intros Hloop Hf. apply (stored_first_at _ _ _ Hloop) in Hf as (j & Hfirst).
  destruct (first_at_occupied _ _ _ Hfirst) as [_ Hnum].
  destruct (first_at_Some _ _ _ Hfirst) as (a & Ha & Hp).
  apply placement_decode in Hp as (type & i & Hdec & Hfeat).
  unfold number_of. rewrite Hnum.
  replace (j + 1 - 1) with j by lia. eauto 10.
Qed.

(** C1, amended: a mapping or compute mapping that is not the no-mapping
    sentinel is the number that the primary feature of the same index has:
    the feature's own slot address rounded down to a multiple of
    SENSORS_FEATURE_MAX_SUB_FEATURES, plus 1. A feature with that number is
    in the same set exactly when one of the chip's attributes is placed at
    that slot. *)
Theorem mapping_is_primary_number (sysdir : sysfs_device)
    (attrs : list sysfs_attribute) (ret : sensors_chip_features)
    (arr : list sensors_chip_feature) (f : sensors_chip_feature) :
  dev_attrs sysdir = Some attrs ->
  sensors_read_dynamic_chip sysdir = Some ret ->
  cf_feature ret = Some arr ->
  f ∈ arr -> occupied f = true ->
  let primary := primary_number (number_of f - 1) in
  (data_mapping (feat_data f) <> SENSORS_NO_MAPPING ->
   data_mapping (feat_data f) = primary)
  /\ (data_compute_mapping (feat_data f) <> SENSORS_NO_MAPPING ->
      data_compute_mapping (feat_data f) = primary)
  /\ ((exists g, g ∈ arr /\ occupied g = true /\ number_of g = primary)
      <-> (exists attr, attr ∈ attrs /\ slot_of attr = Some (primary - 1))).
Proof.
  intros Hattrs Hret Harr Hf Hocc primary.
  destruct (sensors_read_dynamic_chip_Some _ _ _ Hret Harr)
    as (attrs' & st & Hattrs' & Hloop & _ & -> & _).
  assert (attrs' = attrs) as -> by congruence.
  assert (Hstored : forall g, g ∈ stored (features st) ++ [zero_feature] ->
            occupied g = true -> g ∈ stored (features st)).
  { intros g Hg Hg_occ. apply elem_of_app in Hg as [Hg | Hg]; [exact Hg|].
    apply list_elem_of_singleton in Hg. subst g.
    now rewrite occupied_zero_feature in Hg_occ. }
  destruct (stored_at_slot _ _ _ Hloop (Hstored _ Hf Hocc))
    as (a & type & i & _ & _ & Hfeat & _).
  destruct (mapping_new_feature a type (number_of f - 1)) as [Hm Hcm].
  rewrite <- Hfeat in Hm, Hcm.
  split; [tauto|]. split; [tauto|]. split.
  - intros (g & Hg & Hg_occ & Hnum).
    destruct (stored_at_slot _ _ _ Hloop (Hstored _ Hg Hg_occ))
      as (b & tb & ib & Hb & Hdec & _).
    exists b. split; [exact Hb|].
    unfold slot_of, placement. rewrite Hdec. simpl. now rewrite Hnum.
  - intros (b & Hb & Hslot).
    destruct (first_at attrs (primary - 1)) as [g|] eqn:Hfirst.
    + destruct (first_at_occupied _ _ _ Hfirst) as [Hg_occ Hnum].
      exists g. split; [|split; [exact Hg_occ | unfold number_of; lia]].
      apply elem_of_app. left. apply (stored_first_at _ _ _ Hloop). eauto.
    + exfalso. rewrite first_at_None in Hfirst. now apply (Hfirst b).
Qed.

End SparseTable.

Section MappingExamples.
#[local] Existing Instance Sample.header.

Lemma mapping_is_primary_number_witness :
  exists f arr,
    cf_feature <$> sensors_read_dynamic_chip (Sample.chip ["in0_input"; "in0_min"])
    = Some (Some arr)
    /\ f ∈ arr /\ number_of f = 2
    /\ data_mapping (feat_data f) = 1
    /\ data_compute_mapping (feat_data f) = 1.
Proof.
  set (dev := Sample.chip ["in0_input"; "in0_min"]).
  set (f := new_feature (Sample.attr "in0_min") 0x001 1).
  set (arr := [new_feature (Sample.attr "in0_input") 0x000 0; f; zero_feature]).
  assert (Hret : sensors_read_dynamic_chip dev
                 = Some {| cf_prefix := Some "w83781d";
                           cf_feature := Some arr |}) by (vm_compute; reflexivity).
  assert (Hf : f ∈ arr) by (right; left).
  exists f, arr. split; [now rewrite Hret|]. split; [exact Hf|].
  split; [reflexivity|].
  destruct (mapping_is_primary_number dev _ _ arr f eq_refl Hret eq_refl Hf
              eq_refl) as (Hm & Hcm & _).
  split; [apply Hm | apply Hcm]; vm_compute; discriminate.
Defined.

(** C1 as stated fails: a chip that has "in0_min" and no "in0_input" gets a
    feature whose mapping and compute mapping are 1, and no feature of the
    set has the number 1. *)
Lemma sub_reading_without_primary :
  exists f,
    sensors_read_dynamic_chip (Sample.chip ["in0_min"])
    = Some {| cf_prefix := Some "w83781d";
              cf_feature := Some [f; zero_feature] |}
    /\ data_mapping (feat_data f) = 1
    /\ data_compute_mapping (feat_data f) = 1
    /\ SENSORS_NO_MAPPING = -1
    /\ Forall (fun g => number_of g <> 1) [f; zero_feature].
Proof.
  exists (new_feature (Sample.attr "in0_min") 0x001 1).
  repeat split; try (vm_compute; reflexivity).
  repeat constructor; vm_compute; discriminate.
Qed.

End MappingExamples.

(** ** The order of the attributes, and duplicates *)

Section OrderAndDuplicates.
Context `{SensorsHeader}.

Lemma first_at_app (l1 l2 : list sysfs_attribute) (j : Z) :
  first_at (l1 ++ l2) j
  = match first_at l1 j with
    | Some f => Some f
    | None => first_at l2 j
    end.
Proof.
  induction l1 as [|attr rest IH]; simpl; [reflexivity|].
  destruct (placement attr) as [[slot f]|]; [|exact IH].
  destruct (slot =? j); [reflexivity | exact IH].
Qed.

Lemma NoDup_omap_eq {A B} (h : A -> option B) (l : list A) (a b : A) (y : B) :
  NoDup (omap h l) -> a ∈ l -> b ∈ l -> h a = Some y -> h b = Some y -> a = b.
Proof.
  induction l as [|x rest IH]; intros Hnd Ha Hb Hya Hyb; [inversion Ha|].
  assert (Hin : forall c, c ∈ rest -> h c = Some y -> In y (omap h rest))
    by (intros c Hc Hyc; apply list_elem_of_In, list_elem_of_omap; eauto).
  simpl in Hnd. apply elem_of_cons in Ha, Hb.
  destruct Ha as [-> | Ha], Hb as [-> | Hb]; [reflexivity | | |].
  - rewrite Hya in Hnd. apply NoDup_cons_iff in Hnd as [Hy _].
    exfalso. eauto.
  - rewrite Hyb in Hnd. apply NoDup_cons_iff in Hnd as [Hy _].
    exfalso. eauto.
  - apply IH; auto. destruct (h x); [|exact Hnd].
    now apply NoDup_cons_iff in Hnd.
Qed.

(** With at most one attribute per slot, what a slot gets does not depend
    on the order of the attributes. *)
Lemma first_at_Permutation (l1 l2 : list sysfs_attribute) (j : Z) :
  l1 ≡ₚ l2 -> NoDup (omap slot_of l1) -> first_at l1 j = first_at l2 j.
Proof.
  intros Hperm Hnd.
  destruct (first_at l1 j) as [f|] eqn:H1.
  - destruct (first_at_Some _ _ _ H1) as (a & Ha & Hpa).
    destruct (first_at l2 j) as [g|] eqn:H2.
    + destruct (first_at_Some _ _ _ H2) as (b & Hb & Hpb).
      rewrite <- Hperm in Hb.
      assert (a = b) as <-.
      { apply (NoDup_omap_eq slot_of l1 a b j); auto; unfold slot_of.
        - now rewrite Hpa.
        - now rewrite Hpb. }
      congruence.
    + rewrite first_at_None in H2. exfalso. apply (H2 a).
      * now rewrite <- Hperm.
      * unfold slot_of. now rewrite Hpa.
  - symmetry. rewrite first_at_None in *. intros a Ha.
    apply H1. now rewrite Hperm.
Qed.

(** The stored features have the numbers of their slots, which ascend. *)
Lemma stored_numbers_ascend (table : list sensors_chip_feature) (off : Z) :
  (forall (j : nat) f, table !! j = Some f -> occupied f = true ->
                       number_of f = off + Z.of_nat j + 1) ->
  StronglySorted Z.lt (List.map number_of (stored table))
  /\ List.Forall (fun n => off < n) (List.map number_of (stored table)).
Proof.
  unfold stored. revert off.
  induction table as [|f rest IH]; intros off Hnum; simpl.
  - split; constructor.
  - destruct (IH (off + 1)) as [Hsorted Hlow].
    { intros j g Hg Hocc. rewrite (Hnum (S j) g Hg Hocc). lia. }
    assert (Hlow' : List.Forall (fun n => off < n)
                      (List.map number_of (List.filter occupied rest))).
    { eapply List.Forall_impl; [|exact Hlow]. simpl. intros; lia. }
    destruct (occupied f) eqn:Hocc; simpl; [|auto].
    pose proof (Hnum 0%nat f eq_refl Hocc) as Hf.
    split; constructor; auto; [|lia].
    eapply List.Forall_impl; [|exact Hlow]. simpl. intros; lia.
Qed.

Lemma final_table_numbers (attrs : list sysfs_attribute) (st : scan_state) :
  read_attrs scan_start attrs = Some st ->
  forall (j : nat) f, features st !! j = Some f -> occupied f = true ->
                      number_of f = Z.of_nat j + 1.
Proof.
  intros Hloop j f Hj Hocc.
  destruct (final_table _ _ Hloop) as [Hlen Htable].
  assert (Hlt : (j < Z.to_nat SPARSE_SIZE)%nat)
    by (rewrite <- Hlen; eapply lookup_lt_Some; eauto).
  rewrite (Htable _ Hlt) in Hj. injection Hj as Hj.
  destruct (first_at attrs (Z.of_nat j)) as [g|] eqn:Hfirst; simpl in Hj.
  - subst g. now destruct (first_at_occupied _ _ _ Hfirst).
  - subst f. now rewrite occupied_zero_feature in Hocc.
Qed.

(** C4: when no two attributes are placed at the same slot, the function
    returns the same array of features for every order of the attributes:
    the stored features in ascending order of their slot addresses, each with
    the number of its slot address plus 1. *)
Theorem feature_table_independent_of_order (sysdir : sysfs_device)
    (attrs1 attrs2 : list sysfs_attribute) (ret1 : sensors_chip_features) :
  attrs1 ≡ₚ attrs2 ->
  NoDup (omap slot_of attrs1) ->
  sensors_read_dynamic_chip (with_attrs sysdir attrs1) = Some ret1 ->
  exists ret2 st feats,
    sensors_read_dynamic_chip (with_attrs sysdir attrs2) = Some ret2
    /\ cf_feature ret2 = cf_feature ret1
    /\ cf_feature ret1 = Some (feats ++ [zero_feature])
    /\ read_attrs scan_start attrs1 = Some st
    /\ feats = stored (features st)
    /\ (forall (slot : nat) f,
          features st !! slot = Some f -> occupied f = true ->
          number_of f = Z.of_nat slot + 1)
    /\ StronglySorted Z.lt (List.map number_of feats).
Proof.
  intros Hperm Hnd Hret1.
  destruct (read_attrs scan_start attrs1) as [st1|] eqn:Hloop1; cycle 1.
  { unfold sensors_read_dynamic_chip in Hret1. simpl in Hret1.
    rewrite Hloop1 in Hret1. discriminate. }
  destruct (sensors_read_dynamic_chip_stored (with_attrs sysdir attrs1)
              _ _ eq_refl Hloop1) as [Hres1 _].
  rewrite Hres1 in Hret1. injection Hret1 as <-.
  assert (Hsome : is_Some (read_attrs scan_start attrs2)).
  { apply read_attrs_is_Some. rewrite <- Hperm.
    apply read_attrs_is_Some. eauto. }
  destruct Hsome as [st2 Hloop2].
  destruct (sensors_read_dynamic_chip_stored (with_attrs sysdir attrs2)
              _ _ eq_refl Hloop2) as [Hres2 _].
  assert (Htables : features st2 = features st1).
  { destruct (final_table _ _ Hloop1) as [Hlen1 Htable1].
    destruct (final_table _ _ Hloop2) as [Hlen2 Htable2].
    apply list_eq. intros j.
    destruct (Nat.lt_ge_cases j (Z.to_nat SPARSE_SIZE)) as [Hlt | Hge].
    - rewrite (Htable1 _ Hlt), (Htable2 _ Hlt).
      now rewrite (first_at_Permutation attrs1 attrs2).
    - rewrite !lookup_ge_None_2 by lia. reflexivity. }
  eexists _, st1, (stored (features st1)).
  split; [exact Hres2|]. simpl. rewrite Htables.
  repeat split.
  - exact (final_table_numbers _ _ Hloop1).
  - apply (stored_numbers_ascend _ 0).
    intros j f Hj Hocc. now rewrite (final_table_numbers _ _ Hloop1 j f).
Qed.

Lemma slot_address_value (type i slot : Z) :
  slot_address type i = Some slot ->
  slot = (Z.shiftr type 8 * MAX_SENSORS_PER_TYPE + i)
         * SENSORS_FEATURE_MAX_SUB_FEATURES + Z.land type 0xFF.
Proof.
  unfold slot_address. intros Hslot.
  destruct (C.int (Z.shiftr type 8 * _)) as [a|] eqn:Ha; [|discriminate].
  simpl in Hslot.
  destruct (C.int (a * _)) as [b|] eqn:Hb; [|discriminate]. simpl in Hslot.
  destruct (C.int (i * _)) as [c|] eqn:Hc; [|discriminate]. simpl in Hslot.
  destruct (C.int (b + c)) as [d|] eqn:Hd; [|discriminate]. simpl in Hslot.
  apply int_Some in Ha, Hb, Hc, Hd, Hslot. subst. ring.
Qed.

Lemma feature_key_decode (attr : sysfs_attribute) (key : Z * Z * Z) :
  feature_key attr = Some key ->
  exists type i slot,
    decode_attr attr = Some (Slot type i slot)
    /\ key = (Z.shiftr type 8, i, Z.land type 0xFF)
    /\ slot_address type i = Some slot
    /\ i < MAX_SENSORS_PER_TYPE
    /\ slot_of attr = Some slot
    /\ feature_of attr = Some (new_feature attr type slot).
Proof.
  unfold feature_key, slot_of, feature_of, placement.
  destruct (decode_attr attr) as [[| |type i slot]|] eqn:Hdec; try discriminate.
  intros [= <-]. exists type, i, slot.
  destruct (decode_attr_type _ _ _ _ Hdec) as (_ & _ & _ & _ & Hi & Hslot).
  auto 10.
Qed.

(** The key decides the slot. *)
Lemma same_key_same_slot (a b : sysfs_attribute) (key : Z * Z * Z) :
  feature_key a = Some key -> feature_key b = Some key ->
  exists slot, slot_of a = Some slot /\ slot_of b = Some slot.
Proof.
  intros Ha Hb.
  destruct (feature_key_decode _ _ Ha) as (ta & ia & sa & _ & -> & Hsa & _ & Hslot_a & _).
  destruct (feature_key_decode _ _ Hb) as (tb & ib & sb & _ & [= Hc Hi Hs] & Hsb & _ & Hslot_b & _).
  exists sa. split; [exact Hslot_a|]. rewrite Hslot_b. f_equal.
  apply slot_address_value in Hsa, Hsb. rewrite Hsa, Hsb, Hc, Hi, Hs.
  reflexivity.
Qed.

(** For keys in range, the slot decides the key. *)
Lemma same_slot_same_key (a b : sysfs_attribute) (slot : Z) :
  key_in_range a -> key_in_range b ->
  slot_of a = Some slot -> slot_of b = Some slot ->
  feature_key a = feature_key b.
Proof.
  intros Hra Hrb Hsa Hsb.
  assert (Hkey : forall x, slot_of x = Some slot -> key_in_range x ->
            exists c i s, feature_key x = Some (c, i, s)
                          /\ slot = (c * MAX_SENSORS_PER_TYPE + i)
                                    * SENSORS_FEATURE_MAX_SUB_FEATURES + s
                          /\ 0 <= i < MAX_SENSORS_PER_TYPE
                          /\ 0 <= s < SENSORS_FEATURE_MAX_SUB_FEATURES).
  { intros x Hx Hrx. unfold slot_of, placement in Hx.
    destruct (decode_attr x) as [[| |type i slot']|] eqn:Hdec;
      try discriminate.
    simpl in Hx. injection Hx as ->.
    destruct (decode_attr_type _ _ _ _ Hdec) as (_ & _ & _ & _ & Hi & Hslot).
    assert (Hk : feature_key x = Some (Z.shiftr type 8, i, Z.land type 0xFF))
      by (unfold feature_key; now rewrite Hdec).
    destruct (Hrx _ _ _ Hk) as [Hi0 Hs].
    exists (Z.shiftr type 8), i, (Z.land type 0xFF).
    split; [exact Hk|]. split; [now apply slot_address_value|].
    split; [lia|]. split; [|exact Hs]. apply Z.land_nonneg. right. lia. }
  destruct (Hkey a Hsa Hra) as (ca & ia & sa & -> & Hva & Hia & Hsa').
  destruct (Hkey b Hsb Hrb) as (cb & ib & sb & -> & Hvb & Hib & Hsb').
  unfold MAX_SENSORS_PER_TYPE in *.
  assert (Hq : ca * 16 + ia = cb * 16 + ib) by nia.
  assert (sa = sb) by nia.
  assert (ca = cb) by lia.
  assert (ia = ib) by lia.
  now subst.
Qed.

(** A slot that an attribute of the list is placed at is occupied after the
    list. *)
Lemma slot_occupied_after (attrs : list sysfs_attribute) (st st' : scan_state)
    (attr : sysfs_attribute) (slot : Z) :
  read_attrs st attrs = Some st' ->
  attr ∈ attrs -> slot_of attr = Some slot ->
  exists f, array_get (features st') slot = Some f /\ occupied f = true.
Proof.
  intros Hloop Hin Hslot.
  destruct (read_attrs_features _ _ _ Hloop) as [Hlen Hlook].
  assert (Hfits : Forall (attr_fits (length (features st))) attrs)
    by (apply read_attrs_is_Some; eauto).
  rewrite Forall_forall in Hfits.
  destruct (Hfits attr) as (d & Hd & Hbound); [now apply list_elem_of_In|].
  pose proof Hslot as Hslot'. unfold slot_of, placement in Hslot'.
  rewrite Hd in Hslot'.
  destruct d as [| |type i slot']; try discriminate.
  simpl in Hslot'. injection Hslot' as ->.
  specialize (Hbound _ _ _ eq_refl).
  destruct (lookup_lt_is_Some_2 (features st) (Z.to_nat slot)) as [f0 Hf0];
    [lia|].
  exists (fill attrs (Z.to_nat slot) f0). split.
  - apply array_get_Some. split; [lia|]. now rewrite Hlook, Hf0.
  - unfold fill. destruct (occupied f0) eqn:Hocc; [exact Hocc|].
    rewrite Z2Nat.id by lia.
    destruct (first_at attrs slot) as [g|] eqn:Hfirst.
    + simpl. now destruct (first_at_occupied _ _ _ Hfirst).
    + rewrite first_at_None in Hfirst. now destruct (Hfirst attr Hin).
Qed.

Lemma sorted_numbers_lookup (l : list sensors_chip_feature) (m n : nat)
    (f g : sensors_chip_feature) :
  StronglySorted Z.lt (List.map number_of l) -> (m < n)%nat ->
  l !! m = Some f -> l !! n = Some g -> number_of f < number_of g.
Proof.
  revert m n. induction l as [|x rest IH]; intros m n Hsorted Hmn Hf Hg;
    [discriminate|].
  simpl in Hsorted. apply StronglySorted_inv in Hsorted as [Hrest Hall].
  destruct n as [|n]; [lia|]. simpl in Hg.
  destruct m as [|m]; simpl in Hf.
  - injection Hf as ->. rewrite Forall_forall in Hall. apply Hall.
    apply in_map, list_elem_of_In, list_elem_of_lookup. eauto.
  - apply (IH m n); auto. lia.
Qed.

Lemma feature_of_slot (attr : sysfs_attribute) (f : sensors_chip_feature) :
  feature_of attr = Some f -> slot_of attr = Some (number_of f - 1).
Proof.
  unfold feature_of, slot_of.
  destruct (placement attr) as [[slot g]|] eqn:Hp; [|discriminate].
  simpl. intros [= ->]. apply placement_decode in Hp as (t & i & _ & ->).
  unfold number_of. rewrite number_new_feature. f_equal. lia.
Qed.

Lemma int_in_range (z : Z) :
  C.INT_MIN <= z <= C.INT_MAX -> C.int z = Some z.
Proof.
  intros [Hlo Hhi]. unfold C.int.
  apply Z.leb_le in Hlo, Hhi. now rewrite Hlo, Hhi.
Qed.

Lemma SPARSE_SIZE_eq :
  SPARSE_SIZE = 49 * SENSORS_FEATURE_MAX_SUB_FEATURES.
Proof. unfold SPARSE_SIZE, MAX_SENSORS_PER_TYPE. lia. Qed.

Lemma slot_address_in_range (type i : Z) :
  SPARSE_SIZE <= C.INT_MAX ->
  type_in_range type i ->
  exists slot,
    slot_address type i = Some slot
    /\ slot = (Z.shiftr type 8 * MAX_SENSORS_PER_TYPE + i)
              * SENSORS_FEATURE_MAX_SUB_FEATURES + Z.land type 0xFF
    /\ 0 <= slot < SPARSE_SIZE.
Proof.
  intros Hsize (Hi & Hsub & Hcat). rewrite SPARSE_SIZE_eq in *.
  unfold MAX_SENSORS_PER_TYPE in *.
  assert (Hsub0 : 0 <= Z.land type 0xFF) by (apply Z.land_nonneg; right; lia).
  assert (Hint_max : C.INT_MAX = 2147483647) by reflexivity.
  assert (Hint_min : C.INT_MIN = -2147483648) by reflexivity.
  set (M := SENSORS_FEATURE_MAX_SUB_FEATURES) in *.
  set (c := Z.shiftr type 8) in *. set (s := Z.land type 0xFF) in *.
  assert (Hc : 0 <= c <= 3) by lia.
  assert (HM : 0 < M) by lia.
  assert (Hci : 0 <= c * 16 + i <= 48) by lia.
  exists ((c * 16 + i) * M + s). unfold slot_address, MAX_SENSORS_PER_TYPE.
  fold c M s.
  rewrite (int_in_range (c * 16)) by lia. simpl.
  rewrite (int_in_range (c * 16 * M)) by nia. simpl.
  rewrite (int_in_range (i * M)) by nia. simpl.
  rewrite (int_in_range (c * 16 * M + i * M)) by nia. simpl.
  rewrite (int_in_range (c * 16 * M + i * M + s)) by nia.
  split; [f_equal; ring|]. split; [reflexivity | nia].
Qed.

Lemma read_attrs_in_range (attrs : list sysfs_attribute) :
  SPARSE_SIZE <= C.INT_MAX ->
  Forall decodes_in_range attrs ->
  is_Some (read_attrs scan_start attrs).
Proof.
  intros Hsize Hall. apply read_attrs_is_Some.
  eapply Forall_impl; [|exact Hall].
  intros attr (d & Hd & Hrange). exists d. split; [exact Hd|].
  intros type i slot ->.
  destruct (decode_attr_type _ _ _ _ Hd) as (_ & _ & _ & _ & _ & Hslot).
  destruct (slot_address_in_range type i Hsize (Hrange _ _ _ eq_refl))
    as (slot' & Hslot' & _ & Hbound).
  assert (slot' = slot) as -> by congruence.
  simpl. rewrite length_replicate. lia.
Qed.

Lemma attr_stderr_duplicate (st : scan_state) (attr : sysfs_attribute)
    (type i slot : Z) (old : sensors_chip_feature) :
  decode_attr attr = Some (Slot type i slot) ->
  array_get (features st) slot = Some old -> occupied old = true ->
  read_attr st attr = Some st
  /\ attr_stderr st attr = [duplicate_message (attr_name attr)].
Proof.
  intros Hdec Hget Hocc. split.
  - unfold read_attr. rewrite Hdec. simpl. rewrite Hget. simpl.
    now rewrite Hocc.
  - destruct (decode_attr_type _ _ _ _ Hdec)
      as (Htype & Hunknown & Hname & Hidx & Hi & Hslot).
    unfold attr_stderr. rewrite Hname, <- Htype.
    apply Z.eqb_neq in Hunknown. rewrite Hunknown, Hidx.
    destruct (Z.leb_spec MAX_SENSORS_PER_TYPE i); [lia|].
    now rewrite Hslot, Hget, Hocc.
Qed.

Lemma sorted_numbers_unique (l : list sensors_chip_feature)
    (f g : sensors_chip_feature) :
  StronglySorted Z.lt (List.map number_of l) ->
  f ∈ l -> g ∈ l -> number_of f = number_of g -> f = g.
Proof.
  intros Hsorted Hf Hg Hnum.
  apply list_elem_of_lookup in Hf as [m Hm], Hg as [n Hn].
  destruct (Nat.lt_total m n) as [Hlt | [-> | Hlt]]; [|congruence|].
  - pose proof (sorted_numbers_lookup _ _ _ _ _ Hsorted Hlt Hm Hn). lia.
  - pose proof (sorted_numbers_lookup _ _ _ _ _ Hsorted Hlt Hn Hm). lia.
Qed.

(** C5: of two attributes with the same (category, index, subtype) the
    later one is discarded after the diagnostic that names it: the turn of
    the loop prints the message, leaves the state as it is, and the function
    returns what it returns without the attribute. When the loop gets
    through the attributes, which it does when they decode in range, the
    function returns the stored features and the final zero element; the
    first attribute of a key has its feature among them, that feature is
    the only one with its number, and the feature of the later attribute is
    not among them unless it is the same; every feature returned is that of
    an attribute of the chip; and features at different places come from
    attributes with different keys. *)
Theorem duplicate_feature_discarded (sysdir : sysfs_device)
    (l1 l2 l3 : list sysfs_attribute) (a b : sysfs_attribute)
    (key : Z * Z * Z) :
  feature_key a = Some key ->
  feature_key b = Some key ->
  sensors_read_dynamic_chip (with_attrs sysdir (l1 ++ a :: l2 ++ b :: l3))
  = sensors_read_dynamic_chip (with_attrs sysdir (l1 ++ a :: l2 ++ l3))
  /\ (forall st1,
        read_attrs scan_start (l1 ++ a :: l2) = Some st1 ->
        read_attr st1 b = Some st1
        /\ attr_stderr st1 b = [duplicate_message (attr_name b)])
  /\ (SPARSE_SIZE <= C.INT_MAX ->
      Forall decodes_in_range (l1 ++ a :: l2 ++ b :: l3) ->
      is_Some (read_attrs scan_start (l1 ++ a :: l2 ++ b :: l3)))
  /\ (forall st,
        read_attrs scan_start (l1 ++ a :: l2 ++ b :: l3) = Some st ->
        let feats := stored (features st) in
        sensors_read_dynamic_chip
          (with_attrs sysdir (l1 ++ a :: l2 ++ b :: l3))
        = Some {| cf_prefix := ret_prefix st;
                  cf_feature := Some (feats ++ [zero_feature]) |}
        /\ ((forall x, x ∈ l1 -> feature_key x <> Some key) ->
            (forall x, x ∈ l1 ++ [a] -> key_in_range x) ->
            exists fa, feature_of a = Some fa /\ fa ∈ feats
                       /\ (forall f, f ∈ feats ->
                                     number_of f = number_of fa -> f = fa)
                       /\ (forall fb, feature_of b = Some fb ->
                                      fb ∈ feats -> fb = fa))
        /\ (forall f, f ∈ feats ->
              exists x, x ∈ l1 ++ a :: l2 ++ b :: l3
                        /\ feature_of x = Some f)
        /\ (forall (m n : nat) f g x y,
              m <> n -> feats !! m = Some f -> feats !! n = Some g ->
              feature_of x = Some f -> feature_of y = Some g ->
              feature_key x <> feature_key y)).
Proof.
  intros Hka Hkb.
  destruct (same_key_same_slot _ _ _ Hka Hkb) as (slot & Hsa & Hsb).
  assert (Hdup : forall st1,
            read_attrs scan_start (l1 ++ a :: l2) = Some st1 ->
            read_attr st1 b = Some st1
            /\ attr_stderr st1 b = [duplicate_message (attr_name b)]).
  { intros st1 Hst.
    destruct (slot_occupied_after _ _ _ a slot Hst) as (f & Hget & Hocc);
      [apply elem_of_app; right; left | exact Hsa |].
    destruct (feature_key_decode _ _ Hkb)
      as (tb & ib & sb & Hdec & _ & _ & _ & Hsb' & _).
    assert (sb = slot) as -> by congruence.
    exact (attr_stderr_duplicate _ _ _ _ _ _ Hdec Hget Hocc). }
  split; [|split; [exact Hdup|split]].
  - assert (Hloop : read_attrs scan_start (l1 ++ a :: l2 ++ b :: l3)
                    = read_attrs scan_start (l1 ++ a :: l2 ++ l3)).
    { replace (l1 ++ a :: l2 ++ b :: l3) with ((l1 ++ a :: l2) ++ b :: l3)
        by (rewrite <- app_assoc; reflexivity).
      replace (l1 ++ a :: l2 ++ l3) with ((l1 ++ a :: l2) ++ l3)
        by (rewrite <- app_assoc; reflexivity).
      rewrite (read_attrs_app (l1 ++ a :: l2) (b :: l3)),
        (read_attrs_app (l1 ++ a :: l2) l3).
      destruct (read_attrs scan_start (l1 ++ a :: l2)) as [st|] eqn:Hst;
        [|reflexivity].
      simpl. destruct (Hdup st eq_refl) as [Hb _]. now rewrite Hb. }
    unfold sensors_read_dynamic_chip. simpl. now rewrite Hloop.
  - apply read_attrs_in_range.
  - intros st Hloop feats.
    destruct (sensors_read_dynamic_chip_stored
                (with_attrs sysdir (l1 ++ a :: l2 ++ b :: l3)) _ _
                eq_refl Hloop) as [Hres _].
    assert (Hsorted : StronglySorted Z.lt (List.map number_of feats)).
    { apply (stored_numbers_ascend _ 0). intros j h Hj Hocc.
      now rewrite (final_table_numbers _ _ Hloop j h). }
    split; [exact Hres|]. split; [|split].
    + intros Hfirst Hrange.
      destruct (feature_key_decode _ _ Hka)
        as (ta & ia & sa & Hdec & _ & _ & _ & Hsa' & Hfa).
      assert (sa = slot) as -> by congruence.
      assert (Hin : new_feature a ta slot ∈ feats).
      { apply (stored_first_at _ _ _ Hloop). exists slot.
        rewrite first_at_app.
        assert (Hnone : first_at l1 slot = None).
        { apply first_at_None. intros x Hx Hsx. apply (Hfirst x Hx).
          rewrite <- Hka. apply (same_slot_same_key x a slot); auto.
          - apply Hrange, elem_of_app. now left.
          - apply Hrange, elem_of_app. right. left. }
        rewrite Hnone. simpl. unfold placement. rewrite Hdec.
        now rewrite Z.eqb_refl. }
      exists (new_feature a ta slot). split; [exact Hfa|].
      split; [exact Hin|]. split.
      * intros f Hf Hnum.
        exact (sorted_numbers_unique _ _ _ Hsorted Hf Hin Hnum).
      * intros fb Hfb Hin_b.
        apply (sorted_numbers_unique _ _ _ Hsorted Hin_b Hin).
        pose proof (feature_of_slot _ _ Hfb) as Hnb.
        pose proof (feature_of_slot _ _ Hfa) as Hna.
        rewrite Hsb in Hnb. rewrite Hsa in Hna.
        injection Hnb as Hnb. injection Hna as Hna. lia.
    + intros f Hf.
      destruct (stored_at_slot _ _ _ Hloop Hf) as (x & t & i & Hx & Hdec & Hfx & _).
      exists x. split; [exact Hx|].
      unfold feature_of, placement. rewrite Hdec. simpl. now rewrite <- Hfx.
    + intros m n f g x y Hmn Hf Hg Hfx Hgy Hkey.
      apply feature_of_slot in Hfx, Hgy.
      assert (Hslots : slot_of x = slot_of y).
      { destruct (feature_key x) as [k|] eqn:Hkx.
        - destruct (same_key_same_slot x y k Hkx (eq_sym Hkey))
            as (s' & -> & ->). reflexivity.
        - unfold feature_key in Hkx. unfold slot_of, placement in Hfx.
          destruct (decode_attr x) as [[| |? ? ?]|]; discriminate. }
      assert (Hnum : number_of f = number_of g)
        by (rewrite Hfx, Hgy in Hslots; injection Hslots; lia).
      destruct (Nat.lt_total m n) as [Hlt | [Heq | Hlt]]; [|lia|].
      * pose proof (sorted_numbers_lookup _ _ _ _ _ Hsorted Hlt Hf Hg). lia.
      * pose proof (sorted_numbers_lookup _ _ _ _ _ Hsorted Hlt Hg Hf). lia.
Qed.

End OrderAndDuplicates.

(** ** The properties, evaluated *)

Section Examples.
#[local] Existing Instance Sample.header.

Lemma device_without_name_skipped_witness :
  sensors_read_one_sysfs_chip Sample.fs Sample.start
    {| dev_name := "0-0048"; dev_path := "/sys/bus/i2c/devices/0-0048";
       dev_attrs := Some [Sample.attr "temp1_input"] |}
  = Some (0, Sample.start).
Proof. apply device_without_name_skipped. reflexivity. Defined.

Lemma bus_classification_witness :
  read_bus Sample.fs "9191-0290" = Some (OnBus SENSORS_CHIP_NAME_BUS_ISA 656)
  /\ read_bus Sample.fs "4-0048" = Some (OnBus SENSORS_CHIP_NAME_BUS_ISA 72)
  /\ read_bus Sample.fs "0-0048" = Some (OnBus 0 72).
Proof.
  split; [|split].
  - destruct (bus_classification Sample.fs
                (Sample.device "9191-0290" "w83627hf" []) 9191 656 eq_refl)
      as [Hisa _].
    apply Hisa. reflexivity.
  - destruct (bus_classification Sample.fs
                (Sample.device "4-0048" "lm75" []) 4 72 eq_refl)
      as (_ & Hadapter & _).
    assert (Hbus : 4 <> 9191) by lia.
    destruct (Hadapter Hbus _ eq_refl) as [Hisa _].
    apply Hisa. reflexivity.
  - destruct (bus_classification Sample.fs
                (Sample.device "0-0048" "lm75" []) 0 72 eq_refl)
      as (_ & Hadapter & _).
    assert (Hbus : 0 <> 9191) by lia.
    destruct (Hadapter Hbus _ eq_refl) as [_ Hi2c].
    apply Hi2c. reflexivity.
Defined.

Lemma adapter_name_read_failure_witness :
  sensors_read_one_sysfs_chip Sample.fs Sample.start
    (Sample.device "7-0048" "lm75" [])
  = Some (- 8, Sample.start)
  /\ read_chip_devices Sample.fs Sample.start
       [Sample.device "7-0048" "lm75" []; Sample.device "0-0049" "lm75" []]
     = Some (- 8, Sample.start).
Proof.
  assert (Herr : SENSORS_ERR_PARSE <> 0) by (simpl; lia).
  assert (Hbus : 7 <> 9191) by lia.
  destruct (adapter_name_read_failure Sample.fs Sample.start
              (Sample.device "7-0048" "lm75" []) _ 7 72
              [Sample.device "0-0049" "lm75" []]
              Herr eq_refl eq_refl eq_refl Hbus) as [Hfails _].
  apply Hfails. reflexivity.
Defined.

(** C3 as stated fails: the device 3-0048 is on bus 3, the "name" attribute
    of that adapter cannot be read, as it cannot even be opened, and the call
    returns 0 and registers the chip on bus 3. *)
Lemma adapter_name_absent_is_no_error :
  C.sscanf_d_x "3-0048" = Some (3, 72)
  /\ sysfs_open_attribute Sample.fs (bus_path Sample.fs 3) = None
  /\ sensors_read_one_sysfs_chip Sample.fs Sample.start
       (Sample.device "3-0048" "lm75" [])
     = Some (0, {| sensors_chip_features_list :=
                     sensors_chip_features_list Sample.start;
                   total_dynamic := 0;
                   sensors_proc_chips :=
                     [{| entry_name :=
                           {| cn_prefix := "lm75"; cn_bus := 3; cn_addr := 72;
                              cn_busname := "/sys/bus/i2c/devices/3-0048" |}
                      |}] |}).
Proof. repeat split; vm_compute; reflexivity. Qed.

Lemma budget_exhausted_witness :
  sensors_read_one_sysfs_chip Sample.fs Sample.full
    (Sample.device "0-002d" "adm1021" ["temp1_input"])
  = Some (0, {| sensors_chip_features_list :=
                  sensors_chip_features_list Sample.full;
                total_dynamic := 2;
                sensors_proc_chips :=
                  [{| entry_name :=
                        {| cn_prefix := "adm1021"; cn_bus := 0; cn_addr := 45;
                           cn_busname := "/sys/bus/i2c/devices/0-002d" |}
                   |}] |}).
Proof.
  assert (Hbus : read_bus Sample.fs
                   (dev_name (Sample.device "0-002d" "adm1021" ["temp1_input"]))
                 = Some (OnBus 0 45)) by (vm_compute; reflexivity).
  destruct (budget_exhausted Sample.fs Sample.full
              (Sample.device "0-002d" "adm1021" ["temp1_input"]))
    as (_ & Hresolved & _).
  destruct (Hresolved _ 0 45 eq_refl eq_refl Hbus) as [Hfull _].
  apply Hfull.
  - simpl. lia.
  - exists Sample.placeholder. split; [|reflexivity].
    do 4 right. left.
Defined.


Lemma dense_table_zero_terminated_witness :
  exists feats,
    [new_feature (Sample.attr "fan1_input") 0x100 352; zero_feature]
    = feats ++ [zero_feature]
    /\ Forall (fun f => occupied f = true) feats.
Proof.
  assert (Hret : sensors_read_dynamic_chip (Sample.chip ["fan1_input"])
                 = Some {| cf_prefix := Some "w83781d";
                           cf_feature :=
                             Some [new_feature (Sample.attr "fan1_input")
                                     0x100 352; zero_feature] |})
    by (vm_compute; reflexivity).
  destruct (dense_table_zero_terminated _ _ _ Hret eq_refl)
    as (feats & Harr & Hocc & _).
  exists feats. split; [exact Harr | exact Hocc].
Defined.

Lemma feature_table_independent_of_order_witness :
  exists ret2,
    sensors_read_dynamic_chip
      (with_attrs (Sample.chip [])
         [Sample.attr "in0_input"; Sample.attr "in0_min"]) = Some ret2
    /\ cf_feature ret2
       = Some [new_feature (Sample.attr "in0_input") 0x000 0;
               new_feature (Sample.attr "in0_min") 0x001 1; zero_feature].
Proof.
  assert (Hnd : NoDup (omap slot_of [Sample.attr "in0_min";
                                     Sample.attr "in0_input"])).
  { change (NoDup [1; 0]). repeat constructor; simpl; intuition lia. }
  assert (Hret : sensors_read_dynamic_chip
                   (with_attrs (Sample.chip [])
                      [Sample.attr "in0_min"; Sample.attr "in0_input"])
                 = Some {| cf_prefix := None;
                           cf_feature :=
                             Some [new_feature (Sample.attr "in0_input") 0x000 0;
                                   new_feature (Sample.attr "in0_min") 0x001 1;
                                   zero_feature] |})
    by (vm_compute; reflexivity).
  destruct (feature_table_independent_of_order (Sample.chip []) _ _ _
              (perm_swap (Sample.attr "in0_input") (Sample.attr "in0_min") [])
              Hnd Hret) as (ret2 & _ & _ & Hret2 & Hsame & _).
  exists ret2. split; [exact Hret2 | exact Hsame].
Defined.

Lemma duplicate_feature_discarded_witness :
  sensors_read_dynamic_chip
    (with_attrs (Sample.chip [])
       ([] ++ Sample.attr "in0_input" :: [Sample.attr "in0_min"]
        ++ Sample.attr "in0" :: []))
  = Some {| cf_prefix := None;
            cf_feature :=
              Some ([new_feature (Sample.attr "in0_input") 0x000 0;
                     new_feature (Sample.attr "in0_min") 0x001 1]
                    ++ [zero_feature]) |}
  /\ (exists st1,
        read_attrs scan_start
          ([] ++ Sample.attr "in0_input" :: [Sample.attr "in0_min"])
        = Some st1
        /\ read_attr st1 (Sample.attr "in0") = Some st1
        /\ attr_stderr st1 (Sample.attr "in0") = [duplicate_message "in0"])
  /\ sensors_read_dynamic_chip
       (with_attrs (Sample.chip [])
          ([] ++ Sample.attr "in0_input" :: [Sample.attr "in0_min"]
           ++ Sample.attr "in0" :: []))
     = sensors_read_dynamic_chip
         (with_attrs (Sample.chip [])
            ([] ++ Sample.attr "in0_input" :: [Sample.attr "in0_min"] ++ [])).
Proof.
  assert (Ha : feature_key (Sample.attr "in0_input") = Some (0, 0, 0))
    by (vm_compute; reflexivity).
  assert (Hb : feature_key (Sample.attr "in0") = Some (0, 0, 0))
    by (vm_compute; reflexivity).
  assert (Hsize : SPARSE_SIZE <= C.INT_MAX) by (vm_compute; discriminate).
  assert (Hin0 : type_in_range 0x000 0)
    by (vm_compute; intuition (discriminate || reflexivity)).
  assert (Hmin : type_in_range 0x001 0)
    by (vm_compute; intuition (discriminate || reflexivity)).
  assert (Hall : Forall decodes_in_range
                   ([] ++ Sample.attr "in0_input" :: [Sample.attr "in0_min"]
                    ++ Sample.attr "in0" :: [])).
  { repeat constructor.
    - exists (Slot 0x000 0 0). split; [reflexivity|].
      now intros ? ? ? [= <- <- <-].
    - exists (Slot 0x001 0 1). split; [reflexivity|].
      now intros ? ? ? [= <- <- <-].
    - exists (Slot 0x000 0 0). split; [reflexivity|].
      now intros ? ? ? [= <- <- <-]. }
  destruct (duplicate_feature_discarded (Sample.chip []) []
              [Sample.attr "in0_min"] [] (Sample.attr "in0_input")
              (Sample.attr "in0") (0, 0, 0) Ha Hb)
    as (Hsame & Hdup & Hdefined & Hresult).
  destruct (Hdefined Hsize Hall) as [st Hst].
  destruct (Hresult st Hst) as (Hret & _).
  split; [|split; [|exact Hsame]].
  - rewrite Hret. vm_compute in Hst. injection Hst as <-.
    vm_compute. reflexivity.
  - eexists. split; [vm_compute; reflexivity|].
    apply Hdup. vm_compute. reflexivity.
Defined.

(** The decoding of section 8 of the specification. *)
Example fan1_input_decodes :
  decode_attr (Sample.attr "fan1_input") = Some (Slot 0x100 0 352)
  /\ get_type_scaling 0x100 = 0.
Proof. vm_compute. auto. Qed.

Example temp2_input_decodes :
  decode_attr (Sample.attr "temp2_input") = Some (Slot 0x200 1 726)
  /\ get_type_scaling 0x200 = 3.
Proof. vm_compute. auto. Qed.

Example in0_with_limits :
  cf_feature <$> sensors_read_dynamic_chip
                   (Sample.chip ["in0_max"; "in0_input"; "in0_min"])
  = Some (Some [new_feature (Sample.attr "in0_input") 0x000 0;
                new_feature (Sample.attr "in0_min") 0x001 1;
                new_feature (Sample.attr "in0_max") 0x002 2;
                zero_feature])
  /\ data_mapping (feat_data (new_feature (Sample.attr "in0_input") 0x000 0))
     = SENSORS_NO_MAPPING
  /\ data_mapping (feat_data (new_feature (Sample.attr "in0_min") 0x001 1)) = 1
  /\ data_compute_mapping
       (feat_data (new_feature (Sample.attr "in0_max") 0x002 2)) = 1.
Proof. vm_compute. auto. Qed.

Example pci_device :
  read_bus Sample.fs "0000:00:1f.3"
  = Some (OnBus SENSORS_CHIP_NAME_BUS_PCI 251).
Proof. vm_compute. reflexivity. Qed.

Example platform_device :
  read_bus Sample.fs "w83627hf.656"
  = Some (OnBus SENSORS_CHIP_NAME_BUS_ISA 656).
Proof. vm_compute. reflexivity. Qed.

Example subclient_skipped :
  sensors_read_one_sysfs_chip Sample.fs Sample.start
    (Sample.device "0-0049" "w83781d subclient" ["temp2_input"])
  = Some (0, Sample.start).
Proof. vm_compute. reflexivity. Qed.

Example unknown_chip_synthesized :
  (fun r => (total_dynamic (snd r),
             cf_prefix <$> sensors_chip_features_list (snd r)))
  <$> sensors_read_one_sysfs_chip Sample.fs Sample.start
        (Sample.device "0-002d" "w83781d" ["in0_input"])
  = Some (1, [Some "lm78"; Some "lm75"; Some "w83781d"; None; None]).
Proof. vm_compute. reflexivity. Qed.

Example no_pattern_matches :
  sensors_read_one_sysfs_chip Sample.fs Sample.start
    (Sample.device "serio0" "lm75" [])
  = Some (- 8, Sample.start).
Proof. vm_compute. reflexivity. Qed.

End Examples.

(** * Further properties *)

(** ** Strings *)

Lemma strlen_app (a b : string) :
  C.strlen (a +:+ b) = C.strlen a + C.strlen b.
Proof.
  unfold C.strlen. induction a as [|c a IH]; simpl; [reflexivity|]. lia.
Qed.

Lemma drop_chars_app (a b : string) :
  C.drop_chars (String.length a) (a +:+ b) = b.
Proof. induction a as [|c a IH]; simpl; [now destruct b | exact IH]. Qed.

Lemma take_chars_app (a b : string) :
  C.take_chars (String.length a) (a +:+ b) = a.
Proof.
  induction a as [|c a IH]; simpl; [now destruct b | now rewrite IH].
Qed.

Lemma take_drop_chars (n : nat) (s : string) :
  C.take_chars n s +:+ C.drop_chars n s = s.
Proof.
  revert s. induction n as [|n IH]; intros [|c s]; try reflexivity.
  change (String c (C.take_chars n s +:+ C.drop_chars n s) = String c s).
  f_equal. apply IH.
Qed.

Lemma ptr_add_app (a b : string) :
  C.ptr_add (a +:+ b) (C.strlen a) = Some b.
Proof.
  unfold C.ptr_add. rewrite strlen_app. unfold C.strlen.
  destruct (Z.leb_spec 0 (Z.of_nat (String.length a))); [|lia].
  destruct (Z.leb_spec (Z.of_nat (String.length a))
              (Z.of_nat (String.length a) + Z.of_nat (String.length b)));
    [|lia].
  simpl. now rewrite Nat2Z.id, drop_chars_app.
Qed.

Lemma strndup_app (a b : string) :
  C.strndup (a +:+ b) (C.strlen a) = a.
Proof.
  unfold C.strndup, C.strlen.
  destruct (Z.ltb_spec (Z.of_nat (String.length a)) 0); [lia|].
  now rewrite Nat2Z.id, take_chars_app.
Qed.

Lemma chopped_newline (attr : sysfs_attribute) (p : string) :
  attr_value attr = p +:+ newline -> chopped attr = p.
Proof.
  intros Hv. unfold chopped, attr_len. rewrite Hv, strlen_app.
  replace (C.strlen p + C.strlen newline - 1) with (C.strlen p)
    by (unfold newline, C.strlen; simpl; lia).
  apply strndup_app.
Qed.

(** ** The name of a feature *)

(** X1: the name of a feature is the name of the attribute, without the
    suffix "_input" when something stands before that suffix. *)
Theorem feature_name_strips_input :
  (forall base, base <> "" -> feature_name (base +:+ "_input") = base)
  /\ feature_name "_input" = "_input"
  /\ (forall name, feature_name name = name
                   \/ (name = feature_name name +:+ "_input"
                       /\ feature_name name <> "")).
Proof.
  split; [|split].
  - intros base Hbase. unfold feature_name.
    rewrite strlen_app.
    replace (C.strlen base + C.strlen "_input" - 6) with (C.strlen base)
      by (unfold C.strlen; simpl; lia).
    rewrite ptr_add_app, strndup_app. simpl.
    destruct (Z.ltb_spec 6 (C.strlen base + C.strlen "_input")) as [_|Hlen];
      [reflexivity|].
    exfalso. destruct base; [congruence|]. unfold C.strlen in Hlen.
    simpl in Hlen. lia.
  - reflexivity.
  - intros name. unfold feature_name.
    destruct (Z.ltb_spec 6 (C.strlen name)) as [Hlen|]; [|now left]. simpl.
    unfold C.ptr_add.
    destruct ((0 <=? C.strlen name - 6) && (C.strlen name - 6 <=? C.strlen name));
      [|now left].
    simpl. unfold C.streq.
    destruct (String.eqb_spec
                (C.drop_chars (Z.to_nat (C.strlen name - 6)) name) "_input")
      as [Hdrop|]; [|now left].
    right. unfold C.strndup.
    destruct (Z.ltb_spec (C.strlen name - 6) 0); [lia|]. split.
    + rewrite <- (take_drop_chars (Z.to_nat (C.strlen name - 6)) name) at 1.
      now rewrite Hdrop.
    + destruct name as [|c name]; [unfold C.strlen in Hlen; simpl in Hlen; lia|].
      unfold C.strlen in *. simpl String.length in *.
      replace (Z.to_nat (Z.of_nat (S (String.length name)) - 6))
        with (S (String.length name - 6)) by lia.
      simpl. discriminate.
Qed.

(** ** The prefix and the attributes that are not features *)

Section DynamicChipMore.
Context `{SensorsHeader}.

Lemma decode_attr_name (attr : sysfs_attribute) :
  is_name attr = true ->
  decode_attr attr = Some (IsName (chopped attr)).
Proof. unfold is_name, decode_attr. intros ->. reflexivity. Qed.

Lemma read_attr_prefix (st st' : scan_state) (attr : sysfs_attribute) :
  read_attr st attr = Some st' ->
  ret_prefix st'
  = if is_name attr then Some (chopped attr) else ret_prefix st.
Proof.
  unfold read_attr, decode_attr, is_name.
  destruct (C.streq (attr_name attr) "name"); simpl.
  - now intros [= <-].
  - destruct (_ =? SENSORS_FEATURE_UNKNOWN); simpl; [now intros [= <-]|].
    destruct (sensor_index _ _) as [i|]; [|discriminate]. simpl.
    destruct (MAX_SENSORS_PER_TYPE <=? i); simpl; [now intros [= <-]|].
    destruct (slot_address _ i) as [slot|]; [|discriminate]. simpl.
    destruct (array_get _ slot) as [old|]; [|discriminate]. simpl.
    destruct (occupied old); now intros [= <-].
Qed.

Lemma read_attrs_prefix_kept (attrs : list sysfs_attribute)
    (st st' : scan_state) :
  read_attrs st attrs = Some st' ->
  Forall (fun a => is_name a = false) attrs ->
  ret_prefix st' = ret_prefix st.
Proof.
  revert st. induction attrs as [|attr rest IH]; intros st; simpl.
  - now intros [= <-].
  - destruct (read_attr st attr) as [st1|] eqn:Hone; [|discriminate]. simpl.
    intros Hrest Hall. apply Forall_cons_iff in Hall as [Hattr Hall].
    rewrite (IH _ Hrest Hall), (read_attr_prefix _ _ _ Hone), Hattr.
    reflexivity.
Qed.

(** X2: the prefix of the returned feature set is the value, without its
    last character, of the last attribute called "name"; it is NULL when no
    attribute is called so. The features do not matter to it. *)
Theorem prefix_is_last_name (sysdir : sysfs_device)
    (attrs : list sysfs_attribute) (ret : sensors_chip_features) :
  dev_attrs sysdir = Some attrs ->
  sensors_read_dynamic_chip sysdir = Some ret ->
  (Forall (fun a => is_name a = false) attrs -> cf_prefix ret = None)
  /\ (forall before attr after,
        attrs = before ++ attr :: after ->
        is_name attr = true ->
        Forall (fun a => is_name a = false) after ->
        cf_prefix ret = Some (chopped attr)
        /\ forall p, attr_value attr = p +:+ newline ->
                     cf_prefix ret = Some p).
Proof.
  intros Hattrs Hret.
  destruct (read_attrs scan_start attrs) as [st|] eqn:Hloop; cycle 1.
  { unfold sensors_read_dynamic_chip, sysfs_get_device_attributes in Hret.
    rewrite Hattrs, Hloop in Hret. discriminate. }
  destruct (sensors_read_dynamic_chip_stored _ _ _ Hattrs Hloop) as [Hres _].
  rewrite Hres in Hret. injection Hret as <-. simpl. split.
  - intros Hnone. now rewrite (read_attrs_prefix_kept _ _ _ Hloop Hnone).
  - intros before attr after -> Hname Hafter.
    rewrite read_attrs_app in Hloop.
    destruct (read_attrs scan_start before) as [st1|]; [|discriminate].
    simpl in Hloop.
    destruct (read_attr st1 attr) as [st2|] eqn:Hone; [|discriminate].
    simpl in Hloop.
    assert (Hprefix : ret_prefix st = Some (chopped attr)).
    { rewrite (read_attrs_prefix_kept _ _ _ Hloop Hafter),
        (read_attr_prefix _ _ _ Hone), Hname. reflexivity. }
    split; [exact Hprefix|]. intros p Hp.
    now rewrite Hprefix, (chopped_newline _ _ Hp).
Qed.

(** X3: an attribute whose name [sensors_feature_get_type] does not know is
    passed over: the loop state stays as it is and the function returns what
    it returns for the chip without the attribute. *)
Theorem unknown_attribute_ignored (sysdir : sysfs_device)
    (before after : list sysfs_attribute) (attr : sysfs_attribute) :
  is_name attr = false ->
  sensors_feature_get_type (feature_name (attr_name attr))
  = SENSORS_FEATURE_UNKNOWN ->
  (forall st, read_attr st attr = Some st)
  /\ feature_of attr = None
  /\ sensors_read_dynamic_chip (with_attrs sysdir (before ++ attr :: after))
     = sensors_read_dynamic_chip (with_attrs sysdir (before ++ after)).
Proof.
  intros Hname Hunknown.
  assert (Hdec : decode_attr attr = Some Ignored).
  { unfold decode_attr. unfold is_name in Hname.
    now rewrite Hname, Hunknown, Z.eqb_refl. }
  assert (Hone : forall st, read_attr st attr = Some st)
    by (intros st; unfold read_attr; now rewrite Hdec).
  split; [exact Hone|]. split.
  - unfold feature_of, placement. now rewrite Hdec.
  - unfold sensors_read_dynamic_chip. simpl. rewrite !read_attrs_app. simpl.
    destruct (read_attrs scan_start before) as [st1|]; simpl; [|reflexivity].
    now rewrite Hone.
Qed.

Lemma read_attr_fnum_step (st st' : scan_state) (attr : sysfs_attribute) :
  read_attr st attr = Some st' ->
  fnum st <= fnum st' <= fnum st + (if is_name attr then 0 else 1).
Proof.
  unfold read_attr, decode_attr, is_name.
  destruct (C.streq (attr_name attr) "name"); simpl.
  - intros [= <-]. simpl. lia.
  - destruct (_ =? SENSORS_FEATURE_UNKNOWN); simpl; [intros [= <-]; lia|].
    destruct (sensor_index _ _) as [i|]; [|discriminate]. simpl.
    destruct (MAX_SENSORS_PER_TYPE <=? i); simpl; [intros [= <-]; lia|].
    destruct (slot_address _ i) as [slot|]; [|discriminate]. simpl.
    destruct (array_get _ slot) as [old|]; [|discriminate]. simpl.
    destruct (occupied old); intros [= <-]; simpl; lia.
Qed.

Lemma read_attrs_fnum_bound (attrs : list sysfs_attribute)
    (st st' : scan_state) :
  read_attrs st attrs = Some st' ->
  fnum st <= fnum st'
  <= fnum st + Z.of_nat (length (List.filter (fun a => negb (is_name a)) attrs)).
Proof.
  revert st. induction attrs as [|attr rest IH]; intros st; simpl.
  - intros [= <-]. lia.
  - destruct (read_attr st attr) as [st1|] eqn:Hone; [|discriminate]. simpl.
    intros Hrest. specialize (IH _ Hrest).
    pose proof (read_attr_fnum_step _ _ _ Hone) as Hstep.
    destruct (is_name attr); simpl in *; lia.
Qed.

Lemma stored_length_le (table : list sensors_chip_feature) :
  (length (stored table) <= length table)%nat.
Proof. unfold stored. apply filter_length_le. Qed.

(** X4: the returned array has at least the final zero element, and at most
    one feature for each attribute that is not called "name", and never more
    features than the sparse table has slots. *)
Theorem feature_count_bounds (sysdir : sysfs_device)
    (attrs : list sysfs_attribute) (ret : sensors_chip_features)
    (arr : list sensors_chip_feature) :
  dev_attrs sysdir = Some attrs ->
  sensors_read_dynamic_chip sysdir = Some ret ->
  cf_feature ret = Some arr ->
  (1 <= length arr)%nat
  /\ (length arr
      <= length (List.filter (fun a => negb (is_name a)) attrs) + 1)%nat
  /\ (length arr <= Z.to_nat SPARSE_SIZE + 1)%nat.
Proof.
  intros Hattrs Hret Harr.
  destruct (sensors_read_dynamic_chip_Some _ _ _ Hret Harr)
    as (attrs' & st & Hattrs' & Hloop & _ & -> & Hfnum).
  assert (attrs' = attrs) as -> by congruence.
  pose proof (read_attrs_fnum_bound _ _ _ Hloop) as Hbound.
  simpl in Hbound.
  destruct (final_table _ _ Hloop) as [Hlen _].
  pose proof (stored_length_le (features st)) as Hstored.
  rewrite length_app in *. simpl in *. lia.
Qed.

(** X5: the numbers of the features of the returned array lie between 1 and
    the size of the sparse table and ascend strictly, whatever the
    attributes are: a number names one feature. *)
Theorem feature_numbers_ascend (sysdir : sysfs_device)
    (ret : sensors_chip_features) (feats : list sensors_chip_feature) :
  sensors_read_dynamic_chip sysdir = Some ret ->
  cf_feature ret = Some (feats ++ [zero_feature]) ->
  StronglySorted Z.lt (List.map number_of feats)
  /\ Forall (fun f => 1 <= number_of f <= SPARSE_SIZE) feats.
Proof.
  intros Hret Harr.
  destruct (sensors_read_dynamic_chip_Some _ _ _ Hret Harr)
    as (attrs & st & _ & Hloop & _ & Heq & _).
  apply app_inv_tail in Heq. subst feats.
  pose proof (final_table_numbers _ _ Hloop) as Hnum.
  destruct (final_table _ _ Hloop) as [Hlen _]. split.
  - apply (stored_numbers_ascend _ 0). intros j f Hj Hocc.
    now rewrite (Hnum j f).
  - apply Forall_forall. intros f Hf.
    apply list_elem_of_In, elem_of_stored in Hf as (Hocc & j & Hj).
    rewrite (Hnum j f Hj Hocc). apply lookup_lt_Some in Hj. lia.
Qed.

End DynamicChipMore.

(** ** The layout of the sparse table *)

Section Layout.
Context `{SensorsHeader}.

(** X6: a type and index in range have a slot inside the sparse table, so
    that the function returns for every chip whose attributes decode to
    types and indices in range: it never steps outside [features] or
    [dyn_features]. *)
Theorem features_in_range_fit (sysdir : sysfs_device)
    (attrs : list sysfs_attribute) :
  SPARSE_SIZE <= C.INT_MAX ->
  dev_attrs sysdir = Some attrs ->
  Forall (fun attr => exists d, decode_attr attr = Some d
                                /\ forall type i slot,
                                     d = Slot type i slot ->
                                     type_in_range type i) attrs ->
  exists st,
    read_attrs scan_start attrs = Some st
    /\ sensors_read_dynamic_chip sysdir
       = Some {| cf_prefix := ret_prefix st;
                 cf_feature := Some (stored (features st) ++ [zero_feature]) |}.
Proof.
  intros Hsize Hattrs Hall.
  assert (Hsome : is_Some (read_attrs scan_start attrs)).
  { apply read_attrs_is_Some. eapply Forall_impl; [|exact Hall].
    intros attr (d & Hd & Hrange). exists d. split; [exact Hd|].
    intros type i slot ->.
    destruct (decode_attr_type _ _ _ _ Hd) as (_ & _ & _ & _ & _ & Hslot).
    destruct (slot_address_in_range type i Hsize (Hrange _ _ _ eq_refl))
      as (slot' & Hslot' & _ & Hbound).
    assert (slot' = slot) as -> by congruence.
    simpl. rewrite length_replicate. lia. }
  destruct Hsome as [st Hloop]. exists st. split; [exact Hloop|].
  now destruct (sensors_read_dynamic_chip_stored _ _ _ Hattrs Hloop).
Qed.

(** X7: the table is "sorted at type and index": of two types and indices
    in range, the one that comes first by category, then index, then
    subtype has the lower slot; so two of them with the same slot have the
    same category, index and subtype. *)
Theorem slot_order_is_key_order (t1 i1 t2 i2 slot1 slot2 : Z) :
  type_in_range t1 i1 -> type_in_range t2 i2 ->
  slot_address t1 i1 = Some slot1 ->
  slot_address t2 i2 = Some slot2 ->
  let c1 := Z.shiftr t1 8 in let c2 := Z.shiftr t2 8 in
  let s1 := Z.land t1 0xFF in let s2 := Z.land t2 0xFF in
  (c1 < c2 \/ (c1 = c2 /\ (i1 < i2 \/ (i1 = i2 /\ s1 < s2))) ->
   slot1 < slot2)
  /\ (slot1 = slot2 -> c1 = c2 /\ i1 = i2 /\ s1 = s2).
Proof.
  intros (Hi1 & Hs1 & Hc1) (Hi2 & Hs2 & Hc2) Hslot1 Hslot2 c1 c2 s1 s2.
  apply slot_address_value in Hslot1, Hslot2.
  fold c1 s1 in Hslot1. fold c2 s2 in Hslot2. fold c1 s1 in Hs1, Hc1.
  fold c2 s2 in Hs2, Hc2.
  assert (0 <= s1) by (apply Z.land_nonneg; right; lia).
  assert (0 <= s2) by (apply Z.land_nonneg; right; lia).
  unfold MAX_SENSORS_PER_TYPE in *.
  set (M := SENSORS_FEATURE_MAX_SUB_FEATURES) in *.
  assert (Hlt : forall a b x y, 0 <= x < M -> 0 <= y < M -> a < b ->
                                a * M + x < b * M + y) by (intros; nia).
  split.
  - intros Horder. subst slot1 slot2.
    destruct Horder as [Hc | (-> & [Hi | (-> & Hs)])].
    + apply Hlt; lia.
    + apply Hlt; lia.
    + lia.
  - intros Heq. subst slot1 slot2.
    assert (c1 * 16 + i1 = c2 * 16 + i2).
    { destruct (Z.lt_trichotomy (c1 * 16 + i1) (c2 * 16 + i2))
        as [Hl | [He | Hg]]; [|exact He|].
      - pose proof (Hlt _ _ s1 s2 ltac:(lia) ltac:(lia) Hl). lia.
      - pose proof (Hlt _ _ s2 s1 ltac:(lia) ltac:(lia) Hg). lia. }
    assert (s1 = s2) by nia. lia.
Qed.

(** X8: the mapping of a sub-reading is the number of the feature of the
    primary reading (subtype 0) of the same category and index; its compute
    mapping is that number too, unless the subtype carries the flag 0x10. *)
Theorem mapping_is_number_of_primary (sub primary : sysfs_attribute)
    (ts tp i slot_s slot_p : Z) :
  decode_attr sub = Some (Slot ts i slot_s) ->
  decode_attr primary = Some (Slot tp i slot_p) ->
  0 <= i ->
  0 <= Z.shiftr ts 8 ->
  Z.shiftr tp 8 = Z.shiftr ts 8 ->
  Z.land tp 0xFF = 0 ->
  0 < Z.land ts 0xFF < SENSORS_FEATURE_MAX_SUB_FEATURES ->
  Z.land ts 0xFF00 <> SENSORS_FEATURE_VID ->
  let f := new_feature sub ts slot_s in
  let g := new_feature primary tp slot_p in
  data_mapping (feat_data f) = number_of g
  /\ data_compute_mapping (feat_data f)
     = (if Z.land ts 0x10 =? 0 then number_of g else SENSORS_NO_MAPPING)
  /\ data_mapping (feat_data g) = SENSORS_NO_MAPPING
  /\ data_compute_mapping (feat_data g) = SENSORS_NO_MAPPING.
Proof.
  intros Hsub Hprimary Hi Hcat Hsame Hzero Hrange Hvid f g.
  destruct (decode_attr_type _ _ _ _ Hsub) as (_ & _ & _ & _ & _ & Hslot_s).
  destruct (decode_attr_type _ _ _ _ Hprimary) as (_ & _ & _ & _ & _ & Hslot_p).
  apply slot_address_value in Hslot_s, Hslot_p.
  rewrite Hsame, Hzero in Hslot_p.
  assert (Hnum : number_of g = slot_p + 1)
    by (unfold g, number_of; apply number_new_feature).
  assert (Hprim : primary_number slot_s = slot_p + 1).
  { unfold primary_number.
    set (M := SENSORS_FEATURE_MAX_SUB_FEATURES) in *.
    set (q := Z.shiftr ts 8 * MAX_SENSORS_PER_TYPE + i) in *.
    assert (Hq : 0 <= q) by (unfold q, MAX_SENSORS_PER_TYPE; lia).
    assert (Hrem : Z.rem slot_s M = Z.land ts 0xFF).
    { rewrite Z.rem_mod_nonneg by nia. subst slot_s.
      rewrite Z.add_comm, Z.mod_add by lia. apply Z.mod_small. lia. }
    rewrite Hrem. lia. }
  assert (Hf : f = new_feature sub ts slot_s) by reflexivity.
  assert (Hg : g = new_feature primary tp slot_p) by reflexivity.
  unfold new_feature in Hf, Hg. fold (primary_number slot_s) in Hf.
  apply Z.eqb_neq in Hvid. rewrite Hvid in Hf.
  assert (Hne : (Z.land ts 0xFF =? 0) = false) by (apply Z.eqb_neq; lia).
  change 0x00FF with 0xFF in *. rewrite Hne in Hf. simpl in Hf.
  rewrite Hzero, Z.eqb_refl, orb_true_r in Hg.
  rewrite Hnum, <- Hprim.
  destruct (Z.land ts 0x10 =? 0); simpl in Hf; rewrite Hf, Hg; simpl; auto.
Qed.

(** X9: with SHOW and STORE two different bits, the mode of a feature says
    which of the two the attribute has: both, SHOW alone, STORE alone or
    neither. *)
Theorem access_mode_by_bits (a b method : Z) :
  0 <= a -> 0 <= b -> a <> b ->
  SYSFS_METHOD_SHOW = 2 ^ a -> SYSFS_METHOD_STORE = 2 ^ b ->
  access_mode method
  = match Z.testbit method a, Z.testbit method b with
    | true, true => SENSORS_MODE_RW
    | true, false => SENSORS_MODE_R
    | false, true => SENSORS_MODE_W
    | false, false => SENSORS_MODE_NO_RW
    end.
Proof.
  intros Ha Hb Hab Hshow Hstore.
  assert (Hbit : forall m k, 0 <= k ->
            Z.land m (2 ^ k) = if Z.testbit m k then 2 ^ k else 0).
  { intros m k Hk. apply Z.bits_inj'. intros n Hn.
    rewrite Z.land_spec, Z.pow2_bits_eqb by exact Hk.
    destruct (Z.eqb_spec k n) as [-> | Hne].
    - destruct (Z.testbit m n); simpl.
      + now rewrite Z.pow2_bits_true.
      + now rewrite Z.bits_0.
    - rewrite andb_false_r.
      destruct (Z.testbit m k); [now rewrite Z.pow2_bits_false|].
      now rewrite Z.bits_0. }
  assert (Hpos : forall k, 0 <= k -> 2 ^ k <> 0)
    by (intros k Hk; pose proof (Z.pow_pos_nonneg 2 k); lia).
  assert (Hboth_a : Z.testbit (Z.lor (2 ^ a) (2 ^ b)) a = true)
    by (rewrite Z.lor_spec, Z.pow2_bits_true by exact Ha; reflexivity).
  assert (Hboth_b : Z.testbit (Z.lor (2 ^ a) (2 ^ b)) b = true)
    by (rewrite Z.lor_spec, (Z.pow2_bits_true b), orb_true_r by exact Hb;
        reflexivity).
  unfold access_mode. rewrite Hshow, Hstore, Z.land_lor_distr_r, !Hbit by lia.
  destruct (Z.testbit method a), (Z.testbit method b).
  - now rewrite Z.eqb_refl.
  - rewrite Z.lor_0_r.
    destruct (Z.eqb_spec (2 ^ a) (Z.lor (2 ^ a) (2 ^ b))) as [Heq|_].
    + rewrite <- Heq, Z.pow2_bits_false in Hboth_b by exact Hab. discriminate.
    + destruct (Z.eqb_spec (2 ^ a) 0) as [H0|_]; [now apply Hpos in H0|].
      reflexivity.
  - rewrite Z.lor_0_l.
    destruct (Z.eqb_spec (2 ^ b) (Z.lor (2 ^ a) (2 ^ b))) as [Heq|_].
    + rewrite <- Heq, Z.pow2_bits_false in Hboth_a by lia. discriminate.
    + simpl. destruct (Z.eqb_spec (2 ^ b) 0) as [H0|_]; [now apply Hpos in H0|].
      reflexivity.
  - change (Z.lor 0 0) with 0.
    destruct (Z.eqb_spec 0 (Z.lor (2 ^ a) (2 ^ b))) as [Heq|_]; [|reflexivity].
    rewrite <- Heq, Z.bits_0 in Hboth_a. discriminate.
Qed.

End Layout.

(** ** One chip: what is skipped, what is known, what is synthesized *)

Section OneChipMore.
Context `{SensorsHeader}.

(** X10: a device whose "name" attribute ends in " subclient" and a newline
    is skipped: the call returns 0 and changes nothing, whatever the name of
    its directory is. *)
Theorem subclient_device_skipped (fs : sysfs) (st : lib_state) (dev : sysfs_device)
    (attr : sysfs_attribute) (p : string) :
  sysfs_get_device_attr dev "name" = Some attr ->
  attr_value attr = p +:+ " subclient" +:+ newline ->
  is_subclient attr = true
  /\ sensors_read_one_sysfs_chip fs st dev = Some (0, st).
Proof.
  intros Hname Hvalue.
  assert (Hsub : is_subclient attr = true).
  { unfold is_subclient, attr_len. rewrite Hvalue, strlen_app.
    change (C.strlen (" subclient" +:+ newline)) with 11.
    replace (C.strlen p + 11 - 11) with (C.strlen p) by lia.
    rewrite ptr_add_app. simpl.
    destruct (Z.leb_spec 11 (C.strlen p + 11)); [reflexivity|].
    unfold C.strlen in *. lia. }
  split; [exact Hsub|].
  unfold sensors_read_one_sysfs_chip. now rewrite Hname, Hsub.
Qed.

Lemma int_out_of_range (z : Z) :
  C.INT_MAX < z -> C.int z = None.
Proof.
  intros Hhi. unfold C.int.
  destruct (Z.leb_spec z C.INT_MAX); [lia|]. now rewrite andb_false_r.
Qed.

(** X11: a device named by domain, bus, slot and function of a PCI device
    (and matched by neither of the two patterns before) is on the PCI bus,
    at the address domain * 2^16 + bus * 2^8 + slot * 2^3 + function,
    exactly when domain, bus and slot are not negative and the sums stay
    within int; otherwise the shifts or the sums are undefined. Numbers of
    15, 8, 5 and 3 bits are within these bounds, and with bus, slot and
    function of 8, 5 and 3 bits and any domain that is not negative the
    four can be read back from the address. *)
Theorem pci_address_packs (fs : sysfs) (name : string)
    (domain bus slot fn : Z) :
  C.sscanf_d_x name = None ->
  C.sscanf_ident_d name = None ->
  C.sscanf_pci name = Some (domain, bus, slot, fn) ->
  let high := domain * 2 ^ 16 + bus * 2 ^ 8 + slot * 2 ^ 3 in
  let addr := high + fn in
  read_bus fs name
  = (if (0 <=? domain) && (0 <=? bus) && (0 <=? slot)
        && (high <=? C.INT_MAX)
        && (C.INT_MIN <=? addr) && (addr <=? C.INT_MAX)
     then Some (OnBus SENSORS_CHIP_NAME_BUS_PCI addr)
     else None)
  /\ (0 <= domain < 2 ^ 15 -> 0 <= bus < 2 ^ 8 -> 0 <= slot < 2 ^ 5 ->
      0 <= fn < 2 ^ 3 ->
      read_bus fs name = Some (OnBus SENSORS_CHIP_NAME_BUS_PCI addr))
  /\ (0 <= domain -> 0 <= bus < 2 ^ 8 -> 0 <= slot < 2 ^ 5 ->
      0 <= fn < 2 ^ 3 ->
      addr mod 2 ^ 3 = fn
      /\ (addr / 2 ^ 3) mod 2 ^ 5 = slot
      /\ (addr / 2 ^ 8) mod 2 ^ 8 = bus
      /\ addr / 2 ^ 16 = domain).
Proof.
  intros H1 H2 H3 high addr.
  assert (Hmax : C.INT_MAX = 2147483647) by reflexivity.
  assert (Hmin : C.INT_MIN = -2147483648) by reflexivity.
  assert (Hexact :
    read_bus fs name
    = (if (0 <=? domain) && (0 <=? bus) && (0 <=? slot)
          && (high <=? C.INT_MAX)
          && (C.INT_MIN <=? addr) && (addr <=? C.INT_MAX)
       then Some (OnBus SENSORS_CHIP_NAME_BUS_PCI addr)
       else None)).
  { unfold read_bus. rewrite H1, H2, H3. unfold shl.
    rewrite !Z.shiftl_mul_pow2 by lia. subst addr high.
    change (2 ^ 16) with 65536. change (2 ^ 8) with 256.
    change (2 ^ 3) with 8.
    destruct (Z.leb_spec 0 domain) as [Hd|Hd];
      [destruct (Z.ltb_spec domain 0); [lia|]
      |destruct (Z.ltb_spec domain 0); [reflexivity|lia]].
    destruct (Z_le_gt_dec (domain * 65536) C.INT_MAX) as [Ha|Ha].
    2:{ rewrite (int_out_of_range (domain * 65536)) by lia. simpl.
        destruct (0 <=? bus) eqn:Hb; [|reflexivity].
        destruct (0 <=? slot) eqn:Hs; [|reflexivity].
        apply Z.leb_le in Hb, Hs.
        destruct (Z.leb_spec (domain * 65536 + bus * 256 + slot * 8)
                    C.INT_MAX); [lia|reflexivity]. }
    rewrite (int_in_range (domain * 65536)) by lia. simpl.
    destruct (Z.leb_spec 0 bus) as [Hb|Hb];
      [destruct (Z.ltb_spec bus 0); [lia|]
      |destruct (Z.ltb_spec bus 0); [reflexivity|lia]].
    destruct (Z_le_gt_dec (bus * 256) C.INT_MAX) as [Hb'|Hb'].
    2:{ rewrite (int_out_of_range (bus * 256)) by lia. simpl.
        destruct (0 <=? slot) eqn:Hs; [|reflexivity].
        apply Z.leb_le in Hs.
        destruct (Z.leb_spec (domain * 65536 + bus * 256 + slot * 8)
                    C.INT_MAX); [lia|reflexivity]. }
    rewrite (int_in_range (bus * 256)) by lia. simpl.
    destruct (Z.leb_spec 0 slot) as [Hs|Hs];
      [destruct (Z.ltb_spec slot 0); [lia|]
      |destruct (Z.ltb_spec slot 0); [reflexivity|lia]].
    destruct (Z.leb_spec (domain * 65536 + bus * 256 + slot * 8) C.INT_MAX)
      as [Hhigh|Hhigh].
    - rewrite (int_in_range (slot * 8)) by lia. simpl.
      rewrite (int_in_range (domain * 65536 + bus * 256)) by lia. simpl.
      rewrite (int_in_range (domain * 65536 + bus * 256 + slot * 8)) by lia.
      simpl. unfold C.int.
      destruct (C.INT_MIN <=? domain * 65536 + bus * 256 + slot * 8 + fn),
        (domain * 65536 + bus * 256 + slot * 8 + fn <=? C.INT_MAX);
        reflexivity.
    - simpl.
      destruct (Z_le_gt_dec (slot * 8) C.INT_MAX) as [Hc|Hc].
      2:{ now rewrite (int_out_of_range (slot * 8)) by lia. }
      rewrite (int_in_range (slot * 8)) by lia. simpl.
      destruct (Z_le_gt_dec (domain * 65536 + bus * 256) C.INT_MAX)
        as [Hab|Hab].
      2:{ now rewrite (int_out_of_range (domain * 65536 + bus * 256))
            by lia. }
      rewrite (int_in_range (domain * 65536 + bus * 256)) by lia. simpl.
      now rewrite (int_out_of_range (domain * 65536 + bus * 256 + slot * 8))
        by lia. }
  split; [exact Hexact|]. split.
  - intros Hd Hb Hs Hf. rewrite Hexact. subst addr high.
    change (2 ^ 15) with 32768 in Hd. change (2 ^ 8) with 256 in *.
    change (2 ^ 5) with 32 in *. change (2 ^ 3) with 8 in *.
    change (2 ^ 16) with 65536 in *.
    destruct (Z.leb_spec 0 domain); [|lia].
    destruct (Z.leb_spec 0 bus); [|lia].
    destruct (Z.leb_spec 0 slot); [|lia].
    destruct (Z.leb_spec (domain * 65536 + bus * 256 + slot * 8) C.INT_MAX);
      [|lia].
    destruct (Z.leb_spec C.INT_MIN
                (domain * 65536 + bus * 256 + slot * 8 + fn)); [|lia].
    destruct (Z.leb_spec (domain * 65536 + bus * 256 + slot * 8 + fn)
                C.INT_MAX); [|lia].
    reflexivity.
  - intros Hd Hb Hs Hf. subst addr high.
    change (2 ^ 8) with 256 in *.
    change (2 ^ 5) with 32 in *. change (2 ^ 3) with 8 in *.
    change (2 ^ 16) with 65536 in *.
    set (addr := domain * 65536 + bus * 256 + slot * 8 + fn).
    assert (Hq3 : addr / 8 = domain * 8192 + bus * 32 + slot)
      by (symmetry; apply (Z.div_unique_pos addr 8 _ fn); unfold addr; lia).
    assert (Hq8 : addr / 256 = domain * 256 + bus)
      by (symmetry; apply (Z.div_unique_pos addr 256 _ (slot * 8 + fn));
          unfold addr; lia).
    split; [|split; [|split]].
    + symmetry.
      apply (Z.mod_unique_pos addr 8 (domain * 8192 + bus * 32 + slot));
        unfold addr; lia.
    + rewrite Hq3. symmetry.
      apply (Z.mod_unique_pos _ 32 (domain * 256 + bus)); lia.
    + rewrite Hq8. symmetry. apply (Z.mod_unique_pos _ 256 domain); lia.
    + symmetry.
      apply (Z.div_unique_pos addr 65536 _ (bus * 256 + slot * 8 + fn));
        unfold addr; lia.
Qed.

Lemma find_chip_found (before rest : list sensors_chip_features)
    (e : sensors_chip_features) (prefix q : string) (k : nat) :
  Forall (fun x => exists r, cf_prefix x = Some r
                             /\ C.strcaseeq r prefix = false) before ->
  cf_prefix e = Some q -> C.strcaseeq q prefix = true ->
  find_chip (before ++ e :: rest) prefix k = Some (k + length before)%nat.
Proof.
  intros Hbefore He Hq. revert k.
  induction Hbefore as [|x before (r & Hr & Hne) _ IH]; intros k; simpl.
  - rewrite He, Hq. f_equal. lia.
  - rewrite Hr, Hne, IH. f_equal. lia.
Qed.

Lemma find_chip_free (known free : list sensors_chip_features)
    (prefix : string) (k : nat) :
  unknown_in prefix known free ->
  find_chip (known ++ free) prefix k = Some (k + length known)%nat.
Proof.
  intros (Hknown & Hfree & Hne). revert k.
  induction Hknown as [|x known (r & Hr & Hcmp) _ IH]; intros k; simpl.
  - destruct free as [|e free]; [congruence|]. simpl.
    apply Forall_inv in Hfree. rewrite Hfree. f_equal. lia.
  - rewrite Hr, Hcmp, IH. f_equal. lia.
Qed.

Lemma unknown_in_known (prefix : string)
    (known free : list sensors_chip_features) :
  unknown_in prefix known free ->
  Forall (fun e => cf_prefix e <> None) known.
Proof.
  intros (Hknown & _). eapply Forall_impl; [|exact Hknown].
  intros e (q & Hq & _). congruence.
Qed.

(** A known chip: the call registers it and leaves the table and the
    counter alone. *)
Lemma known_chip_call (fs : sysfs) (st : lib_state) (dev : sysfs_device)
    (attr : sysfs_attribute) (bus addr : Z)
    (before rest : list sensors_chip_features) (e : sensors_chip_features)
    (q : string) :
  sysfs_get_device_attr dev "name" = Some attr ->
  is_subclient attr = false ->
  read_bus fs (dev_name dev) = Some (OnBus bus addr) ->
  sensors_chip_features_list st = before ++ e :: rest ->
  Forall (fun x => exists r, cf_prefix x = Some r
                             /\ C.strcaseeq r (chopped attr) = false) before ->
  cf_prefix e = Some q ->
  C.strcaseeq q (chopped attr) = true ->
  sensors_read_one_sysfs_chip fs st dev
  = Some (0, {| sensors_chip_features_list := sensors_chip_features_list st;
                total_dynamic := total_dynamic st;
                sensors_proc_chips :=
                  sensors_proc_chips st ++ [chip_entry dev attr bus addr] |}).
Proof.
  intros Hname Hsub Hbus Hlist Hbefore He Hq.
  unfold sensors_read_one_sysfs_chip. rewrite Hname, Hsub, Hbus. simpl.
  fold (chopped attr). rewrite Hlist at 1.
  rewrite (find_chip_found before rest e _ q 0 Hbefore He Hq). simpl.
  rewrite Hlist at 1.
  rewrite lookup_app_r, Nat.sub_diag by lia. simpl.
  destruct (bool_decide_reflect (cf_prefix e = None)) as [Hnone|_];
    [congruence|].
  reflexivity.
Qed.

(** X12: a chip whose prefix is in the table of known chips, in whatever
    case of the letters, is registered without any feature set being
    synthesized: the table and the counter of dynamic chips stay as they
    are, with budget or without. *)
Theorem known_chip_not_synthesized (fs : sysfs) (st : lib_state)
    (dev : sysfs_device) (attr : sysfs_attribute) (bus addr : Z)
    (before rest : list sensors_chip_features) (e : sensors_chip_features)
    (q : string) :
  sysfs_get_device_attr dev "name" = Some attr ->
  is_subclient attr = false ->
  read_bus fs (dev_name dev) = Some (OnBus bus addr) ->
  sensors_chip_features_list st = before ++ e :: rest ->
  Forall (fun x => exists r, cf_prefix x = Some r
                             /\ C.strcaseeq r (chopped attr) = false) before ->
  cf_prefix e = Some q ->
  C.strcaseeq q (chopped attr) = true ->
  sensors_read_one_sysfs_chip fs st dev
  = Some (0, {| sensors_chip_features_list := sensors_chip_features_list st;
                total_dynamic := total_dynamic st;
                sensors_proc_chips :=
                  sensors_proc_chips st ++ [chip_entry dev attr bus addr] |}).
Proof. apply known_chip_call. Qed.

(** An unknown chip, with budget: the call puts the synthesized feature set
    in the first free entry, counts it and registers the chip. *)
Lemma unknown_chip_call (fs : sysfs) (st : lib_state) (dev : sysfs_device)
    (attr : sysfs_attribute) (bus addr : Z)
    (known free : list sensors_chip_features)
    (n_entry : sensors_chip_features) :
  sysfs_get_device_attr dev "name" = Some attr ->
  is_subclient attr = false ->
  read_bus fs (dev_name dev) = Some (OnBus bus addr) ->
  sensors_chip_features_list st = known ++ free ->
  unknown_in (chopped attr) known free ->
  total_dynamic st < N_PLACEHOLDER_ELEMENTS ->
  C.INT_MIN <= total_dynamic st < C.INT_MAX ->
  sensors_read_dynamic_chip dev = Some n_entry ->
  sensors_read_one_sysfs_chip fs st dev
  = Some (0, {| sensors_chip_features_list := known ++ n_entry :: tail free;
                total_dynamic := total_dynamic st + 1;
                sensors_proc_chips :=
                  sensors_proc_chips st ++ [chip_entry dev attr bus addr] |}).
Proof.
  intros Hname Hsub Hbus Hlist Hunknown Hbudget Hint Hdyn.
  pose proof (unknown_in_known _ _ _ Hunknown) as Hknown.
  pose proof Hunknown as (_ & Hfree & Hne).
  destruct free as [|e0 free]; [congruence|].
  unfold sensors_read_one_sysfs_chip. rewrite Hname, Hsub, Hbus. simpl.
  fold (chopped attr). rewrite Hlist.
  rewrite (find_chip_free _ _ _ 0 Hunknown). simpl.
  rewrite lookup_app_r, Nat.sub_diag by lia. simpl.
  pose proof (Forall_inv Hfree) as He0. simpl in He0.
  destruct (bool_decide_reflect (cf_prefix e0 = None)) as [_|Hsome];
    [|congruence].
  apply Z.ltb_lt in Hbudget. rewrite Hbudget. simpl. rewrite Hdyn. simpl.
  rewrite (end_of_list_known known (e0 :: free) 0 Hknown Hfree Hne). simpl.
  rewrite int_in_range by lia. simpl.
  now rewrite insert_app_r_alt, Nat.sub_diag by lia.
Qed.

(** X13: a chip whose prefix is not in the table, while there is budget,
    gets the feature set that [sensors_read_dynamic_chip] builds for it:
    the set goes to the first free entry of the table, after the known
    chips, which stay as they are; the counter goes up by one; the chip is
    registered. *)
Theorem unknown_chip_gets_feature_set (fs : sysfs) (st : lib_state)
    (dev : sysfs_device) (attr : sysfs_attribute) (bus addr : Z)
    (known free : list sensors_chip_features)
    (n_entry : sensors_chip_features) :
  sysfs_get_device_attr dev "name" = Some attr ->
  is_subclient attr = false ->
  read_bus fs (dev_name dev) = Some (OnBus bus addr) ->
  sensors_chip_features_list st = known ++ free ->
  unknown_in (chopped attr) known free ->
  total_dynamic st < N_PLACEHOLDER_ELEMENTS ->
  C.INT_MIN <= total_dynamic st < C.INT_MAX ->
  sensors_read_dynamic_chip dev = Some n_entry ->
  sensors_read_one_sysfs_chip fs st dev
  = Some (0, {| sensors_chip_features_list := known ++ n_entry :: tail free;
                total_dynamic := total_dynamic st + 1;
                sensors_proc_chips :=
                  sensors_proc_chips st ++ [chip_entry dev attr bus addr] |}).
Proof. apply unknown_chip_call. Qed.

End OneChipMore.

(** ** The scans of the chips *)

Section ChipScans.
Context `{SensorsHeader} `{ScanHeader}.

(** What a call can do to the globals. *)
Lemma read_one_effects (fs : sysfs) (st st' : lib_state) (dev : sysfs_device)
    (r : Z) :
  sensors_read_one_sysfs_chip fs st dev = Some (r, st') ->
  (r = 0 \/ r = - SENSORS_ERR_PARSE)
  /\ (r <> 0 -> st' = st)
  /\ registry_grown st st' 1
  /\ total_dynamic st <= total_dynamic st' <= total_dynamic st + 1
  /\ (total_dynamic st <= N_PLACEHOLDER_ELEMENTS ->
      total_dynamic st' <= N_PLACEHOLDER_ELEMENTS)
  /\ length (sensors_chip_features_list st')
     = length (sensors_chip_features_list st).
Proof.
  assert (Hsame : forall x,
            (x = 0 \/ x = - SENSORS_ERR_PARSE)
            /\ (x <> 0 -> st = st)
            /\ registry_grown st st 1
            /\ total_dynamic st <= total_dynamic st <= total_dynamic st + 1
            /\ (total_dynamic st <= N_PLACEHOLDER_ELEMENTS ->
                total_dynamic st <= N_PLACEHOLDER_ELEMENTS)
            /\ length (sensors_chip_features_list st)
               = length (sensors_chip_features_list st) ->
            x = 0 \/ x = - SENSORS_ERR_PARSE) by tauto.
  assert (Hkept : registry_grown st st 1)
    by (exists []; rewrite app_nil_r; split; [reflexivity | simpl; lia]).
  unfold sensors_read_one_sysfs_chip.
  destruct (sysfs_get_device_attr dev "name") as [attr|];
    [|intros [= <- <-]; repeat split; auto; lia].
  destruct (is_subclient attr);
    [intros [= <- <-]; repeat split; auto; lia|].
  destruct (read_bus fs (dev_name dev)) as [[|bus addr]|]; simpl;
    [intros [= <- <-]; repeat split; auto; lia | | discriminate].
  destruct (find_chip _ _ 0) as [i|]; [|discriminate]. simpl.
  destruct (sensors_chip_features_list st !! i) as [e|]; [|discriminate]. simpl.
  destruct (bool_decide (cf_prefix e = None)
            && (total_dynamic st <? N_PLACEHOLDER_ELEMENTS)) eqn:Hsynth.
  - apply andb_true_iff in Hsynth as [_ Hbudget]. apply Z.ltb_lt in Hbudget.
    destruct (sensors_read_dynamic_chip dev) as [n_entry|]; [|discriminate].
    simpl. destruct (end_of_list _ 0) as [j|]; [|discriminate]. simpl.
    destruct (C.int _) as [total'|] eqn:Htotal; [|discriminate]. simpl.
    apply int_Some in Htotal. intros [= <- <-]. simpl.
    split; [now left|]. split; [congruence|]. split.
    { eexists. split; [reflexivity | simpl; lia]. }
    rewrite length_insert. repeat split; lia.
  - simpl. intros [= <- <-]. simpl.
    split; [now left|]. split; [congruence|]. split.
    { eexists. split; [reflexivity | simpl; lia]. }
    repeat split; lia.
Qed.

Lemma registry_grown_trans (st1 st2 st3 : lib_state) (n m : nat) :
  registry_grown st1 st2 n -> registry_grown st2 st3 m ->
  registry_grown st1 st3 (n + m).
Proof.
  intros (a1 & H1 & Hn) (a2 & H2 & Hm). exists (a1 ++ a2).
  rewrite H2, H1, <- app_assoc, length_app. split; [reflexivity | lia].
Qed.

Lemma read_chip_devices_effects (fs : sysfs) (devs : list sysfs_device)
    (st st' : lib_state) (r : Z) :
  read_chip_devices fs st devs = Some (r, st') ->
  (r = 0 \/ r = - SENSORS_ERR_PARSE)
  /\ registry_grown st st' (length devs)
  /\ total_dynamic st <= total_dynamic st'
     <= total_dynamic st + Z.of_nat (length devs)
  /\ (total_dynamic st <= N_PLACEHOLDER_ELEMENTS ->
      total_dynamic st' <= N_PLACEHOLDER_ELEMENTS)
  /\ length (sensors_chip_features_list st')
     = length (sensors_chip_features_list st).
Proof.
  revert st. induction devs as [|dev rest IH]; intros st; simpl.
  - intros [= <- <-]. split; [now left|]. split.
    + exists []. rewrite app_nil_r. split; [reflexivity | simpl; lia].
    + repeat split; lia.
  - destruct (sensors_read_one_sysfs_chip fs st dev) as [[r1 st1]|] eqn:Hone;
      [|discriminate]. simpl.
    destruct (read_one_effects _ _ _ _ _ Hone)
      as (Hr1 & _ & Hreg1 & Htot1 & Hcap1 & Hlen1).
    destruct (Z.eqb_spec r1 0) as [-> | Hne].
    + intros Hrest.
      destruct (IH _ Hrest) as (Hr & Hreg & Htot & Hcap & Hlen).
      split; [exact Hr|]. split.
      { exact (registry_grown_trans _ _ _ 1 _ Hreg1 Hreg). }
      repeat split; try lia; congruence.
    + intros [= <- <-]. split; [exact Hr1|]. split.
      { destruct Hreg1 as (a & Ha & Hn). exists a. split; [exact Ha | lia]. }
      repeat split; try lia; exact Hlen1.
Qed.

(** X14: a scan of devices returns 0 or the parse error and nothing else,
    and it only ever appends to the chip registry, at most one entry for a
    device: what was registered stays registered, also when the scan ends in
    an error. *)
Theorem scan_appends_to_registry (fs : sysfs) (devs : list sysfs_device)
    (st st' : lib_state) (r : Z) :
  read_chip_devices fs st devs = Some (r, st') ->
  (r = 0 \/ r = - SENSORS_ERR_PARSE)
  /\ exists added,
       sensors_proc_chips st' = sensors_proc_chips st ++ added
       /\ (length added <= length devs)%nat.
Proof.
  intros Hscan.
  destruct (read_chip_devices_effects _ _ _ _ _ Hscan) as (Hr & Hreg & _).
  split; [exact Hr | exact Hreg].
Qed.

(** X15: over a scan the counter of dynamic chips never goes down, goes up
    by at most one for a device and, once within the budget, stays within
    it; the table of known chips keeps its size. *)
Theorem scan_keeps_budget (fs : sysfs) (devs : list sysfs_device)
    (st st' : lib_state) (r : Z) :
  read_chip_devices fs st devs = Some (r, st') ->
  total_dynamic st <= total_dynamic st'
  <= total_dynamic st + Z.of_nat (length devs)
  /\ (total_dynamic st <= N_PLACEHOLDER_ELEMENTS ->
      total_dynamic st' <= N_PLACEHOLDER_ELEMENTS)
  /\ length (sensors_chip_features_list st')
     = length (sensors_chip_features_list st).
Proof.
  intros Hscan.
  destruct (read_chip_devices_effects _ _ _ _ _ Hscan)
    as (_ & _ & Htot & Hcap & Hlen).
  auto.
Qed.

Lemma read_chip_devices_app (fs : sysfs) (l1 l2 : list sysfs_device)
    (st : lib_state) :
  read_chip_devices fs st (l1 ++ l2)
  = '(r, st1) ← read_chip_devices fs st l1;
    if r =? 0 then read_chip_devices fs st1 l2 else Some (r, st1).
Proof.
  revert st. induction l1 as [|dev rest IH]; intros st; simpl.
  - reflexivity.
  - destruct (sensors_read_one_sysfs_chip fs st dev) as [[r1 st1]|];
      [|reflexivity]. simpl.
    destruct (Z.eqb_spec r1 0) as [-> | Hne]; [apply IH|].
    simpl. apply Z.eqb_neq in Hne. now rewrite Hne.
Qed.

(** X16: a scan stops at the first device for which the call does not
    return 0: it returns that value with the globals as the devices before
    left them, and the devices after it are not looked at. *)
Theorem scan_stops_at_first_error (fs : sysfs)
    (before after : list sysfs_device) (dev : sysfs_device)
    (st st1 st2 : lib_state) (r : Z) :
  read_chip_devices fs st before = Some (0, st1) ->
  sensors_read_one_sysfs_chip fs st1 dev = Some (r, st2) ->
  r <> 0 ->
  read_chip_devices fs st (before ++ dev :: after) = Some (r, st1)
  /\ st2 = st1
  /\ r = - SENSORS_ERR_PARSE.
Proof.
  intros Hbefore Hone Hr.
  destruct (read_one_effects _ _ _ _ _ Hone) as (Hret & Hsame & _).
  specialize (Hsame Hr). subst st2.
  split; [|split; [reflexivity | tauto]].
  rewrite read_chip_devices_app, Hbefore. simpl. rewrite Hone. simpl.
  apply Z.eqb_neq in Hr. now rewrite Hr.
Qed.

Lemma strcaseeq_false_trans (q p1 p2 : string) :
  C.strcaseeq q p1 = false -> C.strcaseeq p1 p2 = true ->
  C.strcaseeq q p2 = false.
Proof.
  unfold C.strcaseeq. intros Hq Hp. apply String.eqb_eq in Hp.
  now rewrite <- Hp.
Qed.

Lemma sysfs_get_device_attr_first (dev : sysfs_device)
    (before after : list sysfs_attribute) (attr : sysfs_attribute) :
  dev_attrs dev = Some (before ++ attr :: after) ->
  Forall (fun a => is_name a = false) before ->
  is_name attr = true ->
  sysfs_get_device_attr dev "name" = Some attr.
Proof.
  intros Hattrs Hbefore Hname. unfold sysfs_get_device_attr.
  rewrite Hattrs. simpl. clear Hattrs.
  induction Hbefore as [|a before Ha _ IH]; simpl.
  - unfold is_name, C.streq in Hname. now rewrite Hname.
  - unfold is_name, C.streq in Ha. now rewrite Ha.
Qed.

Lemma dynamic_chip_prefix (dev : sysfs_device)
    (before after : list sysfs_attribute) (attr : sysfs_attribute)
    (n_entry : sensors_chip_features) :
  dev_attrs dev = Some (before ++ attr :: after) ->
  is_name attr = true ->
  Forall (fun a => is_name a = false) after ->
  sensors_read_dynamic_chip dev = Some n_entry ->
  cf_prefix n_entry = Some (chopped attr).
Proof.
  intros Hattrs Hname Hafter Hret.
  destruct (read_attrs scan_start (before ++ attr :: after)) as [st|] eqn:Hloop;
    cycle 1.
  { unfold sensors_read_dynamic_chip, sysfs_get_device_attributes in Hret.
    rewrite Hattrs, Hloop in Hret. discriminate. }
  destruct (sensors_read_dynamic_chip_stored _ _ _ Hattrs Hloop) as [Hres _].
  rewrite Hres in Hret. injection Hret as <-. simpl.
  rewrite read_attrs_app in Hloop.
  destruct (read_attrs scan_start before) as [st1|]; [|discriminate].
  simpl in Hloop.
  destruct (read_attr st1 attr) as [st2|] eqn:Hone; [|discriminate].
  simpl in Hloop.
  rewrite (read_attrs_prefix_kept _ _ _ Hloop Hafter),
    (read_attr_prefix _ _ _ Hone), Hname. reflexivity.
Qed.

(** X17: of two chips of one model that the table does not know, the first
    has its feature set synthesized and stored under its prefix, and the
    second is found in the table: the set is built once, one unit of budget
    is used, and both chips are registered. *)
Theorem same_model_synthesized_once (fs : sysfs) (st : lib_state)
    (dev1 dev2 : sysfs_device) (attr1 attr2 : sysfs_attribute)
    (before after : list sysfs_attribute)
    (bus1 addr1 bus2 addr2 : Z)
    (known free : list sensors_chip_features)
    (n_entry : sensors_chip_features) :
  dev_attrs dev1 = Some (before ++ attr1 :: after) ->
  Forall (fun a => is_name a = false) before ->
  is_name attr1 = true ->
  Forall (fun a => is_name a = false) after ->
  is_subclient attr1 = false ->
  read_bus fs (dev_name dev1) = Some (OnBus bus1 addr1) ->
  sysfs_get_device_attr dev2 "name" = Some attr2 ->
  is_subclient attr2 = false ->
  C.strcaseeq (chopped attr1) (chopped attr2) = true ->
  read_bus fs (dev_name dev2) = Some (OnBus bus2 addr2) ->
  sensors_chip_features_list st = known ++ free ->
  unknown_in (chopped attr1) known free ->
  total_dynamic st < N_PLACEHOLDER_ELEMENTS ->
  C.INT_MIN <= total_dynamic st < C.INT_MAX ->
  sensors_read_dynamic_chip dev1 = Some n_entry ->
  read_chip_devices fs st [dev1; dev2]
  = Some (0, {| sensors_chip_features_list := known ++ n_entry :: tail free;
                total_dynamic := total_dynamic st + 1;
                sensors_proc_chips :=
                  sensors_proc_chips st
                  ++ [chip_entry dev1 attr1 bus1 addr1;
                      chip_entry dev2 attr2 bus2 addr2] |}).
Proof.
  intros Hattrs Hbefore Hname1 Hafter Hsub1 Hbus1 Hname2 Hsub2 Hsame Hbus2
    Hlist Hunknown Hbudget Hint Hdyn.
  pose proof (sysfs_get_device_attr_first _ _ _ _ Hattrs Hbefore Hname1)
    as Hget1.
  pose proof (dynamic_chip_prefix _ _ _ _ _ Hattrs Hname1 Hafter Hdyn)
    as Hprefix.
  simpl.
  rewrite (unknown_chip_call fs st dev1 attr1 bus1 addr1 known free n_entry)
    by assumption.
  simpl.
  erewrite (known_chip_call fs _ dev2 attr2 bus2 addr2 known (tail free)
              n_entry (chopped attr1)); try eassumption; try reflexivity.
  - simpl. now rewrite <- app_assoc.
  - destruct Hunknown as (Hknown & _).
    eapply Forall_impl; [|exact Hknown].
    intros e (q & Hq & Hne). exists q. split; [exact Hq|].
    exact (strcaseeq_false_trans _ _ _ Hne Hsame).
Qed.

End ChipScans.

(** ** The three entry points *)

Section EntryPoints.
Context `{SensorsHeader} `{ScanHeader}.

Lemma read_class_devices_effects (fs : sysfs)
    (clsdevs : list sysfs_class_device) (st st' : lib_state) (r : Z) :
  read_class_devices fs st clsdevs = Some (r, st') ->
  (r = 0 \/ r = - SENSORS_ERR_PARSE \/ r = - SENSORS_ERR_PROC)
  /\ registry_grown st st' (length clsdevs)
  /\ (total_dynamic st <= N_PLACEHOLDER_ELEMENTS ->
      total_dynamic st' <= N_PLACEHOLDER_ELEMENTS)
  /\ length (sensors_chip_features_list st')
     = length (sensors_chip_features_list st).
Proof.
  assert (Hkept : forall s n, registry_grown s s n)
    by (intros s n; exists []; rewrite app_nil_r; split;
        [reflexivity | simpl; lia]).
  revert st. induction clsdevs as [|clsdev rest IH]; intros st; simpl.
  - intros [= <- <-]. auto.
  - destruct (sysfs_get_classdev_device clsdev) as [dev|];
      [|intros [= <- <-]; auto 10].
    destruct (sensors_read_one_sysfs_chip fs st dev) as [[r1 st1]|] eqn:Hone;
      [|discriminate]. simpl.
    destruct (read_one_effects _ _ _ _ _ Hone)
      as (Hr1 & _ & Hreg1 & _ & Hcap1 & Hlen1).
    destruct (Z.eqb_spec r1 0) as [-> | Hne].
    + intros Hrest.
      destruct (IH _ Hrest) as (Hr & Hreg & Hcap & Hlen).
      split; [exact Hr|]. split.
      { exact (registry_grown_trans _ _ _ 1 _ Hreg1 Hreg). }
      split; [auto | congruence].
    + intros [= <- <-]. split; [tauto|]. split.
      { destruct Hreg1 as (a & Ha & Hn). exists a. split; [exact Ha | lia]. }
      auto.
Qed.

(** X18: [sensors_read_sysfs_chips] returns 0, the parse error or the proc
    error and nothing else; whatever it returns, it has only appended to the
    chip registry, the counter of dynamic chips is within the budget if it
    was, and the table of known chips has kept its size. *)
Theorem chips_scan_effects (fs : sysfs) (dirs : sysfs_dirs)
    (st st' : lib_state) (r : Z) :
  sensors_read_sysfs_chips fs dirs st = Some (r, st') ->
  (r = 0 \/ r = - SENSORS_ERR_PARSE \/ r = - SENSORS_ERR_PROC)
  /\ (exists added, sensors_proc_chips st' = sensors_proc_chips st ++ added)
  /\ (total_dynamic st <= N_PLACEHOLDER_ELEMENTS ->
      total_dynamic st' <= N_PLACEHOLDER_ELEMENTS)
  /\ length (sensors_chip_features_list st')
     = length (sensors_chip_features_list st).
Proof.
  assert (Herrno : forall e, ret_of_errno e = 0
                             \/ ret_of_errno e = - SENSORS_ERR_PARSE
                             \/ ret_of_errno e = - SENSORS_ERR_PROC)
    by (intros e; unfold ret_of_errno; destruct (_ && _); auto).
  assert (Hsame : forall e, Some (ret_of_errno e, st) = Some (r, st') ->
            (r = 0 \/ r = - SENSORS_ERR_PARSE \/ r = - SENSORS_ERR_PROC)
            /\ (exists added,
                  sensors_proc_chips st' = sensors_proc_chips st ++ added)
            /\ (total_dynamic st <= N_PLACEHOLDER_ELEMENTS ->
                total_dynamic st' <= N_PLACEHOLDER_ELEMENTS)
            /\ length (sensors_chip_features_list st')
               = length (sensors_chip_features_list st)).
  { intros e [= <- <-]. split; [apply Herrno|]. split; [|auto].
    exists []. now rewrite app_nil_r. }
  unfold sensors_read_sysfs_chips, sensors_read_sysfs_chips_compat.
  destruct (sysfs_open_class dirs "hwmon") as [e1|cls].
  - destruct (sysfs_open_bus dirs "i2c") as [e2|bus]; [apply Hsame|].
    destruct (sysfs_get_bus_devices bus) as [e3|devs]; [apply Hsame|].
    intros Hscan.
    destruct (read_chip_devices_effects _ _ _ _ _ Hscan)
      as (Hr & (added & Hreg & _) & _ & Hcap & Hlen).
    split; [tauto|]. split; [eauto | auto].
  - destruct (sysfs_get_class_devices cls) as [e2|clsdevs]; [apply Hsame|].
    intros Hscan.
    destruct (read_class_devices_effects _ _ _ _ _ Hscan)
      as (Hr & (added & Hreg & _) & Hcap & Hlen).
    split; [exact Hr|]. split; [eauto | auto].
Qed.

(** X19: a system without hwmon class is scanned through the i2c bus,
    whatever [errno] the failure to open the class leaves; a bus or a list
    of devices that is missing with [errno] 0 or ENOENT is no error, the scan
    returns 0 and changes nothing; with another [errno] it returns the proc
    error and changes nothing. *)
Theorem chips_scan_without_hwmon (fs : sysfs) (dirs : sysfs_dirs)
    (st : lib_state) (e1 : Z) :
  sysfs_open_class dirs "hwmon" = Fails e1 ->
  sensors_read_sysfs_chips fs dirs st
  = sensors_read_sysfs_chips_compat fs dirs st
  /\ (forall e2,
        sysfs_open_bus dirs "i2c" = Fails e2
        \/ (exists bus, sysfs_open_bus dirs "i2c" = Gives bus
                        /\ sysfs_get_bus_devices bus = Fails e2) ->
        (e2 = 0 \/ e2 = ENOENT ->
         sensors_read_sysfs_chips fs dirs st = Some (0, st))
        /\ (e2 <> 0 -> e2 <> ENOENT ->
            sensors_read_sysfs_chips fs dirs st
            = Some (- SENSORS_ERR_PROC, st))).
Proof.
  intros Hhwmon.
  assert (Hcompat : sensors_read_sysfs_chips fs dirs st
                    = sensors_read_sysfs_chips_compat fs dirs st)
    by (unfold sensors_read_sysfs_chips; now rewrite Hhwmon).
  split; [exact Hcompat|]. intros e2 Hfail. rewrite Hcompat.
  assert (Hret : sensors_read_sysfs_chips_compat fs dirs st
                 = Some (ret_of_errno e2, st)).
  { unfold sensors_read_sysfs_chips_compat.
    destruct Hfail as [-> | (bus & -> & ->)]; reflexivity. }
  rewrite Hret. unfold ret_of_errno. split.
  - intros [-> | ->]; [reflexivity|].
    rewrite Z.eqb_refl. simpl. now rewrite andb_false_r.
  - intros Hzero Hent. apply Z.eqb_neq in Hzero, Hent.
    now rewrite Hzero, Hent.
Qed.

Lemma read_adapters_omap (clsdevs : list sysfs_class_device)
    (buses : list sensors_bus) :
  read_adapters buses clsdevs
  = buses ++ omap (fun clsdev => adapter_entry clsdev
                                   <$> adapter_name_attr clsdev) clsdevs.
Proof.
  revert buses. induction clsdevs as [|clsdev rest IH]; intros buses; simpl.
  - now rewrite app_nil_r.
  - destruct (adapter_name_attr clsdev) as [attr|]; simpl; [|apply IH].
    rewrite IH, <- app_assoc. reflexivity.
Qed.

(** X20: [sensors_read_sysfs_bus] returns 0 once the class of the adapters
    is open and listed, whatever the adapters are; it appends to the bus
    registry, in the order of the adapters, one entry for each adapter that
    has a "name" attribute, its own or that of its device, and none for the
    others. When the class or its list is missing it changes nothing, and
    returns the proc error, or 0 if [errno] is 0 or ENOENT. *)
Theorem bus_scan_entries (dirs : sysfs_dirs) (buses : list sensors_bus) :
  (forall cls clsdevs,
     sysfs_open_class dirs "i2c-adapter" = Gives cls ->
     sysfs_get_class_devices cls = Gives clsdevs ->
     sensors_read_sysfs_bus dirs buses
     = (0, buses ++ omap (fun clsdev => adapter_entry clsdev
                                          <$> adapter_name_attr clsdev)
                      clsdevs))
  /\ (forall e,
        sysfs_open_class dirs "i2c-adapter" = Fails e
        \/ (exists cls, sysfs_open_class dirs "i2c-adapter" = Gives cls
                        /\ sysfs_get_class_devices cls = Fails e) ->
        sensors_read_sysfs_bus dirs buses
        = (if bool_decide (e = 0 \/ e = ENOENT) then 0
           else - SENSORS_ERR_PROC, buses)).
Proof.
  split.
  - intros cls clsdevs Hopen Hlist. unfold sensors_read_sysfs_bus.
    now rewrite Hopen, Hlist, read_adapters_omap.
  - intros e Hfail.
    assert (Hret : sensors_read_sysfs_bus dirs buses = (ret_of_errno e, buses)).
    { unfold sensors_read_sysfs_bus.
      destruct Hfail as [-> | (cls & -> & ->)]; reflexivity. }
    rewrite Hret. f_equal. unfold ret_of_errno.
    case_bool_decide as Hcase.
    + destruct Hcase as [-> | ->]; [reflexivity|].
      rewrite Z.eqb_refl. simpl. now rewrite andb_false_r.
    + destruct (Z.eqb_spec e 0) as [-> | Hzero]; [tauto|].
      destruct (Z.eqb_spec e ENOENT) as [-> | Hent]; [tauto | reflexivity].
Qed.

Lemma digit_char (d : Z) :
  0 <= d < 10 ->
  C.digit_value 10 (ascii_of_N (Z.to_N (48 + d))) = Some d.
Proof.
  intros Hd.
  assert (Hcases : d = 0 \/ d = 1 \/ d = 2 \/ d = 3 \/ d = 4 \/ d = 5
                   \/ d = 6 \/ d = 7 \/ d = 8 \/ d = 9) by lia.
  repeat (destruct Hcases as [-> | Hcases]; [reflexivity|]).
  subst. reflexivity.
Qed.

Lemma scan_digit_char (d acc : Z) (rest : string) :
  0 <= d < 10 ->
  C.scan_digits 10 acc (String (ascii_of_N (Z.to_N (48 + d))) rest)
  = C.scan_digits 10 (acc * 10 + d) rest.
Proof. intros Hd. simpl. now rewrite (digit_char d Hd). Qed.

(** Reading the digits that [print_digits] writes gives the number back. *)
Lemma scan_print_digits (fuel : nat) (n : Z) :
  0 <= n < 10 ^ Z.of_nat fuel ->
  exists k, 0 <= k /\ forall acc rest,
    C.scan_digits 10 acc (C.print_digits fuel n rest)
    = C.scan_digits 10 (acc * 10 ^ k + n) rest.
Proof.
  revert n. induction fuel as [|fuel IH]; intros n Hn.
  - exists 0. split; [lia|]. intros acc rest. simpl in *.
    f_equal. lia.
  - rewrite Nat2Z.inj_succ, Z.pow_succ_r in Hn by lia.
    pose proof (Z.mod_pos_bound n 10 ltac:(lia)) as Hmod.
    pose proof (Z.div_mod n 10 ltac:(lia)) as Hdiv.
    simpl C.print_digits. destruct (Z.ltb_spec n 10) as [Hsmall | Hbig].
    + exists 1. split; [lia|]. intros acc rest.
      rewrite scan_digit_char by lia. f_equal.
      rewrite Z.mod_small by lia. lia.
    + destruct (IH (n / 10)) as (k & Hk & Hscan).
      { split; [apply Z.div_pos; lia|]. apply Z.div_lt_upper_bound; lia. }
      exists (k + 1). split; [lia|]. intros acc rest.
      rewrite Hscan, scan_digit_char by lia. f_equal.
      rewrite Z.pow_add_r by lia. change (10 ^ 1) with 10. lia.
Qed.

Lemma print_digits_head (fuel : nat) (n : Z) (rest : string) :
  exists d s, 0 <= d < 10
    /\ C.print_digits (S fuel) n rest
       = String (ascii_of_N (Z.to_N (48 + d))) s.
Proof.
  revert n rest. induction fuel as [|fuel IH]; intros n rest.
  - exists (n mod 10), rest. split; [apply Z.mod_pos_bound; lia|].
    simpl. now destruct (n <? 10).
  - change (C.print_digits (S (S fuel)) n rest)
      with (if n <? 10
            then String (ascii_of_N (Z.to_N (48 + n mod 10))) rest
            else C.print_digits (S fuel) (n / 10)
                   (String (ascii_of_N (Z.to_N (48 + n mod 10))) rest)).
    destruct (n <? 10); [|apply IH].
    exists (n mod 10), rest. split; [apply Z.mod_pos_bound; lia | reflexivity].
Qed.

Lemma scan_number_digits (d : Z) (s : string) :
  0 <= d < 10 ->
  C.scan_number 10 (String (ascii_of_N (Z.to_N (48 + d))) s)
  = Some (C.scan_digits 10 0 (String (ascii_of_N (Z.to_N (48 + d))) s)).
Proof.
  intros Hd.
  assert (Hcases : d = 0 \/ d = 1 \/ d = 2 \/ d = 3 \/ d = 4 \/ d = 5
                   \/ d = 6 \/ d = 7 \/ d = 8 \/ d = 9) by lia.
  assert (Hpair : forall p : Z * string,
            (let '(v, rest) := p in Some (v, rest)) = Some p)
    by (intros [v rest]; reflexivity).
  assert (Hchar : forall c : ascii,
            C.isspace c = false -> C.scan_sign (String c s) = (false, String c s) ->
            C.digit_value 10 c <> None ->
            C.scan_number 10 (String c s)
            = Some (C.scan_digits 10 0 (String c s))).
  { intros c Hspace Hsign Hdigit. unfold C.scan_number.
    simpl C.skip_space. rewrite Hspace, Hsign.
    assert (Hprefix : C.hex_prefix 10 (String c s) = None).
    { unfold C.hex_prefix.
      destruct c as [[] [] [] [] [] [] [] []]; try reflexivity.
      now destruct s. }
    rewrite Hprefix. unfold C.starts_with_digit.
    rewrite bool_decide_eq_true_2
      by (destruct (C.digit_value 10 c); [eauto | congruence]).
    apply Hpair. }
  repeat (destruct Hcases as [-> | Hcases];
          [apply Hchar; [reflexivity | reflexivity | discriminate]|]).
  subst. apply Hchar; [reflexivity | reflexivity | discriminate].
Qed.

Lemma scan_int_print_int (n : Z) :
  0 <= n <= C.INT_MAX ->
  C.scan_int 10 (C.print_int n) = Some (n, "").
Proof.
  intros Hn. assert (Hmax : C.INT_MAX = 2147483647) by reflexivity.
  unfold C.print_int. destruct (Z.ltb_spec n 0); [lia|].
  destruct (print_digits_head 19 n "") as (d & s & Hd & Hhead).
  destruct (scan_print_digits 20 n) as (k & Hk & Hscan).
  { change (10 ^ Z.of_nat 20) with 100000000000000000000. lia. }
  unfold C.scan_int. rewrite Hhead, (scan_number_digits d s Hd), <- Hhead.
  rewrite Hscan. simpl C.scan_digits. f_equal. f_equal.
  change (10 =? 16) with false. cbv iota.
  unfold C.clamp_long, C.int_of_long, C.LONG_MIN, C.LONG_MAX.
  rewrite Z.min_r, Z.max_r by lia.
  change (2 ^ 31) with 2147483648. change (2 ^ 32) with 4294967296.
  rewrite Z.mod_small by lia. lia.
Qed.

Lemma take_chars_all (n : nat) (s : string) :
  (String.length s <= n)%nat -> C.take_chars n s = s.
Proof.
  revert n. induction s as [|c s IH]; intros [|n] Hlen; simpl in *;
    try reflexivity; try lia.
  rewrite IH by lia. reflexivity.
Qed.

(** X21: the number that [snprintf] writes after "i2c-" is the number that
    [sscanf] reads from it, for every bus number that is not negative. So
    the adapter whose "name" the chip scan opens for a chip on bus [n] is
    the one in the directory i2c-[n], and the bus scan gives the adapter of
    that directory the number [n], unless its name starts with "ISA ", which
    makes it the ISA bus. *)
Theorem adapter_number_round_trip (n : Z) :
  0 <= n <= C.INT_MAX ->
  C.sscanf_i2c_d ("i2c-" +:+ C.print_int n) = Some n
  /\ (forall fs,
        C.strlen (sensors_sysfs_mount fs) + 56 <= SYSFS_PATH_MAX ->
        bus_path fs n
        = sensors_sysfs_mount fs +:+ "/class/i2c-adapter/"
          +:+ ("i2c-" +:+ C.print_int n) +:+ "/device/name")
  /\ (forall clsdev attr,
        clsdev_name clsdev = "i2c-" +:+ C.print_int n ->
        bus_number (adapter_entry clsdev attr)
        = if C.has_prefix "ISA " (chopped attr)
          then SENSORS_CHIP_NAME_BUS_ISA else n).
Proof.
  intros Hn.
  assert (Hscan : C.sscanf_i2c_d ("i2c-" +:+ C.print_int n) = Some n).
  { unfold C.sscanf_i2c_d.
    change ("i2c-" +:+ C.print_int n)
      with (String "i" (String "2" (String "c" (String "-" (C.print_int n))))).
    cbn -[C.scan_int C.print_int]. now rewrite (scan_int_print_int n Hn). }
  split; [exact Hscan|]. split.
  - intros fs Hlen. unfold bus_path. apply take_chars_all.
    change (String.length
              (sensors_sysfs_mount fs
               +:+ "/class/i2c-adapter/i2c-" +:+ C.print_int n
               +:+ "/device/name")
            <= Z.to_nat (SYSFS_PATH_MAX - 1))%nat.
    assert (Hprint : C.strlen (C.print_int n) <= 20).
    { unfold C.print_int. destruct (Z.ltb_spec n 0); [lia|].
      assert (Hlen_digits : forall fuel m rest,
                C.strlen (C.print_digits fuel m rest)
                <= Z.of_nat fuel + C.strlen rest).
      { induction fuel as [|fuel IH]; intros m rest; simpl; [lia|].
        destruct (m <? 10).
        - unfold C.strlen. simpl. lia.
        - specialize (IH (m / 10)
                        (String (ascii_of_N (Z.to_N (48 + m mod 10))) rest)).
          unfold C.strlen in *. simpl in *. lia. }
      specialize (Hlen_digits 20%nat n ""). unfold C.strlen in *.
      simpl in *. lia. }
    pose proof (strlen_app (sensors_sysfs_mount fs)
                  ("/class/i2c-adapter/i2c-" +:+ C.print_int n
                   +:+ "/device/name")) as H1.
    pose proof (strlen_app "/class/i2c-adapter/i2c-"
                  (C.print_int n +:+ "/device/name")) as H2.
    pose proof (strlen_app (C.print_int n) "/device/name") as H3.
    change (C.strlen "/class/i2c-adapter/i2c-") with 23 in H2.
    change (C.strlen "/device/name") with 12 in H3.
    unfold C.strlen in *. lia.
  - intros clsdev attr Hname. unfold adapter_entry. simpl.
    fold (chopped attr). now rewrite Hname, Hscan.
Qed.

End EntryPoints.

(** ** The further properties, evaluated *)

Ltac eval_bits :=
  repeat match goal with
    | |- context [Z.land ?a ?b] =>
        let v := eval vm_compute in (Z.land a b) in
        change (Z.land a b) with v
    | |- context [Z.shiftr ?a ?b] =>
        let v := eval vm_compute in (Z.shiftr a b) in
        change (Z.shiftr a b) with v
    end.

Section MoreExamples.
#[local] Existing Instance Sample.header.
#[local] Existing Instance SampleScan.header.

Lemma prefix_is_last_name_witness :
  cf_prefix <$> sensors_read_dynamic_chip (Sample.chip ["in0_input"])
  = Some (Some "w83781d").
Proof.
  destruct (sensors_read_dynamic_chip (Sample.chip ["in0_input"]))
    as [ret|] eqn:Hret; [|vm_compute in Hret; discriminate].
  destruct (prefix_is_last_name (Sample.chip ["in0_input"]) _ ret eq_refl Hret)
    as [_ Hlast].
  destruct (Hlast [] (SampleScan.name_attr "w83781d")
              [Sample.attr "in0_input"] eq_refl eq_refl)
    as [_ Hvalue].
  { repeat constructor. }
  simpl. f_equal. apply Hvalue. reflexivity.
Defined.

Lemma unknown_attribute_ignored_witness :
  sensors_read_dynamic_chip
    (with_attrs (Sample.chip [])
       ([Sample.attr "in0_input"] ++ Sample.attr "uevent"
        :: [Sample.attr "in1_input"]))
  = sensors_read_dynamic_chip
      (with_attrs (Sample.chip [])
         ([Sample.attr "in0_input"] ++ [Sample.attr "in1_input"])).
Proof.
  assert (Hunknown : sensors_feature_get_type
                       (feature_name (attr_name (Sample.attr "uevent")))
                     = SENSORS_FEATURE_UNKNOWN) by (vm_compute; reflexivity).
  destruct (unknown_attribute_ignored (Sample.chip [])
              [Sample.attr "in0_input"] [Sample.attr "in1_input"]
              (Sample.attr "uevent") eq_refl Hunknown) as (_ & _ & Hsame).
  exact Hsame.
Defined.

Lemma feature_count_bounds_witness :
  exists arr,
    cf_feature <$> sensors_read_dynamic_chip
                     (Sample.chip ["in0_input"; "in0"; "uevent"])
    = Some (Some arr)
    /\ (1 <= length arr <= 4)%nat.
Proof.
  destruct (sensors_read_dynamic_chip
              (Sample.chip ["in0_input"; "in0"; "uevent"]))
    as [[prefix [arr|]]|] eqn:Hret;
    try (vm_compute in Hret; discriminate).
  exists arr. split; [reflexivity|].
  destruct (feature_count_bounds
              (Sample.chip ["in0_input"; "in0"; "uevent"]) _ _ arr
              eq_refl Hret eq_refl) as (Hlow & Hhigh & _).
  simpl in Hhigh. lia.
Defined.

Lemma feature_numbers_ascend_witness :
  StronglySorted Z.lt
    (List.map number_of
       [new_feature (Sample.attr "in0_input") 0x000 0;
        new_feature (Sample.attr "temp1_input") 0x200 704]).
Proof.
  assert (Hret : sensors_read_dynamic_chip
                   (Sample.chip ["temp1_input"; "in0_input"])
                 = Some {| cf_prefix := Some "w83781d";
                           cf_feature :=
                             Some ([new_feature (Sample.attr "in0_input") 0x000 0;
                                    new_feature (Sample.attr "temp1_input")
                                      0x200 704] ++ [zero_feature]) |})
    by (vm_compute; reflexivity).
  destruct (feature_numbers_ascend _ _ _ Hret eq_refl) as [Hsorted _].
  exact Hsorted.
Defined.

Lemma features_in_range_fit_witness :
  exists st,
    read_attrs scan_start
      [SampleScan.name_attr "w83781d"; Sample.attr "fan1_min"; Sample.attr "vrm"]
    = Some st.
Proof.
  assert (Hsize : SPARSE_SIZE <= C.INT_MAX) by (vm_compute; discriminate).
  destruct (features_in_range_fit (Sample.chip ["fan1_min"; "vrm"]) _
              Hsize eq_refl) as (st & Hloop & _).
  - repeat constructor.
    + exists (IsName "w83781d"). split; [reflexivity | discriminate].
    + exists (Slot 0x101 0 353). split; [reflexivity|].
      intros ? ? ? [= <- <- <-]. unfold type_in_range, MAX_SENSORS_PER_TYPE.
      change SENSORS_FEATURE_MAX_SUB_FEATURES with 22. eval_bits. lia.
    + exists (Slot 0x301 0 1057). split; [reflexivity|].
      intros ? ? ? [= <- <- <-]. unfold type_in_range, MAX_SENSORS_PER_TYPE.
      change SENSORS_FEATURE_MAX_SUB_FEATURES with 22. eval_bits. lia.
  - exists st. exact Hloop.
Defined.

Lemma slot_order_is_key_order_witness : 43 < 352.
Proof.
  assert (H1 : type_in_range 0x015 1)
    by (unfold type_in_range, MAX_SENSORS_PER_TYPE;
        change SENSORS_FEATURE_MAX_SUB_FEATURES with 22; eval_bits; lia).
  assert (H2 : type_in_range 0x100 0)
    by (unfold type_in_range, MAX_SENSORS_PER_TYPE;
        change SENSORS_FEATURE_MAX_SUB_FEATURES with 22; eval_bits; lia).
  destruct (slot_order_is_key_order 0x015 1 0x100 0 43 352 H1 H2
              eq_refl eq_refl) as [Horder _].
  apply Horder. left. eval_bits. lia.
Defined.

Lemma mapping_is_number_of_primary_witness :
  data_mapping (feat_data (new_feature (Sample.attr "temp2_max") 0x202 728))
  = number_of (new_feature (Sample.attr "temp2_input") 0x200 726).
Proof.
  assert (Hsub : decode_attr (Sample.attr "temp2_max")
                 = Some (Slot 0x202 1 728)) by reflexivity.
  assert (Hprimary : decode_attr (Sample.attr "temp2_input")
                     = Some (Slot 0x200 1 726)) by reflexivity.
  assert (Hi : 0 <= 1) by lia.
  assert (Hcat : 0 <= Z.shiftr 0x202 8) by (eval_bits; lia).
  assert (Hsame : Z.shiftr 0x200 8 = Z.shiftr 0x202 8) by reflexivity.
  assert (Hzero : Z.land 0x200 0xFF = 0) by reflexivity.
  assert (Hrange : 0 < Z.land 0x202 0xFF < SENSORS_FEATURE_MAX_SUB_FEATURES)
    by (change SENSORS_FEATURE_MAX_SUB_FEATURES with 22; eval_bits; lia).
  assert (Hvid : Z.land 0x202 0xFF00 <> SENSORS_FEATURE_VID)
    by (eval_bits; discriminate).
  destruct (mapping_is_number_of_primary _ _ _ _ _ _ _ Hsub Hprimary Hi Hcat
              Hsame Hzero Hrange Hvid) as [Hmapping _].
  exact Hmapping.
Defined.

Lemma access_mode_by_bits_witness :
  access_mode 1 = SENSORS_MODE_R /\ access_mode 3 = SENSORS_MODE_RW
  /\ access_mode 2 = SENSORS_MODE_W /\ access_mode 4 = SENSORS_MODE_NO_RW.
Proof.
  assert (Hne : 0 <> 1) by lia.
  assert (Hshow : SYSFS_METHOD_SHOW = 2 ^ 0) by reflexivity.
  assert (Hstore : SYSFS_METHOD_STORE = 2 ^ 1) by reflexivity.
  split; [|split; [|split]].
  - rewrite (access_mode_by_bits 0 1 1 (Z.le_refl 0) Z.le_0_1 Hne Hshow Hstore).
    reflexivity.
  - rewrite (access_mode_by_bits 0 1 3 (Z.le_refl 0) Z.le_0_1 Hne Hshow Hstore).
    reflexivity.
  - rewrite (access_mode_by_bits 0 1 2 (Z.le_refl 0) Z.le_0_1 Hne Hshow Hstore).
    reflexivity.
  - rewrite (access_mode_by_bits 0 1 4 (Z.le_refl 0) Z.le_0_1 Hne Hshow Hstore).
    reflexivity.
Defined.

Lemma subclient_device_skipped_witness :
  sensors_read_one_sysfs_chip Sample.fs Sample.start
    (Sample.device "0-0049" "w83781d subclient" ["temp2_input"])
  = Some (0, Sample.start).
Proof.
  destruct (subclient_device_skipped Sample.fs Sample.start
              (Sample.device "0-0049" "w83781d subclient" ["temp2_input"])
              _ "w83781d" eq_refl eq_refl) as [_ Hskip].
  exact Hskip.
Defined.

Lemma pci_address_packs_witness :
  read_bus Sample.fs "0000:00:1f.3"
  = Some (OnBus SENSORS_CHIP_NAME_BUS_PCI 251)
  /\ read_bus Sample.fs "0000:100:00.0"
     = Some (OnBus SENSORS_CHIP_NAME_BUS_PCI 65536)
  /\ read_bus Sample.fs "0x:1:2.3"
     = Some (OnBus SENSORS_CHIP_NAME_BUS_PCI 275)
  /\ read_bus Sample.fs "10000:00:00.0" = None
  /\ (251 mod 2 ^ 3 = 3 /\ (251 / 2 ^ 3) mod 2 ^ 5 = 31
      /\ (251 / 2 ^ 8) mod 2 ^ 8 = 0 /\ 251 / 2 ^ 16 = 0).
Proof.
  assert (A1 : C.sscanf_d_x "0000:00:1f.3" = None) by reflexivity.
  assert (A2 : C.sscanf_ident_d "0000:00:1f.3" = None) by reflexivity.
  assert (A3 : C.sscanf_pci "0000:00:1f.3" = Some (0, 0, 31, 3))
    by reflexivity.
  assert (B1 : C.sscanf_d_x "0000:100:00.0" = None) by reflexivity.
  assert (B2 : C.sscanf_ident_d "0000:100:00.0" = None) by reflexivity.
  assert (B3 : C.sscanf_pci "0000:100:00.0" = Some (0, 256, 0, 0))
    by reflexivity.
  assert (C1 : C.sscanf_d_x "0x:1:2.3" = None) by reflexivity.
  assert (C2 : C.sscanf_ident_d "0x:1:2.3" = None) by reflexivity.
  assert (C3 : C.sscanf_pci "0x:1:2.3" = Some (0, 1, 2, 3)) by reflexivity.
  assert (D1 : C.sscanf_d_x "10000:00:00.0" = None) by reflexivity.
  assert (D2 : C.sscanf_ident_d "10000:00:00.0" = None) by reflexivity.
  assert (D3 : C.sscanf_pci "10000:00:00.0" = Some (65536, 0, 0, 0))
    by reflexivity.
  destruct (pci_address_packs Sample.fs "0000:00:1f.3" 0 0 31 3 A1 A2 A3)
    as (_ & Hbus & Hback).
  destruct (pci_address_packs Sample.fs "0000:100:00.0" 0 256 0 0 B1 B2 B3)
    as (Hwide & _).
  destruct (pci_address_packs Sample.fs "0x:1:2.3" 0 1 2 3 C1 C2 C3)
    as (Hbare & _).
  destruct (pci_address_packs Sample.fs "10000:00:00.0" 65536 0 0 0 D1 D2 D3)
    as (Hover & _).
  split; [apply Hbus; cbn; lia|].
  split; [exact Hwide|]. split; [exact Hbare|]. split; [exact Hover|].
  apply Hback; cbn; lia.
Defined.

Lemma known_chip_not_synthesized_witness :
  sensors_read_one_sysfs_chip Sample.fs Sample.start
    (Sample.device "0-0048" "LM75" ["temp1_input"])
  = Some (0, {| sensors_chip_features_list :=
                  sensors_chip_features_list Sample.start;
                total_dynamic := 0;
                sensors_proc_chips :=
                  [chip_entry (Sample.device "0-0048" "LM75" ["temp1_input"])
                     (SampleScan.name_attr "LM75") 0 72] |}).
Proof.
  assert (Hbus : read_bus Sample.fs
                   (dev_name (Sample.device "0-0048" "LM75" ["temp1_input"]))
                 = Some (OnBus 0 72)) by (vm_compute; reflexivity).
  apply (known_chip_not_synthesized Sample.fs Sample.start _
           (SampleScan.name_attr "LM75") 0 72 [Sample.known "lm78"]
           [Sample.placeholder; Sample.placeholder; Sample.placeholder]
           (Sample.known "lm75") "lm75"); try reflexivity; try exact Hbus.
  repeat constructor. exists "lm78". split; reflexivity.
Defined.

Lemma unknown_chip_gets_feature_set_witness :
  (fun r => (total_dynamic (snd r),
             cf_prefix <$> sensors_chip_features_list (snd r)))
  <$> sensors_read_one_sysfs_chip Sample.fs Sample.start
        (Sample.device "0-002d" "w83781d" ["in0_input"])
  = Some (1, [Some "lm78"; Some "lm75"; Some "w83781d"; None; None]).
Proof.
  assert (Hbus : read_bus Sample.fs
                   (dev_name (Sample.device "0-002d" "w83781d" ["in0_input"]))
                 = Some (OnBus 0 45)) by (vm_compute; reflexivity).
  destruct (sensors_read_dynamic_chip
              (Sample.device "0-002d" "w83781d" ["in0_input"]))
    as [n_entry|] eqn:Hdyn; [|vm_compute in Hdyn; discriminate].
  assert (Hprefix : cf_prefix n_entry = Some "w83781d")
    by (vm_compute in Hdyn; injection Hdyn as <-; reflexivity).
  rewrite (unknown_chip_gets_feature_set Sample.fs Sample.start
             (Sample.device "0-002d" "w83781d" ["in0_input"])
             (SampleScan.name_attr "w83781d") 0 45
             [Sample.known "lm78"; Sample.known "lm75"]
             [Sample.placeholder; Sample.placeholder; Sample.placeholder]
             n_entry eq_refl eq_refl Hbus eq_refl).
  - simpl. now rewrite Hprefix.
  - repeat split; repeat constructor; try discriminate.
    + exists "lm78". split; reflexivity.
    + exists "lm75". split; reflexivity.
  - simpl. lia.
  - simpl. unfold C.INT_MIN, C.INT_MAX. lia.
  - exact Hdyn.
Defined.

Lemma scan_appends_to_registry_witness :
  exists r st',
    read_chip_devices Sample.fs Sample.start
      [Sample.device "0-0048" "lm75" []; Sample.device "serio0" "lm75" []]
    = Some (r, st')
    /\ (r = 0 \/ r = - 8)
    /\ exists added,
         sensors_proc_chips st' = sensors_proc_chips Sample.start ++ added
         /\ (length added <= 2)%nat.
Proof.
  destruct (read_chip_devices Sample.fs Sample.start
              [Sample.device "0-0048" "lm75" [];
               Sample.device "serio0" "lm75" []])
    as [[r st']|] eqn:Hscan; [|vm_compute in Hscan; discriminate].
  exists r, st'. split; [reflexivity|].
  exact (scan_appends_to_registry _ _ _ _ _ Hscan).
Defined.

Lemma scan_keeps_budget_witness :
  exists r st',
    read_chip_devices Sample.fs Sample.start
      [Sample.device "0-002d" "w83781d" ["in0_input"];
       Sample.device "0-002e" "it87" ["in0_input"];
       Sample.device "0-002f" "adm1021" ["temp1_input"]]
    = Some (r, st')
    /\ total_dynamic st' <= 2.
Proof.
  destruct (read_chip_devices Sample.fs Sample.start
              [Sample.device "0-002d" "w83781d" ["in0_input"];
               Sample.device "0-002e" "it87" ["in0_input"];
               Sample.device "0-002f" "adm1021" ["temp1_input"]])
    as [[r st']|] eqn:Hscan; [|vm_compute in Hscan; discriminate].
  exists r, st'. split; [reflexivity|].
  destruct (scan_keeps_budget _ _ _ _ _ Hscan) as (_ & Hcap & _).
  apply Hcap. simpl. lia.
Defined.

Lemma scan_stops_at_first_error_witness :
  exists st1,
    read_chip_devices Sample.fs Sample.start
      ([Sample.device "0-0048" "lm75" []] ++ Sample.device "serio0" "lm75" []
       :: [Sample.device "0-0049" "lm75" []])
    = Some (- 8, st1)
    /\ length (sensors_proc_chips st1) = 1%nat.
Proof.
  destruct (read_chip_devices Sample.fs Sample.start
              [Sample.device "0-0048" "lm75" []])
    as [[r st1]|] eqn:Hbefore; [|vm_compute in Hbefore; discriminate].
  assert (Hr : r = 0) by (vm_compute in Hbefore; congruence).
  assert (Hlen : length (sensors_proc_chips st1) = 1%nat)
    by (vm_compute in Hbefore; injection Hbefore as _ <-; reflexivity).
  subst r.
  assert (Hone : sensors_read_one_sysfs_chip Sample.fs st1
                   (Sample.device "serio0" "lm75" []) = Some (- 8, st1))
    by reflexivity.
  assert (Hne : - 8 <> 0) by lia.
  destruct (scan_stops_at_first_error Sample.fs _
              [Sample.device "0-0049" "lm75" []] _ _ _ _ _ Hbefore Hone Hne)
    as (Hscan & _).
  exists st1. split; [exact Hscan | exact Hlen].
Defined.

Lemma chips_scan_effects_witness :
  exists r st',
    sensors_read_sysfs_chips Sample.fs SampleScan.old_kernel Sample.start
    = Some (r, st')
    /\ (r = 0 \/ r = - 8 \/ r = - 4).
Proof.
  destruct (sensors_read_sysfs_chips Sample.fs SampleScan.old_kernel
              Sample.start) as [[r st']|] eqn:Hscan;
    [|vm_compute in Hscan; discriminate].
  exists r, st'. split; [reflexivity|].
  now destruct (chips_scan_effects _ _ _ _ _ Hscan).
Defined.

Lemma chips_scan_without_hwmon_witness :
  sensors_read_sysfs_chips Sample.fs SampleScan.no_sensors Sample.start
  = Some (0, Sample.start)
  /\ sensors_read_sysfs_chips Sample.fs SampleScan.no_access Sample.start
     = Some (- 4, Sample.start).
Proof.
  split.
  - destruct (chips_scan_without_hwmon Sample.fs SampleScan.no_sensors
                Sample.start 2 eq_refl) as [_ Hmissing].
    destruct (Hmissing 2 (or_introl eq_refl)) as [Hnone _].
    apply Hnone. now right.
  - destruct (chips_scan_without_hwmon Sample.fs SampleScan.no_access
                Sample.start 13 eq_refl) as [_ Hmissing].
    destruct (Hmissing 13 (or_introl eq_refl)) as [_ Herror].
    apply Herror; simpl; lia.
Defined.

Lemma bus_scan_entries_witness :
  sensors_read_sysfs_bus SampleScan.old_kernel []
  = (0, [{| bus_number := 0; bus_adapter := "SMBus I801 adapter at 0400" |};
         {| bus_number := -1; bus_adapter := "ISA main adapter" |};
         {| bus_number := 2; bus_adapter := "bt878 #0 [sw]" |}]).
Proof.
  destruct (bus_scan_entries SampleScan.old_kernel []) as [Hentries _].
  rewrite (Hentries _ _ eq_refl eq_refl). reflexivity.
Defined.

Lemma adapter_number_round_trip_witness :
  C.sscanf_i2c_d ("i2c-" +:+ C.print_int 12) = Some 12.
Proof.
  assert (Hn : 0 <= 12 <= C.INT_MAX) by (unfold C.INT_MAX; lia).
  now destruct (adapter_number_round_trip 12 Hn).
Defined.

Lemma same_model_synthesized_once_witness :
  (fun r => (fst r, total_dynamic (snd r),
             cf_prefix <$> sensors_chip_features_list (snd r),
             length (sensors_proc_chips (snd r))))
  <$> read_chip_devices Sample.fs Sample.start
        [Sample.device "0-002d" "w83781d" ["in0_input"];
         Sample.device "0-002e" "W83781D" ["in0_input"]]
  = Some (0, 1, [Some "lm78"; Some "lm75"; Some "w83781d"; None; None],
          2%nat).
Proof.
  assert (Hbus1 : read_bus Sample.fs
                    (dev_name (Sample.device "0-002d" "w83781d" ["in0_input"]))
                  = Some (OnBus 0 45)) by (vm_compute; reflexivity).
  assert (Hbus2 : read_bus Sample.fs
                    (dev_name (Sample.device "0-002e" "W83781D" ["in0_input"]))
                  = Some (OnBus 0 46)) by (vm_compute; reflexivity).
  destruct (sensors_read_dynamic_chip
              (Sample.device "0-002d" "w83781d" ["in0_input"]))
    as [n_entry|] eqn:Hdyn; [|vm_compute in Hdyn; discriminate].
  assert (Hprefix : cf_prefix n_entry = Some "w83781d")
    by (vm_compute in Hdyn; injection Hdyn as <-; reflexivity).
  assert (Hunknown : unknown_in (chopped (SampleScan.name_attr "w83781d"))
                       [Sample.known "lm78"; Sample.known "lm75"]
                       [Sample.placeholder; Sample.placeholder;
                        Sample.placeholder]).
  { repeat split; repeat constructor; try discriminate.
    - exists "lm78". split; reflexivity.
    - exists "lm75". split; reflexivity. }
  assert (Hbudget : total_dynamic Sample.start < N_PLACEHOLDER_ELEMENTS)
    by (simpl; lia).
  assert (Hint : C.INT_MIN <= total_dynamic Sample.start < C.INT_MAX)
    by (simpl; unfold C.INT_MIN, C.INT_MAX; lia).
  assert (Hafter : Forall (fun a => is_name a = false) [Sample.attr "in0_input"])
    by (repeat constructor).
  rewrite (same_model_synthesized_once Sample.fs Sample.start
             (Sample.device "0-002d" "w83781d" ["in0_input"])
             (Sample.device "0-002e" "W83781D" ["in0_input"])
             (SampleScan.name_attr "w83781d") (SampleScan.name_attr "W83781D")
             [] [Sample.attr "in0_input"] 0 45 0 46
             [Sample.known "lm78"; Sample.known "lm75"]
             [Sample.placeholder; Sample.placeholder; Sample.placeholder]
             n_entry eq_refl (Forall_nil _) eq_refl Hafter eq_refl Hbus1
             eq_refl eq_refl eq_refl Hbus2 eq_refl Hunknown Hbudget Hint Hdyn).
  simpl. now rewrite Hprefix.
Defined.

(** [%x] converts as an unsigned long, of which the [int] keeps the low 32
    bits. *)
Example hex_address_low_bits :
  C.sscanf_d_x "0-8000000000000048" = Some (0, 72).
Proof. vm_compute. reflexivity. Qed.

(** A hex prefix with no digit after it is read as 0. *)
Example bare_hex_prefix :
  C.sscanf_pci "0x:1:2.3" = Some (0, 1, 2, 3).
Proof. vm_compute. reflexivity. Qed.

(** What the loop prints for one duplicate and one index out of range. *)
Example messages_of_a_chip :
  attrs_stderr scan_start
    [Sample.attr "in0_input"; Sample.attr "in0_min"; Sample.attr "in0";
     Sample.attr "in16_input"; Sample.attr "uevent"]
  = [duplicate_message "in0"; too_many_message "in16_input"].
Proof. vm_compute. reflexivity. Qed.

End MoreExamples.
